(** * update_stats.py: README generation from GitHub statistics

    A shallow embedding of [.github/scripts/update_stats.py] and the
    properties its specification states about it.

    Python [str] values are lists of Unicode code points, decoded JSON is
    a tree of Python values, the outside world (the HTTP transport, the
    clock, the environment, the file system, standard output) is an
    explicit state with an event trace, and everything that can raise
    runs in an exception monad over that state. *)

From Stdlib Require Import ZArith NArith List String Ascii Lia Bool.
From Stdlib Require Import DecimalString.
From stdpp Require Import base option list gmap.

Local Open Scope N_scope.
Set Warnings "-register-all".

(** ** Text *)

(** A Python [str]: a sequence of Unicode code points. *)
Abbreviation char := N (only parsing).
Abbreviation text := (list N) (only parsing).

(** Code points of a literal (every literal in the script's code paths
    modelled with it is ASCII). *)
Definition txt (s : string) : text :=
  List.map N_of_ascii (list_ascii_of_string s).

(** [span p s]: the longest prefix of [s] whose characters satisfy [p],
    and what follows it (a greedy [c*] of the regex engine). *)
Fixpoint span (p : char -> bool) (s : text) : text * text :=
  match s with
  | c :: s' =>
      if p c then let '(a, b) := span p s' in (c :: a, b) else ([], s)
  | [] => ([], [])
  end.

(** [\s] of [re] on a [str] pattern, and the characters [str.strip()]
    removes: [Py_UNICODE_ISSPACE]. *)
Definition is_space (c : char) : bool :=
  ((9 <=? c) && (c <=? 13)) || ((28 <=? c) && (c <=? 32))
  || (c =? 133) || (c =? 160) || (c =? 5760)
  || ((8192 <=? c) && (c <=? 8202))
  || (c =? 8232) || (c =? 8233) || (c =? 8239) || (c =? 8287)
  || (c =? 12288).

(** The character class [[A-Z0-9_]]. *)
Definition is_token_char (c : char) : bool :=
  ((65 <=? c) && (c <=? 90)) || ((48 <=? c) && (c <=? 57)) || (c =? 95).

Definition LBRACE : char := 123.
Definition RBRACE : char := 125.

(** [str.strip()]. *)
Fixpoint lstrip (s : text) : text :=
  match s with
  | c :: s' => if is_space c then lstrip s' else s
  | [] => []
  end.

Definition strip (s : text) : text := rev (lstrip (rev (lstrip s))).

(** [s.replace("Z", "+00:00")]: every occurrence of the one-character
    pattern is replaced. *)
Definition replace_Z (s : text) : text :=
  flat_map (fun c => if c =? 90 then txt "+00:00" else [c]) s.

(** Decimal digits of a number, most significant first, padded with
    zeros to [width] digits (format spec [0{width}d], for numbers that
    fit). *)
Fixpoint pad (width : nat) (n : N) : text :=
  match width with
  | O => []
  | S w => pad w (n / 10) ++ [48 + n mod 10]
  end.

(** [str(z)] for an [int]. *)
Definition str_int (z : Z) : text :=
  txt (NilZero.string_of_int (Z.to_int z)).

(** ** Python values *)

(** The exceptions of a run, by class; [OtherError] is any class the
    script gives no special role. [RecursionError] is a subclass of
    [RuntimeError]. *)
Inductive exn : Type :=
  | RuntimeError (msg : text)
  | SystemExit (msg : text)
  | KeyError (key : text)
  | TypeError
  | AttributeError
  | ValueError
  | URLError
  | FileNotFoundError (path : text)
  | OverflowError
  | RecursionError
  | OtherError (name : text).

(** The name of the class of an exception. *)
Definition exception_class (e : exn) : list N :=
  match e with
  | RuntimeError _ => txt "RuntimeError"
  | SystemExit _ => txt "SystemExit"
  | KeyError _ => txt "KeyError"
  | TypeError => txt "TypeError"
  | AttributeError => txt "AttributeError"
  | ValueError => txt "ValueError"
  | URLError => txt "URLError"
  | FileNotFoundError _ => txt "FileNotFoundError"
  | OverflowError => txt "OverflowError"
  | RecursionError => txt "RecursionError"
  | OtherError name => name
  end.

(** [isinstance(e, RuntimeError)]. *)
Definition is_runtime_error (e : exn) : bool :=
  match e with
  | RuntimeError _ | RecursionError => true
  | _ => false
  end.

(** Decoded JSON and the values of a replacement mapping. A [dict] keeps
    its insertion order; its keys are unique. Numbers are the integers:
    a JSON number with a fraction or an exponent, a Python [float], is
    left out, as the counts of the API are integers. [PObject] is an
    object of any other type, one without container, number or
    truth-value methods of its own, given by what [str] and [repr] of it
    do: they return a text or raise. *)
Inductive pyval : Type :=
  | PNone
  | PBool (b : bool)
  | PInt (z : Z)
  | PStr (s : text)
  | PList (l : list pyval)
  | PDict (d : list (text * pyval))
  | PObject (str_result repr_result : list N + exn).

(** What a call does: it returns, it raises, or the model's iteration
    budget ran out before the loop finished. *)
Inductive outcome (A : Type) : Type :=
  | Ok (a : A)
  | Raise (e : exn)
  | OutOfFuel.
Arguments Ok {A} a.
Arguments Raise {A} e.
Arguments OutOfFuel {A}.

Definition text_eqb (a b : text) : bool := bool_decide (a = b).

Fixpoint assoc (k : text) (d : list (text * pyval)) : option pyval :=
  match d with
  | (k', v) :: d' => if text_eqb k k' then Some v else assoc k d'
  | [] => None
  end.

(** [bool(v)]. *)
Definition truthy (v : pyval) : bool :=
  match v with
  | PNone => false
  | PBool b => b
  | PInt z => negb (z =? 0)%Z
  | PStr s => negb (bool_decide (s = []))
  | PList l => match l with [] => false | _ => true end
  | PDict d => match d with [] => false | _ => true end
  | PObject _ _ => true
  end.

(** [v[key]] with a [str] key. *)
Definition getitem (v : pyval) (key : text) : outcome pyval :=
  match v with
  | PDict d => match assoc key d with
               | Some x => Ok x
               | None => Raise (KeyError key)
               end
  | _ => Raise TypeError
  end.

(** [v.get(key)]. *)
Definition dict_get (v : pyval) (key : text) : outcome pyval :=
  match v with
  | PDict d => match assoc key d with
               | Some x => Ok x
               | None => Ok PNone
               end
  | _ => Raise AttributeError
  end.

Fixpoint is_infix (needle hay : text) : bool :=
  match hay with
  | [] => text_eqb needle []
  | _ :: hay' =>
      text_eqb (firstn (length needle) hay) needle || is_infix needle hay'
  end.

(** [key in v] with a [str] key. *)
Definition contains (key : text) (v : pyval) : outcome bool :=
  match v with
  | PDict d => Ok (bool_decide (is_Some (assoc key d)))
  | PList l =>
      Ok (existsb (fun x => match x with
                            | PStr s => text_eqb s key
                            | _ => false
                            end) l)
  | PStr s => Ok (is_infix key s)
  | _ => Raise TypeError
  end.

(** [for x in v]: the items the loop visits. *)
Definition iterate (v : pyval) : outcome (list pyval) :=
  match v with
  | PList l => Ok l
  | PDict d => Ok (List.map (fun kv => PStr (fst kv)) d)
  | PStr s => Ok (List.map (fun c => PStr [c]) s)
  | _ => Raise TypeError
  end.

(** [total += v] with an [int] total and a value of the model: an
    [int] or a [bool] is added, anything else raises. *)
Definition add_int (total : Z) (v : pyval) : outcome Z :=
  match v with
  | PInt z => Ok (total + z)%Z
  | PBool b => Ok (total + (if b then 1 else 0))%Z
  | _ => Raise TypeError
  end.

(** [sys.get_int_max_str_digits()], by default. *)
Definition INT_MAX_STR_DIGITS : nat := 4300.

(** The decimal form of [z] has more digits than [str] converts. *)
Definition too_many_digits (z : Z) : bool :=
  Nat.ltb INT_MAX_STR_DIGITS (length (str_int (Z.abs z))).

(** The first exception [repr(v)] meets, going through a container in
    order (the keys of a [dict] are strings, whose [repr] returns). *)
Fixpoint repr_failure (v : pyval) : option exn :=
  match v with
  | PInt z => if too_many_digits z then Some ValueError else None
  | PObject _ (inr e) => Some e
  | PList l =>
      (fix go (l : list pyval) : option exn :=
         match l with
         | [] => None
         | x :: l' =>
             match repr_failure x with Some e => Some e | None => go l' end
         end) l
  | PDict d =>
      (fix go (d : list (list N * pyval)) : option exn :=
         match d with
         | [] => None
         | (_, x) :: d' =>
             match repr_failure x with Some e => Some e | None => go d' end
         end) d
  | _ => None
  end.

(** A value [json.loads] returns: nothing of another type, and no
    integer above the limit of the conversion from a string, which is
    the limit of the conversion to one. *)
Fixpoint is_json (v : pyval) : bool :=
  match v with
  | PObject _ _ => false
  | PInt z => negb (too_many_digits z)
  | PList l =>
      (fix go (l : list pyval) : bool :=
         match l with
         | [] => true
         | x :: l' => is_json x && go l'
         end) l
  | PDict d =>
      (fix go (d : list (list N * pyval)) : bool :=
         match d with
         | [] => true
         | (_, x) :: d' => is_json x && go d'
         end) d
  | _ => true
  end.

Section Repr.

(** [repr] of a container is Python's own; what it returns, when it
    returns, is a parameter here. *)
Variable py_repr : pyval -> text.

(** The string form of [v]: what [str(v)] returns when it returns (the
    empty text stands for an object that has none). *)
Definition py_str (v : pyval) : text :=
  match v with
  | PStr s => s
  | PInt z => str_int z
  | PNone => txt "None"
  | PBool true => txt "True"
  | PBool false => txt "False"
  | PList _ | PDict _ => py_repr v
  | PObject (inl t) _ => t
  | PObject (inr _) _ => []
  end.

(** [str(v)]: it raises what the object's own method raises, and
    [ValueError] for an [int] above the conversion limit, also inside a
    container. *)
Definition str_of (v : pyval) : outcome text :=
  match v with
  | PObject (inr e) _ => Raise e
  | PInt z => if too_many_digits z then Raise ValueError else Ok (py_str v)
  | PList _ | PDict _ =>
      match repr_failure v with
      | Some e => Raise e
      | None => Ok (py_str v)
      end
  | _ => Ok (py_str v)
  end.

(** ** The template renderer *)

(** One attempt of [PLACEHOLDER_PATTERN],
    [\{\{\s*([A-Z0-9_]+)\s*\}\}], anchored at the start of [s]: the
    leading whitespace, group 1, the trailing whitespace and the text
    after the match. The three character classes and the braces are
    pairwise disjoint, so the greedy run of each is the only one a
    backtracking matcher can succeed with. *)
Definition match_placeholder (s : text) : option (text * text * text * text) :=
  match s with
  | 123 :: 123 :: s1 =>
      let '(ws1, s2) := span is_space s1 in
      let '(tok, s3) := span is_token_char s2 in
      match tok with
      | [] => None
      | _ =>
          let '(ws2, s4) := span is_space s3 in
          match s4 with
          | 125 :: 125 :: rest => Some (ws1, tok, ws2, rest)
          | _ => None
          end
      end
  | _ => None
  end.

(** [match.group(0)]. *)
Definition group0 (ws1 tok ws2 : text) : text :=
  LBRACE :: LBRACE :: ws1 ++ tok ++ ws2 ++ [RBRACE; RBRACE].

(** [replacements[key]]. *)
Definition mapping_getitem (replacements : gmap (list N) pyval) (key : text)
  : outcome pyval :=
  match replacements !! key with
  | Some v => Ok v
  | None => Raise (KeyError key)
  end.

(** The inner function [substitute] of [render_template]. *)
Definition substitute (replacements : gmap (list N) pyval)
    (ws1 tok ws2 : text) : outcome text :=
  let key := strip tok in
  if bool_decide (is_Some (replacements !! key)) then
    match mapping_getitem replacements key with
    | Ok v => str_of v
    | Raise e => Raise e
    | OutOfFuel => OutOfFuel
    end
  else Ok (group0 ws1 tok ws2).

(** [PLACEHOLDER_PATTERN.sub(substitute, s)]: scan from the left; at a
    match emit the replacement and continue after the match, otherwise
    copy one character. [fuel] bounds the scan positions. *)
Fixpoint sub_scan (replacements : gmap (list N) pyval) (fuel : nat) (s : text)
  : outcome text :=
  match fuel with
  | O => match s with [] => Ok [] | _ => OutOfFuel end
  | S fuel' =>
      match match_placeholder s with
      | Some (ws1, tok, ws2, rest) =>
          match substitute replacements ws1 tok ws2 with
          | Ok r =>
              match sub_scan replacements fuel' rest with
              | Ok out => Ok (r ++ out)
              | Raise e => Raise e
              | OutOfFuel => OutOfFuel
              end
          | Raise e => Raise e
          | OutOfFuel => OutOfFuel
          end
      | None =>
          match s with
          | [] => Ok []
          | c :: s' =>
              match sub_scan replacements fuel' s' with
              | Ok out => Ok (c :: out)
              | Raise e => Raise e
              | OutOfFuel => OutOfFuel
              end
          end
      end
  end.

Definition render_template (template_text : text)
    (replacements : gmap (list N) pyval) : outcome text :=
  sub_scan replacements (length template_text) template_text.

End Repr.

(** ** Dates *)

(** A [datetime]: its fields, and the offset from UTC of its [tzinfo]
    in microseconds, [None] for a naive datetime. [createdAt] is parsed
    with the offset its text carries, the current time and the year
    boundaries are built with [timezone.utc]. *)
Record pydatetime : Type := Datetime {
  year : N; month : N; day : N;
  hour : N; minute : N; second : N; microsecond : N;
  utcoffset : option Z }.

Definition UTC : option Z := Some 0%Z.

Definition MINYEAR : N := 1.
Definition MAXYEAR : N := 9999.

Definition is_leap (y : N) : bool :=
  (y mod 4 =? 0) && (negb (y mod 100 =? 0) || (y mod 400 =? 0)).

Definition days_in_month (y m : N) : N :=
  if m =? 2 then (if is_leap y then 29 else 28)
  else if (m =? 4) || (m =? 6) || (m =? 9) || (m =? 11) then 30 else 31.

(** [datetime(y, m, d, tzinfo=timezone.utc)]: [ValueError] outside the
    calendar. *)
Definition datetime_new (y m d : N) : outcome pydatetime :=
  if (MINYEAR <=? y) && (y <=? MAXYEAR) && (1 <=? m) && (m <=? 12)
     && (1 <=? d) && (d <=? days_in_month y m)
  then Ok (Datetime y m d 0 0 0 0 UTC)
  else Raise ValueError.

(** Two datetimes of the same offset compare as their field tuples. *)
Definition time_of_year (a : pydatetime) : list N :=
  [month a; day a; hour a; minute a; second a; microsecond a].

Fixpoint lex_compare (a b : list N) : comparison :=
  match a, b with
  | x :: a', y :: b' =>
      match x ?= y with Eq => lex_compare a' b' | c => c end
  | [], [] => Eq
  | [], _ :: _ => Lt
  | _ :: _, [] => Gt
  end.

Definition dt_compare (a b : pydatetime) : comparison :=
  lex_compare (year a :: time_of_year a) (year b :: time_of_year b).

(** [a < b] by the fields alone. *)
Definition dt_ltb (a b : pydatetime) : bool :=
  match dt_compare a b with Lt => true | _ => false end.

(** The proleptic Gregorian ordinal of a date ([_ymd2ord]): day 1 is
    0001-01-01. *)
Definition DAYS_BEFORE_MONTH : list N :=
  [0; 0; 31; 59; 90; 120; 151; 181; 212; 243; 273; 304; 334].

Definition DAYS_IN_MONTH : list N :=
  [0; 31; 28; 31; 30; 31; 30; 31; 31; 30; 31; 30; 31].

Definition days_before_year (y : N) : N :=
  let y1 := y - 1 in y1 * 365 + y1 / 4 - y1 / 100 + y1 / 400.

Definition days_before_month (y m : N) : N :=
  nth (N.to_nat m) DAYS_BEFORE_MONTH 0
  + (if (2 <? m) && is_leap y then 1 else 0).

Definition toordinal (dt : pydatetime) : N :=
  days_before_year (year dt) + days_before_month (year dt) (month dt)
  + day dt.

(** The date of an ordinal ([_ord2ymd]). *)
Definition ord2ymd (ordinal : N) : N * N * N :=
  let n := ordinal - 1 in
  let n400 := n / 146097 in
  let n := n mod 146097 in
  let n100 := n / 36524 in
  let n := n mod 36524 in
  let n4 := n / 1461 in
  let n := n mod 1461 in
  let n1 := n / 365 in
  let n := n mod 365 in
  let y := n400 * 400 + 1 + n100 * 100 + n4 * 4 + n1 in
  if (n1 =? 4) || (n100 =? 4) then (y - 1, 12, 31)
  else
    let leapyear := (n1 =? 3) && (negb (n4 =? 24) || (n100 =? 3)) in
    let m := (n + 50) / 32 in
    let preceding :=
      nth (N.to_nat m) DAYS_BEFORE_MONTH 0
      + (if (2 <? m) && leapyear then 1 else 0) in
    if n <? preceding then
      let m' := m - 1 in
      let preceding' :=
        preceding - (nth (N.to_nat m') DAYS_IN_MONTH 0
                     + (if (m' =? 2) && leapyear then 1 else 0)) in
      (y, m', n - preceding' + 1)
    else (y, m, n - preceding + 1).

Definition US_PER_DAY : Z := 86400000000.
Definition MAXORDINAL : Z := 3652059.

(** The fields as microseconds since the day before 0001-01-01. *)
Definition local_microseconds (dt : pydatetime) : Z :=
  Z.of_N (toordinal dt) * US_PER_DAY
  + Z.of_N ((hour dt * 3600 + minute dt * 60 + second dt) * 1000000
            + microsecond dt).

(** [a < b]: naive with naive and equal offsets compare by the fields,
    different offsets by the instants, naive with aware raises. *)
Definition dt_lt (a b : pydatetime) : outcome bool :=
  match utcoffset a, utcoffset b with
  | None, None => Ok (dt_ltb a b)
  | Some oa, Some ob =>
      if (oa =? ob)%Z then Ok (dt_ltb a b)
      else Ok (local_microseconds a - oa <? local_microseconds b - ob)%Z
  | _, _ => Raise TypeError
  end.

(** [(dt - offset).replace(tzinfo=timezone.utc)]: [OverflowError] when
    the result leaves the years 1 to 9999. *)
Definition shift_to_utc (dt : pydatetime) (offset : Z) : outcome pydatetime :=
  let t := (local_microseconds dt - offset)%Z in
  let days := (t / US_PER_DAY)%Z in
  let rest := Z.to_N (t mod US_PER_DAY) in
  if ((0 <? days) && (days <=? MAXORDINAL))%Z then
    let '(y, m, d) := ord2ymd (Z.to_N days) in
    let seconds := rest / 1000000 in
    Ok (Datetime y m d (seconds / 3600) (seconds mod 3600 / 60)
                 (seconds mod 60) (rest mod 1000000) UTC)
  else Raise OverflowError.

(** The text of a UTC datetime at seconds precision, with ["Z"] for
    ["+00:00"]. *)
Definition isoformat_utc (dt : pydatetime) : text :=
  pad 4 (year dt) ++ txt "-" ++ pad 2 (month dt) ++ txt "-" ++ pad 2 (day dt)
  ++ txt "T" ++ pad 2 (hour dt) ++ txt ":" ++ pad 2 (minute dt)
  ++ txt ":" ++ pad 2 (second dt) ++ txt "Z".

(** ** The outside world *)

Record request : Type := Request {
  rq_token : text;
  rq_query : text;
  rq_variables : list (text * pyval) }.

Inductive event : Type :=
  | ENet (req : request)
  | ERead (path : text)
  | EWrite (path content : text)
  | EPrint (line : text).

(** What [request.urlopen] followed by [json.loads] of the body does:
    it gives the decoded reply, or raises [HTTPError], or raises
    something else ([URLError], a decoding [ValueError], a
    [RecursionError] on a deeply nested body, ...). *)
Inductive http_outcome : Type :=
  | Reply (data : pyval)
  | HTTPError (code : Z) (detail : text)
  | Failed (e : exn).

(** The environment of one run. The transport and the clock may answer
    differently as the run proceeds: they see the events so far. *)
Record World : Type := {
  urlopen : list event -> request -> http_outcome;
  utcnow : list event -> pydatetime;
  localzone : pydatetime -> Z;
  environ : gmap (list N) (list N);
  fromisoformat : text -> option pydatetime;
  repr : pyval -> text }.

(** [datetime.now(timezone.utc)] after the events [tr]: the clock's
    fields, in UTC. *)
Definition now_utc (W : World) (tr : list event) : pydatetime :=
  let t := utcnow W tr in
  Datetime (year t) (month t) (day t) (hour t) (minute t) (second t)
           (microsecond t) UTC.

(** [dt.astimezone(timezone.utc)]: a UTC datetime is returned as it
    is, another aware one is shifted by its offset, a naive one is
    taken as local time of the system, whose offset for it is
    [localzone]. *)
Definition astimezone_utc (W : World) (dt : pydatetime) : outcome pydatetime :=
  match utcoffset dt with
  | Some offset => if (offset =? 0)%Z then Ok dt else shift_to_utc dt offset
  | None => shift_to_utc dt (localzone W dt)
  end.

(** The script's [isoformat]: UTC, seconds precision, ["Z"] suffix. *)
Definition isoformat (W : World) (dt : pydatetime) : outcome text :=
  match astimezone_utc W dt with
  | Ok utc => Ok (isoformat_utc utc)
  | Raise e => Raise e
  | OutOfFuel => OutOfFuel
  end.

Record state : Type := State {
  trace : list event;
  files : gmap (list N) (list N) }.

Definition M (A : Type) : Type := state -> outcome A * state.

Definition ret {A} (a : A) : M A := fun s => (Ok a, s).

Definition bind {A B} (m : M A) (k : A -> M B) : M B :=
  fun s =>
    match m s with
    | (Ok a, s') => k a s'
    | (Raise e, s') => (Raise e, s')
    | (OutOfFuel, s') => (OutOfFuel, s')
    end.

Definition lift {A} (r : outcome A) : M A := fun s => (r, s).

Definition raise {A} (e : exn) : M A := lift (Raise e).

Definition emit (e : event) : M unit :=
  fun s => (Ok tt, State (trace s ++ [e]) (files s)).

Notation "'let*' x := m 'in' k" := (bind m (fun x => k))
  (at level 10, x name, m at level 100, k at level 200).
Notation "m ;; k" := (bind m (fun _ => k))
  (at level 100, k at level 200, right associativity).

(** ** The API client *)

(** The two messages of [execute]:
    [f"GraphQL request failed ({exc.code}): {detail}"] and
    [f"GraphQL API returned errors: {data['errors']}"]. *)
Definition request_failed_message (code : Z) (detail : text) : text :=
  txt "GraphQL request failed (" ++ str_int code ++ txt "): " ++ detail.

Definition api_errors_message (errors : text) : text :=
  txt "GraphQL API returned errors: " ++ errors.

(** [GitHubGraphQLClient.execute]. The [errors] member it formats is
    decoded JSON, whose [str] returns. *)
Definition execute (W : World) (token query : text)
    (variables : list (text * pyval)) : M pyval :=
  fun s =>
    let req := Request token query variables in
    let s' := State (trace s ++ [ENet req]) (files s) in
    match urlopen W (trace s) req with
    | HTTPError code detail =>
        (Raise (RuntimeError (request_failed_message code detail)), s')
    | Failed e => (Raise e, s')
    | Reply data =>
        match contains (txt "errors") data with
        | Ok true =>
            match getitem data (txt "errors") with
            | Ok errs =>
                (Raise (RuntimeError
                          (api_errors_message (py_str (repr W) errs))), s')
            | Raise e => (Raise e, s')
            | OutOfFuel => (OutOfFuel, s')
            end
        | Ok false => (getitem data (txt "data"), s')
        | Raise e => (Raise e, s')
        | OutOfFuel => (OutOfFuel, s')
        end
    end.

(** ** The stats aggregator *)

Definition created_at_query : text := txt "
    query($login: String!) {
      user(login: $login) {
        createdAt
      }
    }
    ".

Definition contributions_query : text := txt "
    query($login: String!, $from: DateTime!, $to: DateTime!) {
      user(login: $login) {
        contributionsCollection(from: $from, to: $to) {
          totalCommitContributions
        }
      }
    }
    ".

Definition stars_query : text := txt "
    query($login: String!, $cursor: String) {
      user(login: $login) {
        repositories(
          first: 100,
          after: $cursor,
          ownerAffiliations: OWNER,
          isFork: false,
          orderBy: {field: UPDATED_AT, direction: DESC}
        ) {
          nodes {
            stargazerCount
          }
          pageInfo {
            hasNextPage
            endCursor
          }
        }
      }
    }
    ".

Definition not_found_message (login : text) : text :=
  txt "User '" ++ login ++ txt "' not found when fetching creation date.".

(** [fetch_user_created_at]. *)
Definition fetch_user_created_at (W : World) (token login : text)
  : M pydatetime :=
  let* data := execute W token created_at_query [(txt "login", PStr login)] in
  let* user := lift (dict_get data (txt "user")) in
  if negb (truthy user) then raise (RuntimeError (not_found_message login))
  else
    let* created_at := lift (getitem user (txt "createdAt")) in
    match created_at with
    | PStr s =>
        match fromisoformat W (replace_Z s) with
        | Some dt => ret dt
        | None => raise ValueError
        end
    | _ => raise AttributeError
    end.

(** The variables of a contributions request, from the two texts. *)
Definition window_variables (login from to : text) : list (text * pyval) :=
  [(txt "login", PStr login); (txt "from", PStr from); (txt "to", PStr to)].

(** The body of the [while] loop of [fetch_commit_total], from the
    computation of [period_end] to the assignment of [period_start]: the
    next [period_start] and [total_commits]. *)
Definition commit_step (W : World) (token login : text) (now : pydatetime)
    (period_start : pydatetime) (total_commits : Z) : M (pydatetime * Z) :=
  let* boundary := lift (datetime_new (year period_start + 1) 1 1) in
  let* later := lift (dt_lt now boundary) in
  let period_end := if later : bool then now else boundary in
  let* from := lift (isoformat W period_start) in
  let* to := lift (isoformat W period_end) in
  let* data := execute W token contributions_query
                 (window_variables login from to) in
  let* user := lift (getitem data (txt "user")) in
  let* collection := lift (getitem user (txt "contributionsCollection")) in
  let* n := lift (getitem collection (txt "totalCommitContributions")) in
  let* total := lift (add_int total_commits n) in
  ret (period_end, total).

(** [while period_start < now: ...; return total_commits]; one unit of
    [fuel] per iteration. *)
Fixpoint commit_loop (W : World) (token login : text) (now : pydatetime)
    (fuel : nat) (period_start : pydatetime) (total_commits : Z) : M Z :=
  match dt_lt period_start now with
  | Ok true =>
      match fuel with
      | O => lift OutOfFuel
      | S fuel' =>
          let* st := commit_step W token login now period_start total_commits in
          commit_loop W token login now fuel' (fst st) (snd st)
      end
  | Ok false => ret total_commits
  | Raise e => raise e
  | OutOfFuel => lift OutOfFuel
  end.

(** [datetime.now(timezone.utc)]. *)
Definition datetime_now (W : World) : M pydatetime :=
  fun s => (Ok (now_utc W (trace s)), s).

(** [fetch_commit_total]. *)
Definition fetch_commit_total (W : World) (token login : text) (fuel : nat)
  : M Z :=
  let* created_at := fetch_user_created_at W token login in
  let* now := datetime_now W in
  commit_loop W token login now fuel created_at 0%Z.

(** [for repo in nodes: total_stars += repo["stargazerCount"]]. *)
Fixpoint sum_stars (nodes : list pyval) (total_stars : Z) : outcome Z :=
  match nodes with
  | [] => Ok total_stars
  | repo :: nodes' =>
      match getitem repo (txt "stargazerCount") with
      | Ok n =>
          match add_int total_stars n with
          | Ok t => sum_stars nodes' t
          | r => r
          end
      | Raise e => Raise e
      | OutOfFuel => OutOfFuel
      end
  end.

(** The [while True] loop of [fetch_total_stars]; one unit of [fuel] per
    page. *)
Fixpoint stars_loop (W : World) (token login : text) (fuel : nat)
    (total_stars : Z) (cursor : pyval) : M Z :=
  match fuel with
  | O => lift OutOfFuel
  | S fuel' =>
      let* data := execute W token stars_query
                     [(txt "login", PStr login); (txt "cursor", cursor)] in
      let* user := lift (getitem data (txt "user")) in
      let* repos := lift (getitem user (txt "repositories")) in
      let* nodes := lift (getitem repos (txt "nodes")) in
      let* items := lift (iterate nodes) in
      let* total := lift (sum_stars items total_stars) in
      let* info := lift (getitem repos (txt "pageInfo")) in
      let* more := lift (getitem info (txt "hasNextPage")) in
      if negb (truthy more) then ret total
      else
        let* info' := lift (getitem repos (txt "pageInfo")) in
        let* next := lift (getitem info' (txt "endCursor")) in
        stars_loop W token login fuel' total next
  end.

(** [fetch_total_stars]. *)
Definition fetch_total_stars (W : World) (token login : text) (fuel : nat)
  : M Z :=
  stars_loop W token login fuel 0%Z PNone.

(** ** The entry point *)

(** The options given on the command line ([None]: not given). *)
Record cli : Type := Cli {
  opt_template : option (list N);
  opt_readme : option (list N);
  opt_login : option (list N) }.

(** [Path.read_text] and [Path.write_text]. *)
Definition read_text (path : text) : M (list N) :=
  fun s =>
    let s' := State (trace s ++ [ERead path]) (files s) in
    match files s !! path with
    | Some content => (Ok content, s')
    | None => (Raise (FileNotFoundError path), s')
    end.

Definition write_text (path content : text) : M unit :=
  fun s =>
    (Ok tt, State (trace s ++ [EWrite path content]) (<[path := content]> (files s))).

Definition print (line : text) : M unit := emit (EPrint line).

(** [a or b] on optional strings, as a truth value test of [a]. *)
Definition or_else (a b : option (list N)) : option (list N) :=
  match a with
  | Some (_ :: _) => a
  | _ => b
  end.

Definition falsy (a : option (list N)) : bool :=
  match a with
  | Some (_ :: _) => false
  | _ => true
  end.

Definition missing_token_message : text :=
  txt "Missing GITHUB_TOKEN environment variable for GitHub API access.".

Definition missing_login_message : text :=
  txt "GitHub login is not specified. Pass --login or set GITHUB_REPOSITORY_OWNER.".

(** [main], after [parser.parse_args()] accepted the command line; the
    two loops get [fuel] iterations each. *)
Definition main (W : World) (args : cli) (fuel : nat) : M unit :=
  let template := default (txt "TEMPLATE.md") (opt_template args) in
  let readme := default (txt "README.md") (opt_readme args) in
  let login_arg :=
    match opt_login args with
    | Some l => Some l
    | None => environ W !! txt "GITHUB_REPOSITORY_OWNER"
    end in
  let token := or_else (environ W !! txt "GITHUB_TOKEN")
                       (environ W !! txt "TOKEN") in
  if falsy token then raise (SystemExit missing_token_message)
  else if falsy login_arg then raise (SystemExit missing_login_message)
  else
    let token := default [] token in
    let login := default [] login_arg in
    print (txt "Fetching stats for " ++ login ++ [32; 8230]) ;;
    let* stars := fetch_total_stars W token login fuel in
    let* commits := fetch_commit_total W token login fuel in
    let* stars_text := lift (str_of (repr W) (PInt stars)) in
    print (txt "Total stars: " ++ stars_text) ;;
    let* commits_text := lift (str_of (repr W) (PInt commits)) in
    print (txt "Total commits: " ++ commits_text) ;;
    let* template_text := read_text template in
    let* rendered :=
      lift (render_template (repr W) template_text
              {[ txt "STARS" := PInt stars; txt "COMMITS" := PInt commits ]}) in
    write_text readme rendered ;;
    print (txt "Updated " ++ readme ++ txt " from " ++ template
           ++ txt " with latest stats.").

(** The exit status of the interpreter running the script. *)
Definition exit_status (r : outcome unit) : option Z :=
  match r with
  | Ok _ => Some 0%Z
  | Raise _ => Some 1%Z
  | OutOfFuel => None
  end.

(** What the interpreter writes to standard error for a [SystemExit]
    raised with a string. *)
Definition exit_message (r : outcome unit) : option (list N) :=
  match r with
  | Raise (SystemExit msg) => Some msg
  | _ => None
  end.

(** * Vocabulary of the properties *)

(** ** Placeholders *)

(** The strings [PLACEHOLDER_PATTERN] matches, read off the regular
    expression: ["{{"], whitespace, a non-empty token, whitespace,
    ["}}"]. *)
Definition placeholder (ws1 tok ws2 : text) : Prop :=
  Forall (fun c => is_space c = true) ws1
  /\ tok <> []
  /\ Forall (fun c => is_token_char c = true) tok
  /\ Forall (fun c => is_space c = true) ws2.

(** [s] contains a substring with placeholder syntax. *)
Definition has_placeholder (s : text) : Prop :=
  exists pre ws1 tok ws2 post,
    placeholder ws1 tok ws2 /\ s = pre ++ group0 ws1 tok ws2 ++ post.

(** A template cut into the pieces the scan treats as units. *)
Inductive segment : Type :=
  | Lit (c : char)
  | Hole (ws1 tok ws2 : text).

Definition seg_src (g : segment) : text :=
  match g with
  | Lit c => [c]
  | Hole ws1 tok ws2 => group0 ws1 tok ws2
  end.

Definition seg_out (py_repr : pyval -> text) (m : gmap (list N) pyval)
    (g : segment) : text :=
  match g with
  | Lit c => [c]
  | Hole ws1 tok ws2 =>
      match m !! tok with
      | Some v => py_str py_repr v
      | None => group0 ws1 tok ws2
      end
  end.

Definition seg_ok (g : segment) : Prop :=
  match g with
  | Lit _ => True
  | Hole ws1 tok ws2 => placeholder ws1 tok ws2
  end.

Definition src (gs : list segment) : text := concat (List.map seg_src gs).

Definition out (py_repr : pyval -> text) (m : gmap (list N) pyval)
    (gs : list segment) : text :=
  concat (List.map (seg_out py_repr m) gs).

(** What the scan makes of a piece: a literal character is copied, a
    placeholder whose token is a key becomes [str] of the value, which
    can raise, and any other placeholder is copied. *)
Definition seg_render (py_repr : pyval -> text) (m : gmap (list N) pyval)
    (g : segment) : outcome text :=
  match g with
  | Lit c => Ok [c]
  | Hole ws1 tok ws2 =>
      match m !! tok with
      | Some v => str_of py_repr v
      | None => Ok (group0 ws1 tok ws2)
      end
  end.

(** The pieces rendered from left to right: the first [str] that raises
    ends the rendering. *)
Fixpoint renders (py_repr : pyval -> text) (m : gmap (list N) pyval)
    (gs : list segment) : outcome text :=
  match gs with
  | [] => Ok []
  | g :: gs' =>
      match seg_render py_repr m g with
      | Ok r =>
          match renders py_repr m gs' with
          | Ok o => Ok (r ++ o)
          | Raise e => Raise e
          | OutOfFuel => OutOfFuel
          end
      | Raise e => Raise e
      | OutOfFuel => OutOfFuel
      end
  end.

(** Two renderings one after the other: the first to raise ends it. *)
Definition app_outcome (a b : outcome (list N)) : outcome (list N) :=
  match a with
  | Ok x =>
      match b with
      | Ok y => Ok (x ++ y)
      | Raise e => Raise e
      | OutOfFuel => OutOfFuel
      end
  | Raise e => Raise e
  | OutOfFuel => OutOfFuel
  end.

(** [str] of the value returns. *)
Definition has_str (py_repr : pyval -> text) (v : pyval) : Prop :=
  str_of py_repr v = Ok (py_str py_repr v).

(** Every occurrence of a placeholder in [s] is one of the holes of
    [gs], at its position. *)
Definition covers (gs : list segment) (s : text) : Prop :=
  forall pre ws1 tok ws2 post,
    placeholder ws1 tok ws2 ->
    s = pre ++ group0 ws1 tok ws2 ++ post ->
    exists gs1 gs2, gs = gs1 ++ Hole ws1 tok ws2 :: gs2 /\ src gs1 = pre.

(** A test for placeholder syntax: some suffix starts with a match. *)
Fixpoint find_placeholder (s : list N) : bool :=
  match match_placeholder s with
  | Some _ => true
  | None => match s with [] => false | _ :: s' => find_placeholder s' end
  end.

(** ** Windows *)

(** The end of the window that starts at [period_start]: the next year
    boundary or [now], whichever comes first. *)
Definition year_boundary (y : N) : pydatetime := Datetime y 1 1 0 0 0 0 UTC.

Definition window_end (now period_start : pydatetime) : pydatetime :=
  let boundary := year_boundary (year period_start + 1) in
  if dt_ltb now boundary then now else boundary.

(** [a < b] holds. *)
Definition before (a b : pydatetime) : bool :=
  match dt_lt a b with Ok true => true | _ => false end.

(** A window that ends after it starts. *)
Definition forward (w : pydatetime * pydatetime) : Prop :=
  before (fst w) (snd w) = true.

(** The windows from [period_start] to [now], at most [n] of them. *)
Fixpoint windows (n : nat) (period_start now : pydatetime)
  : list (pydatetime * pydatetime) :=
  if before period_start now then
    match n with
    | O => []
    | S n' =>
        let period_end := window_end now period_start in
        (period_start, period_end) :: windows n' period_end now
    end
  else [].

(** Consecutive windows from [a] to [b]: the first starts at [a], each
    next one starts where the previous one ends, the last ends at [b]. *)
Fixpoint chain (a : pydatetime) (ws : list (pydatetime * pydatetime))
    (b : pydatetime) : Prop :=
  match ws with
  | [] => a = b
  | w :: ws' => fst w = a /\ chain (snd w) ws' b
  end.

(** The calendar years from that of [a] to that of [b], each year
    read in the datetime's own offset. *)
Definition years_spanned (a b : pydatetime) : nat :=
  N.to_nat (year b + 1 - year a).

(** The age in whole years at [b] of an account created at [a]. *)
Definition whole_years (a b : pydatetime) : nat :=
  N.to_nat (year b - year a
            - match lex_compare (time_of_year b) (time_of_year a) with
              | Lt => 1
              | _ => 0
              end).

(** The iterations the loop still has to make. *)
Definition iterations_left (period_start now : pydatetime) : nat :=
  if before period_start now
  then Nat.max 1 (years_spanned period_start now)
  else O.

(** The request for one window and the count read from its reply. *)
Definition window_count (W : World) (token login : text)
    (w : pydatetime * pydatetime) : M pyval :=
  let* from := lift (isoformat W (fst w)) in
  let* to := lift (isoformat W (snd w)) in
  let* data := execute W token contributions_query
                 (window_variables login from to) in
  let* user := lift (getitem data (txt "user")) in
  let* collection := lift (getitem user (txt "contributionsCollection")) in
  lift (getitem collection (txt "totalCommitContributions")).

(** The counts of the windows [ws], requested in order and added to
    [total]. *)
Fixpoint sum_windows (W : World) (token login : text)
    (ws : list (pydatetime * pydatetime)) (total : Z) : M Z :=
  match ws with
  | [] => ret total
  | w :: ws' =>
      let* n := window_count W token login w in
      let* total' := lift (add_int total n) in
      sum_windows W token login ws' total'
  end.

(** The request for a window, when both its ends have a UTC form. *)
Definition window_request (W : World) (token login : text)
    (w : pydatetime * pydatetime) : option request :=
  match isoformat W (fst w), isoformat W (snd w) with
  | Ok from, Ok to =>
      Some (Request token contributions_query (window_variables login from to))
  | _, _ => None
  end.

(** [reqs] are the requests for the windows [ws], one each. *)
Definition requested (W : World) (token login : text)
    (ws : list (pydatetime * pydatetime)) (reqs : list request) : Prop :=
  Forall2 (fun w req => window_request W token login w = Some req) ws reqs.

(** Starting in state [s], the requests for the windows [ws] are answered
    one after the other with the counts [cs], and leave state [s']. *)
Inductive answered (W : World) (token login : text)
  : state -> list (pydatetime * pydatetime) -> list Z -> state -> Prop :=
  | answered_nil s : answered W token login s [] [] s
  | answered_cons s w ws req n c cs s1 s' :
      window_request W token login w = Some req ->
      window_count W token login w s = (Ok n, s1) ->
      trace s1 = trace s ++ [ENet req] ->
      add_int 0 n = Ok c ->
      answered W token login s1 ws cs s' ->
      answered W token login s (w :: ws) (c :: cs) s'.

Definition sumZ (cs : list Z) : Z := fold_right Z.add 0%Z cs.

(** ** What a computation does to the world *)

(** [m] only talks to the API: it logs requests and leaves the files
    alone. *)
Definition api_only {A} (m : M A) : Prop :=
  forall s, exists reqs,
    snd (m s) = State (trace s ++ List.map ENet reqs) (files s).

Definition is_write (e : event) : bool :=
  match e with EWrite _ _ => true | _ => false end.

(** The token and the login [main] works with, and the state after its
    first line of output. *)
Definition the_token (W : World) : list N :=
  default [] (or_else (environ W !! txt "GITHUB_TOKEN")
                      (environ W !! txt "TOKEN")).

Definition the_login (W : World) (args : cli) : list N :=
  default [] (match opt_login args with
              | Some l => Some l
              | None => environ W !! txt "GITHUB_REPOSITORY_OWNER"
              end).

Definition started (W : World) (args : cli) (s : state) : state :=
  State (trace s ++ [EPrint (txt "Fetching stats for " ++ the_login W args
                             ++ [32; 8230])])
        (files s).

Definition failed {A} (r : outcome A) : Prop :=
  match r with Ok _ => False | _ => True end.

(** Two calls failed the same way. *)
Definition same_failure {A B} (r1 : outcome A) (r2 : outcome B) : Prop :=
  match r1, r2 with
  | Raise e1, Raise e2 => e1 = e2
  | OutOfFuel, OutOfFuel => True
  | _, _ => False
  end.

(** ** A sample run *)

Definition sample_reply (created_text : text) (tr : list event) (req : request)
  : http_outcome :=
  if text_eqb (rq_query req) created_at_query then
    Reply (PDict [(txt "data",
             PDict [(txt "user",
               PDict [(txt "createdAt", PStr created_text)])])])
  else if text_eqb (rq_query req) contributions_query then
    Reply (PDict [(txt "data",
             PDict [(txt "user",
               PDict [(txt "contributionsCollection",
                 PDict [(txt "totalCommitContributions",
                         PInt (Z.of_nat (length tr)))])])])])
  else
    Reply (PDict [(txt "data",
             PDict [(txt "user",
               PDict [(txt "repositories",
                 PDict [(txt "nodes",
                         PList [PDict [(txt "stargazerCount", PInt 3)];
                                PDict [(txt "stargazerCount", PInt 5)]]);
                        (txt "pageInfo",
                         PDict [(txt "hasNextPage", PBool false);
                                (txt "endCursor", PNone)])])])])]).

Definition sample_world (created_text : text) (created now : pydatetime)
  : World :=
  {| urlopen := sample_reply created_text;
     utcnow := fun _ => now;
     localzone := fun _ => 0%Z;
     environ := {[ txt "GITHUB_TOKEN" := txt "t0ken";
                   txt "GITHUB_REPOSITORY_OWNER" := txt "octocat" ]};
     fromisoformat := fun t =>
       if text_eqb t (replace_Z created_text) then Some created else None;
     repr := fun _ => txt "..." |}.

Definition sample_state : state :=
  State [] {[ txt "TEMPLATE.md" := txt "Stars: {{ STARS }}, commits: {{COMMITS}}" ]}.

(** An account created on the last day of 2020, seen early in 2022. *)
Definition world_2022 : World :=
  sample_world (txt "2020-12-31T10:00:00Z")
    (Datetime 2020 12 31 10 0 0 0 UTC) (Datetime 2022 1 2 8 30 0 250000 UTC).

(** The same run with the clock in the last year of [datetime]. *)
Definition world_9999 : World :=
  sample_world (txt "9999-03-01T00:00:00Z")
    (Datetime 9999 3 1 0 0 0 0 UTC) (Datetime 9999 6 1 0 0 0 0 UTC).

(** An account whose creation time comes with an offset west of UTC,
    late on the last day of 2020 there and already 2021 in UTC. *)
Definition world_west : World :=
  sample_world (txt "2020-12-31T23:00:00-05:00")
    (Datetime 2020 12 31 23 0 0 0 (Some (-18000000000)%Z))
    (Datetime 2021 6 1 0 0 0 0 UTC).

(** One whose creation time comes with an offset east of UTC, early on
    the first day of 2021 there and still 2020 in UTC, seen two hours
    later. *)
Definition world_east : World :=
  sample_world (txt "2021-01-01T02:00:00+05:00")
    (Datetime 2021 1 1 2 0 0 0 (Some 18000000000%Z))
    (Datetime 2020 12 31 23 0 0 0 UTC).

(** A transport that fails, then reports errors, then answers. *)
Definition flaky_world : World :=
  {| urlopen := fun tr _ =>
       match length tr with
       | O => HTTPError 502 (txt "Bad Gateway")
       | S O => Reply (PDict [(txt "errors", PStr (txt "rate limited"));
                              (txt "data", PNone)])
       | _ => Reply (PDict [(txt "data", PDict [(txt "user", PNone)])])
       end;
     utcnow := fun _ => Datetime 2022 1 2 8 30 0 250000 UTC;
     localzone := fun _ => 0%Z;
     environ := ∅;
     fromisoformat := fun _ => None;
     repr := fun _ => txt "..." |}.

(** A run with [TOKEN] set and nothing else. *)
Definition token_only_world : World :=
  {| urlopen := urlopen flaky_world;
     utcnow := utcnow flaky_world;
     localzone := localzone flaky_world;
     environ := {[ txt "TOKEN" := txt "t0ken" ]};
     fromisoformat := fromisoformat flaky_world;
     repr := repr flaky_world |}.

(** ** Vocabulary of the further properties *)

(** [k] can be group 1 of a match: a non-empty run of token characters. *)
Definition is_token (k : text) : bool :=
  match k with
  | [] => false
  | _ => forallb is_token_char k
  end.

(** The field ranges of a [datetime] object. *)
Definition valid_datetime (dt : pydatetime) : bool :=
  (MINYEAR <=? year dt) && (year dt <=? MAXYEAR)
  && (1 <=? month dt) && (month dt <=? 12)
  && (1 <=? day dt) && (day dt <=? days_in_month (year dt) (month dt))
  && (hour dt <? 24) && (minute dt <? 60) && (second dt <? 60)
  && (microsecond dt <? 1000000).

(** [a] and [b] are the same second. *)
Definition same_second (a b : pydatetime) : Prop :=
  year a = year b /\ month a = month b /\ day a = day b
  /\ hour a = hour b /\ minute a = minute b /\ second a = second b.

(** [a <= b]. *)
Definition dt_leb (a b : pydatetime) : bool := negb (dt_ltb b a).

(** The request for one page of repositories. *)
Definition stars_variables (login : text) (cursor : pyval)
  : list (text * pyval) :=
  [(txt "login", PStr login); (txt "cursor", cursor)].

Definition stars_request (token login : text) (cursor : pyval) : request :=
  Request token stars_query (stars_variables login cursor).

(** What [fetch_total_stars] reads from the reply to it: the repository
    nodes and the page information. *)
Definition star_page (data : pyval) : option (list pyval * pyval) :=
  match getitem data (txt "user") with
  | Ok user =>
      match getitem user (txt "repositories") with
      | Ok repos =>
          match getitem repos (txt "nodes") with
          | Ok nodes =>
              match iterate nodes with
              | Ok items =>
                  match getitem repos (txt "pageInfo") with
                  | Ok info => Some (items, info)
                  | _ => None
                  end
              | _ => None
              end
          | _ => None
          end
      | _ => None
      end
  | _ => None
  end.

(** Starting in state [s] with [cursor], the API serves the pages
    [pages], each with the cursor it was requested with: every page but
    the last says there is a next page and gives its cursor, the last
    says there is none; [s'] is the state after the last request. *)
Inductive paged (W : World) (token login : text)
  : state -> pyval -> list (pyval * list pyval) -> state -> Prop :=
  | paged_last s cursor data items info more s1 :
      execute W token stars_query (stars_variables login cursor) s
      = (Ok data, s1) ->
      star_page data = Some (items, info) ->
      getitem info (txt "hasNextPage") = Ok more ->
      truthy more = false ->
      paged W token login s cursor [(cursor, items)] s1
  | paged_more s cursor data items info more next rest s1 s' :
      execute W token stars_query (stars_variables login cursor) s
      = (Ok data, s1) ->
      star_page data = Some (items, info) ->
      getitem info (txt "hasNextPage") = Ok more ->
      truthy more = true ->
      getitem info (txt "endCursor") = Ok next ->
      paged W token login s1 next rest s' ->
      paged W token login s cursor ((cursor, items) :: rest) s'.

(** A reply that announces a next page. *)
Definition page_with_next (data : pyval) : Prop :=
  exists items info more next,
    star_page data = Some (items, info)
    /\ (forall total, exists t, sum_stars items total = Ok t)
    /\ getitem info (txt "hasNextPage") = Ok more
    /\ truthy more = true
    /\ getitem info (txt "endCursor") = Ok next.

(** The two nodes of the sample reply. *)
Definition sample_nodes : list pyval :=
  [PDict [(txt "stargazerCount", PInt 3)];
   PDict [(txt "stargazerCount", PInt 5)]].

(** An API that always announces a next page. *)
Definition endless_world : World :=
  {| urlopen := fun _ _ =>
       Reply (PDict [(txt "data",
                PDict [(txt "user",
                  PDict [(txt "repositories",
                    PDict [(txt "nodes", PList sample_nodes);
                           (txt "pageInfo",
                            PDict [(txt "hasNextPage", PBool true);
                                   (txt "endCursor", PStr (txt "Y3Vyc29y"))])])])])]);
     utcnow := fun _ => Datetime 2022 1 2 8 30 0 250000 UTC;
     localzone := fun _ => 0%Z;
     environ := {[ txt "GITHUB_TOKEN" := txt "t0ken";
                   txt "GITHUB_REPOSITORY_OWNER" := txt "octocat" ]};
     fromisoformat := fun _ => None;
     repr := fun _ => txt "..." |}.

(** An API that knows no such user and reports no error. *)
Definition ghost_world : World :=
  {| urlopen := fun _ _ => Reply (PDict [(txt "data", PDict [(txt "user", PNone)])]);
     utcnow := fun _ => Datetime 2022 1 2 8 30 0 250000 UTC;
     localzone := fun _ => 0%Z;
     environ := {[ txt "GITHUB_TOKEN" := txt "t0ken";
                   txt "GITHUB_REPOSITORY_OWNER" := txt "ghost" ]};
     fromisoformat := fun _ => None;
     repr := fun _ => txt "..." |}.

(** [m] sends only requests that satisfy [P], and leaves the files
    alone. *)
Definition sends {A} (P : request -> Prop) (m : M A) : Prop :=
  forall s, exists reqs,
    snd (m s) = State (trace s ++ List.map ENet reqs) (files s)
    /\ Forall P reqs.

(** The request carries [token] and asks about [login]. *)
Definition request_of (token login : text) (req : request) : Prop :=
  rq_token req = token
  /\ assoc (txt "login") (rq_variables req) = Some (PStr login).

(** An API that gives the creation date as a number. *)
Definition undated_world : World :=
  {| urlopen := fun _ _ =>
       Reply (PDict [(txt "data",
                PDict [(txt "user",
                  PDict [(txt "createdAt", PInt 1609408800)])])]);
     utcnow := fun _ => Datetime 2022 1 2 8 30 0 250000 UTC;
     localzone := fun _ => 0%Z;
     environ := ∅;
     fromisoformat := fun _ => None;
     repr := fun _ => txt "..." |}.

(** * Properties *)

(** ** Placeholders and the scan *)

Lemma token_char_not_space c : is_token_char c = true -> is_space c = false.
Proof.
  intros H. apply not_true_is_false. intros Hs.
  unfold is_token_char, is_space in *.
  rewrite ?orb_true_iff, ?andb_true_iff, ?N.leb_le, ?N.eqb_eq in *. lia.
Qed.

Lemma space_not_token_char c : is_space c = true -> is_token_char c = false.
Proof.
  intros H. apply not_true_is_false. intros Hs.
  apply token_char_not_space in Hs. congruence.
Qed.

Lemma token_char_not_brace c :
  is_token_char c = true -> c <> LBRACE /\ c <> RBRACE.
Proof.
  unfold is_token_char, LBRACE, RBRACE.
  rewrite ?orb_true_iff, ?andb_true_iff, ?N.leb_le, ?N.eqb_eq. lia.
Qed.

Lemma space_not_brace c : is_space c = true -> c <> LBRACE /\ c <> RBRACE.
Proof.
  unfold is_space, LBRACE, RBRACE.
  rewrite ?orb_true_iff, ?andb_true_iff, ?N.leb_le, ?N.eqb_eq. lia.
Qed.

Lemma span_sound p s a b :
  span p s = (a, b) ->
  s = a ++ b /\ Forall (fun c => p c = true) a.
Proof.
  revert a b. induction s as [|c s IH]; intros a b; simpl.
  - intros [= <- <-]. auto.
  - destruct (p c) eqn:Hc.
    + destruct (span p s) as [a' b'] eqn:Hs. intros [= <- <-].
      destruct (IH _ _ eq_refl) as [-> Ha]. split; [reflexivity|].
      constructor; assumption.
    + intros [= <- <-]. auto.
Qed.

Lemma span_stop p a b :
  Forall (fun c => p c = true) a ->
  match b with [] => True | c :: _ => p c = false end ->
  span p (a ++ b) = (a, b).
Proof.
  intros Ha Hb. induction Ha as [|c a Hc _ IH]; simpl.
  - destruct b as [|c b]; simpl; [reflexivity|]. rewrite Hb. reflexivity.
  - rewrite Hc, IH. reflexivity.
Qed.

Lemma match_placeholder_sound s ws1 tok ws2 rest :
  match_placeholder s = Some (ws1, tok, ws2, rest) ->
  s = group0 ws1 tok ws2 ++ rest /\ placeholder ws1 tok ws2.
Proof.
  unfold match_placeholder.
  destruct s as [|c0 s]; [discriminate|].
  destruct (N.eq_dec c0 123) as [->|Hc0];
    [|destruct c0 as [|p]; [discriminate|];
      do 7 (destruct p as [p|p|]; try discriminate); congruence].
  destruct s as [|c1 s]; [discriminate|].
  destruct (N.eq_dec c1 123) as [->|Hc1];
    [|destruct c1 as [|p]; [discriminate|];
      do 7 (destruct p as [p|p|]; try discriminate); congruence].
  destruct (span is_space s) as [a s2] eqn:H1.
  destruct (span is_token_char s2) as [t s3] eqn:H2.
  destruct t as [|t0 t]; [discriminate|].
  destruct (span is_space s3) as [b s4] eqn:H3.
  destruct s4 as [|c2 s4]; [discriminate|].
  destruct (N.eq_dec c2 125) as [->|Hc2];
    [|destruct c2 as [|p]; [discriminate|];
      do 7 (destruct p as [p|p|]; try discriminate); congruence].
  destruct s4 as [|c3 s4]; [discriminate|].
  destruct (N.eq_dec c3 125) as [->|Hc3];
    [|destruct c3 as [|p]; [discriminate|];
      do 7 (destruct p as [p|p|]; try discriminate); congruence].
  intros [= <- <- <- <-].
  apply span_sound in H1 as [-> Ha].
  apply span_sound in H2 as [-> Ht].
  apply span_sound in H3 as [-> Hb].
  split.
  - unfold group0, LBRACE, RBRACE. simpl.
    repeat (rewrite <- ?app_assoc; simpl). reflexivity.
  - repeat split; try assumption. discriminate.
Qed.

Lemma match_placeholder_complete ws1 tok ws2 rest :
  placeholder ws1 tok ws2 ->
  match_placeholder (group0 ws1 tok ws2 ++ rest) = Some (ws1, tok, ws2, rest).
Proof.
  intros (Ha & Hne & Ht & Hb).
  unfold group0, LBRACE, RBRACE, match_placeholder. simpl.
  repeat (rewrite <- ?app_assoc; simpl).
  destruct tok as [|t0 tok]; [congruence|].
  rewrite (span_stop is_space ws1).
  2: assumption.
  2: { simpl. apply token_char_not_space. inversion Ht; assumption. }
  rewrite (span_stop is_token_char (t0 :: tok) (ws2 ++ 125 :: 125 :: rest)).
  2: assumption.
  2: { destruct Hb as [|c ws2 Hc _]; simpl.
       - reflexivity.
       - apply space_not_token_char; assumption. }
  rewrite (span_stop is_space ws2 (125 :: 125 :: rest)).
  2: assumption.
  2: reflexivity.
  reflexivity.
Qed.

Lemma group0_not_nil ws1 tok ws2 : group0 ws1 tok ws2 <> [].
Proof. discriminate. Qed.

(** Text without an opening brace, then ["}}"]: a ["{"] found in it lies
    after the ["}}"]. *)
Lemma skip_body body rest pre x :
  Forall (fun c => c <> LBRACE) body ->
  body ++ RBRACE :: RBRACE :: rest = pre ++ LBRACE :: x ->
  exists pre', pre = body ++ RBRACE :: RBRACE :: pre'
               /\ rest = pre' ++ LBRACE :: x.
Proof.
  intros Hb. revert pre. induction Hb as [|b body Hb0 _ IH]; intros pre; simpl.
  - destruct pre as [|p0 [|p1 pre]]; simpl; try discriminate.
    intros [= <- <- ->]. exists pre. auto.
  - destruct pre as [|p0 pre]; simpl.
    + intros [= ->]. congruence.
    + intros [= <- H]. destruct (IH _ H) as (pre' & -> & ->).
      exists pre'. auto.
Qed.

Lemma placeholder_body ws1 tok ws2 :
  placeholder ws1 tok ws2 ->
  Forall (fun c => c <> LBRACE) (ws1 ++ tok ++ ws2)
  /\ exists b body, ws1 ++ tok ++ ws2 = b :: body.
Proof.
  intros (Ha & Hne & Ht & Hb). split.
  - rewrite !Forall_app. repeat split.
    + eapply Forall_impl; [exact Ha|]. intros c Hc. apply space_not_brace, Hc.
    + eapply Forall_impl; [exact Ht|]. intros c Hc.
      apply token_char_not_brace, Hc.
    + eapply Forall_impl; [exact Hb|]. intros c Hc. apply space_not_brace, Hc.
  - destruct ws1 as [|a ws1]; simpl; [|eauto].
    destruct tok as [|t tok]; [congruence|]. simpl. eauto.
Qed.

(** Two occurrences of a placeholder do not overlap: one that starts
    after the start of another starts at or after its end. *)
Lemma placeholders_disjoint ws1 tok ws2 rest pre ws1' tok' ws2' post :
  placeholder ws1 tok ws2 ->
  pre <> [] ->
  group0 ws1 tok ws2 ++ rest = pre ++ group0 ws1' tok' ws2' ++ post ->
  exists pre', pre = group0 ws1 tok ws2 ++ pre'
               /\ rest = pre' ++ group0 ws1' tok' ws2' ++ post.
Proof.
  intros Hp Hpre. destruct (placeholder_body _ _ _ Hp) as (Hbody & b & body & Eb).
  unfold group0 at 1 3. simpl.
  replace ((ws1 ++ tok ++ ws2 ++ [RBRACE; RBRACE]) ++ rest)
    with ((ws1 ++ tok ++ ws2) ++ RBRACE :: RBRACE :: rest)
    by (repeat (rewrite <- ?app_assoc; simpl); reflexivity).
  destruct pre as [|p0 pre]; [congruence|]. simpl.
  intros [= <- H].
  destruct pre as [|p1 pre]; simpl in H.
  - exfalso. rewrite Eb in H. unfold group0 in H. simpl in H.
    injection H as H1 _. rewrite Eb in Hbody.
    inversion Hbody; subst. congruence.
  - injection H as <- H.
    unfold group0 in H. simpl in H.
    destruct (skip_body _ _ _ _ Hbody H) as (pre' & -> & ->).
    exists pre'. split; [|reflexivity].
    unfold group0. simpl.
    repeat (rewrite <- ?app_assoc; simpl). reflexivity.
Qed.

Lemma lstrip_id s :
  match s with [] => True | c :: _ => is_space c = false end -> lstrip s = s.
Proof. destruct s as [|c s]; simpl; [reflexivity|]. intros ->. reflexivity. Qed.

(** [.strip()] does nothing to group 1. *)
Lemma strip_token tok :
  Forall (fun c => is_token_char c = true) tok -> strip tok = tok.
Proof.
  intros Ht. unfold strip.
  assert (Hhead : forall l, Forall (fun c => is_token_char c = true) l ->
            match l with [] => True | c :: _ => is_space c = false end).
  { intros l Hl. destruct Hl as [|c l Hc _]; [exact I|].
    apply token_char_not_space, Hc. }
  rewrite (lstrip_id tok) by (apply Hhead, Ht).
  rewrite (lstrip_id (rev tok)).
  - apply rev_involutive.
  - apply Hhead. apply List.Forall_rev. exact Ht.
Qed.

Lemma str_of_ok py_repr v t : str_of py_repr v = Ok t -> t = py_str py_repr v.
Proof.
  unfold str_of.
  destruct v as [|b|z|t0|l|d|[t0|e] r]; try (intros [= <-]; reflexivity);
    try discriminate.
  - destruct (too_many_digits z); [discriminate|]. intros [= <-]. reflexivity.
  - destruct (repr_failure (PList l)); [discriminate|].
    intros [= <-]. reflexivity.
  - destruct (repr_failure (PDict d)); [discriminate|].
    intros [= <-]. reflexivity.
Qed.

Lemma str_of_returns py_repr v : str_of py_repr v <> OutOfFuel.
Proof.
  unfold str_of.
  destruct v as [|b|z|t0|l|d|[t0|e] r]; try discriminate.
  - destruct (too_many_digits z); discriminate.
  - destruct (repr_failure (PList l)); discriminate.
  - destruct (repr_failure (PDict d)); discriminate.
Qed.

(** [str] of decoded JSON returns. *)
Lemma repr_failure_json : forall v, is_json v = true -> repr_failure v = None.
Proof.
  fix IH 1. intros [|b|z|t|l|d|o r]; simpl; try reflexivity.
  - intros H. apply negb_true_iff in H. rewrite H. reflexivity.
  - induction l as [|x l IHl]; [reflexivity|]. intros H.
    apply andb_true_iff in H as [Hx Hl]. rewrite (IH x Hx). apply IHl, Hl.
  - induction d as [|[k x] d IHd]; [reflexivity|]. intros H.
    apply andb_true_iff in H as [Hx Hd]. rewrite (IH x Hx). apply IHd, Hd.
  - discriminate.
Qed.

Lemma str_of_json py_repr v : is_json v = true -> has_str py_repr v.
Proof.
  intros H. unfold has_str, str_of.
  pose proof (repr_failure_json v H) as Hr.
  destruct v as [|b|z|t|l|d|o r]; try reflexivity.
  - simpl in H. apply negb_true_iff in H. rewrite H. reflexivity.
  - rewrite Hr. reflexivity.
  - rewrite Hr. reflexivity.
  - discriminate.
Qed.

Lemma seg_render_ok py_repr m g r :
  seg_render py_repr m g = Ok r -> r = seg_out py_repr m g.
Proof.
  destruct g as [c|ws1 tok ws2]; simpl; [congruence|].
  destruct (m !! tok) as [v|]; [apply str_of_ok|congruence].
Qed.

(** A rendering that returns is the output of the pieces. *)
Lemma renders_ok py_repr m gs :
  forall r, renders py_repr m gs = Ok r -> r = out py_repr m gs.
Proof.
  induction gs as [|g gs IH]; intros r; simpl.
  - intros [= <-]. reflexivity.
  - destruct (seg_render py_repr m g) as [r1| |] eqn:Hg; try discriminate.
    destruct (renders py_repr m gs) as [o| |]; try discriminate.
    intros [= <-]. apply seg_render_ok in Hg. subst r1.
    rewrite (IH o eq_refl). reflexivity.
Qed.

Lemma renders_returns py_repr m gs : renders py_repr m gs <> OutOfFuel.
Proof.
  induction gs as [|g gs IH]; simpl; [discriminate|].
  destruct (seg_render py_repr m g) as [r1| |] eqn:Hg; try discriminate.
  - destruct (renders py_repr m gs); try discriminate. congruence.
  - destruct g as [c|ws1 tok ws2]; simpl in Hg; [discriminate|].
    destruct (m !! tok) as [v|]; [|discriminate].
    exfalso. exact (str_of_returns _ _ Hg).
Qed.

(** When [str] returns for the values of the tokens, so does the
    rendering. *)
Lemma renders_out py_repr m gs :
  (forall ws1 tok ws2 v,
      In (Hole ws1 tok ws2) gs -> m !! tok = Some v -> has_str py_repr v) ->
  renders py_repr m gs = Ok (out py_repr m gs).
Proof.
  induction gs as [|g gs IH]; intros Hstr; [reflexivity|].
  cbn [renders]. rewrite IH by (intros; eapply Hstr; [right|]; eassumption).
  unfold out. cbn [List.map concat]. fold (out py_repr m gs).
  destruct g as [c|ws1 tok ws2]; [reflexivity|]. cbn [seg_render seg_out].
  destruct (m !! tok) as [v|] eqn:Hv; [|reflexivity].
  rewrite (Hstr ws1 tok ws2 v (or_introl eq_refl) Hv). reflexivity.
Qed.

Lemma substitute_spec py_repr m ws1 tok ws2 :
  placeholder ws1 tok ws2 ->
  substitute py_repr m ws1 tok ws2 = seg_render py_repr m (Hole ws1 tok ws2).
Proof.
  intros (_ & _ & Ht & _). unfold substitute, mapping_getitem. simpl.
  rewrite (strip_token tok Ht).
  destruct (m !! tok) as [v|] eqn:E.
  - rewrite bool_decide_eq_true_2 by eauto. reflexivity.
  - rewrite bool_decide_eq_false_2 by (intros [? ?]; discriminate). reflexivity.
Qed.

Lemma covers_nil : covers [] [].
Proof.
  intros pre ws1 tok ws2 post _ H. exfalso.
  destruct pre; discriminate H.
Qed.

(** The scan cuts its input into literal characters and placeholders,
    misses no placeholder, and emits each piece's output. *)
Lemma scan_spec py_repr m fuel :
  forall s : list N, (length s <= fuel)%nat ->
  exists gs, Forall seg_ok gs /\ src gs = s /\ covers gs s
             /\ sub_scan py_repr m fuel s = renders py_repr m gs.
Proof.
  induction fuel as [|fuel IH]; intros s Hlen.
  - destruct s as [|c s]; [|simpl in Hlen; lia].
    exists []. repeat split; [constructor|apply covers_nil].
  - simpl. destruct (match_placeholder s) as [[[[ws1 tok] ws2] rest]|] eqn:E.
    + destruct (match_placeholder_sound _ _ _ _ _ E) as [-> Hp].
      assert (Hrest : (length rest <= fuel)%nat).
      { rewrite length_app in Hlen. unfold group0 in Hlen. simpl in Hlen. lia. }
      destruct (IH rest Hrest) as (gs & Hok & Hsrc & Hcov & Hrun).
      exists (Hole ws1 tok ws2 :: gs). repeat split.
      * constructor; assumption.
      * unfold src. simpl. fold (src gs). rewrite Hsrc. reflexivity.
      * intros pre ws1' tok' ws2' post Hp' Heq.
        destruct pre as [|p0 pre].
        -- rewrite app_nil_l in Heq. rewrite Heq in E.
           rewrite (match_placeholder_complete _ _ _ post Hp') in E.
           injection E as -> -> -> ->.
           exists [], gs. split; reflexivity.
        -- assert (Hne : p0 :: pre <> []) by discriminate.
           destruct (placeholders_disjoint _ _ _ _ _ _ _ _ _ Hp Hne Heq)
             as (pre' & Epre & Erest).
           destruct (Hcov _ _ _ _ _ Hp' Erest) as (gs1 & gs2 & -> & Hsrc1).
           exists (Hole ws1 tok ws2 :: gs1), gs2. split; [reflexivity|].
           unfold src. simpl. fold (src gs1). rewrite Hsrc1, Epre. reflexivity.
      * rewrite (substitute_spec _ _ _ _ _ Hp), Hrun. reflexivity.
    + destruct s as [|c s].
      * exists []. repeat split; [constructor|apply covers_nil].
      * assert (Hs : (length s <= fuel)%nat) by (simpl in Hlen; lia).
        destruct (IH s Hs) as (gs & Hok & Hsrc & Hcov & Hrun).
        exists (Lit c :: gs). repeat split.
        -- constructor; [exact I|assumption].
        -- unfold src. simpl. fold (src gs). rewrite Hsrc. reflexivity.
        -- intros pre ws1' tok' ws2' post Hp' Heq.
           destruct pre as [|p0 pre].
           ++ rewrite app_nil_l in Heq. rewrite Heq in E.
              rewrite (match_placeholder_complete _ _ _ post Hp') in E.
              discriminate E.
           ++ simpl in Heq. injection Heq as <- Heq.
              destruct (Hcov _ _ _ _ _ Hp' Heq) as (gs1 & gs2 & -> & Hsrc1).
              exists (Lit c :: gs1), gs2. split; [reflexivity|].
              unfold src. simpl. fold (src gs1). rewrite Hsrc1. reflexivity.
        -- rewrite Hrun. reflexivity.
Qed.

Lemma render_template_spec py_repr (s : list N) m :
  exists gs, Forall seg_ok gs /\ src gs = s /\ covers gs s
             /\ render_template py_repr s m = renders py_repr m gs.
Proof. apply scan_spec. reflexivity. Qed.

Lemma match_placeholder_no_brace c s :
  c <> LBRACE -> match_placeholder (c :: s) = None.
Proof.
  unfold LBRACE. intros Hc. unfold match_placeholder.
  destruct c as [|p]; [reflexivity|].
  do 7 (destruct p as [p|p|]; try reflexivity). congruence.
Qed.

(** The scan needs no more fuel than the length of its input. *)
Lemma sub_scan_fuel py_repr m fuel1 :
  forall fuel2 (s : list N),
    (length s <= fuel1)%nat -> (length s <= fuel2)%nat ->
    sub_scan py_repr m fuel1 s = sub_scan py_repr m fuel2 s.
Proof.
  induction fuel1 as [|fuel1 IH]; intros fuel2 s H1 H2.
  - destruct s; [|simpl in H1; lia]. destruct fuel2; reflexivity.
  - destruct fuel2 as [|fuel2].
    { destruct s; [reflexivity|simpl in H2; lia]. }
    simpl. destruct (match_placeholder s) as [[[[ws1 tok] ws2] rest]|] eqn:E.
    + destruct (match_placeholder_sound _ _ _ _ _ E) as [-> _].
      rewrite length_app in H1, H2. unfold group0 in H1, H2.
      simpl in H1, H2.
      rewrite (IH fuel2 rest) by lia. reflexivity.
    + destruct s as [|c s]; [reflexivity|]. simpl in H1, H2.
      rewrite (IH fuel2 s) by lia. reflexivity.
Qed.

Lemma app_outcome_nil_l (b : outcome (list N)) : app_outcome (Ok []) b = b.
Proof. destruct b; reflexivity. Qed.

Lemma app_outcome_assoc (a b c : outcome (list N)) :
  app_outcome (app_outcome a b) c = app_outcome a (app_outcome b c).
Proof.
  destruct a as [x| |], b as [y| |], c as [z| |]; simpl; try reflexivity.
  rewrite app_assoc. reflexivity.
Qed.

(** A character at which no match starts is copied. *)
Lemma render_template_cons_nomatch py_repr m c (s : list N) :
  match_placeholder (c :: s) = None ->
  render_template py_repr (c :: s) m
  = app_outcome (Ok [c]) (render_template py_repr s m).
Proof.
  intros Hc. unfold render_template. cbn [length sub_scan].
  rewrite Hc. reflexivity.
Qed.

Lemma render_template_cons_literal py_repr m c (s : list N) :
  c <> LBRACE ->
  render_template py_repr (c :: s) m
  = app_outcome (Ok [c]) (render_template py_repr s m).
Proof.
  intros Hc. apply render_template_cons_nomatch, match_placeholder_no_brace, Hc.
Qed.

(** A placeholder at the front is rendered, then the rest. *)
Lemma render_template_placeholder_prefix py_repr m ws1 tok ws2 (rest : list N) :
  placeholder ws1 tok ws2 ->
  render_template py_repr (group0 ws1 tok ws2 ++ rest) m
  = app_outcome (seg_render py_repr m (Hole ws1 tok ws2))
      (render_template py_repr rest m).
Proof.
  intros Hp. unfold render_template.
  destruct (length (group0 ws1 tok ws2 ++ rest)) as [|n] eqn:Hn.
  { unfold group0 in Hn. simpl in Hn. discriminate. }
  cbn [sub_scan]. rewrite (match_placeholder_complete _ _ _ rest Hp).
  rewrite (substitute_spec _ _ _ _ _ Hp).
  rewrite (sub_scan_fuel py_repr m n (length rest) rest); [reflexivity| |lia].
  rewrite length_app in Hn. unfold group0 in Hn. simpl in Hn. lia.
Qed.

(** A placeholder anywhere in a template is rendered between the
    rendering of what precedes it and the rendering of what follows
    it. *)
Lemma render_template_occurrence py_repr m ws1 tok ws2 (post : list N) :
  placeholder ws1 tok ws2 ->
  forall n (pre : list N),
    (length pre <= n)%nat ->
    render_template py_repr (pre ++ group0 ws1 tok ws2 ++ post) m
    = app_outcome (render_template py_repr pre m)
        (app_outcome (seg_render py_repr m (Hole ws1 tok ws2))
           (render_template py_repr post m)).
Proof.
  intros Hp. induction n as [|n IH]; intros pre Hlen.
  - destruct pre; [|simpl in Hlen; lia].
    rewrite app_nil_l, app_outcome_nil_l.
    apply render_template_placeholder_prefix, Hp.
  - destruct pre as [|c pre].
    { rewrite app_nil_l, app_outcome_nil_l.
      apply render_template_placeholder_prefix, Hp. }
    simpl in Hlen.
    destruct (match_placeholder ((c :: pre) ++ group0 ws1 tok ws2 ++ post))
      as [[[[a k] b] rest]|] eqn:E.
    + destruct (match_placeholder_sound _ _ _ _ _ E) as [Heq Hq].
      assert (Hne : c :: pre <> []) by discriminate.
      destruct (placeholders_disjoint _ _ _ _ _ _ _ _ _ Hq Hne (eq_sym Heq))
        as (pre' & Epre & Erest).
      rewrite Epre, <- app_assoc.
      rewrite !(render_template_placeholder_prefix _ _ _ _ _ _ Hq).
      rewrite IH, app_outcome_assoc; [reflexivity|].
      apply (f_equal (@length N)) in Epre. rewrite length_app in Epre.
      unfold group0 in Epre. simpl in Epre. lia.
    + assert (E' : match_placeholder (c :: pre) = None).
      { destruct (match_placeholder (c :: pre)) as [[[[a k] b] rest]|] eqn:E0;
          [|reflexivity].
        destruct (match_placeholder_sound _ _ _ _ _ E0) as [Heq Hq].
        rewrite Heq, <- app_assoc in E.
        rewrite (match_placeholder_complete _ _ _ _ Hq) in E. discriminate. }
      simpl app in *.
      rewrite (render_template_cons_nomatch _ _ _ _ E),
        (render_template_cons_nomatch _ _ _ _ E').
      rewrite IH by lia. rewrite app_outcome_assoc. reflexivity.
Qed.

(** A rendering raises what [str] of the value of one of its
    placeholders raises. *)
Lemma renders_raise py_repr m gs e :
  renders py_repr m gs = Raise e ->
  exists gs1 ws1 tok ws2 gs2 v,
    gs = gs1 ++ Hole ws1 tok ws2 :: gs2
    /\ m !! tok = Some v
    /\ str_of py_repr v = Raise e.
Proof.
  induction gs as [|g gs IH]; simpl; [discriminate|].
  destruct (seg_render py_repr m g) as [r| |] eqn:Hg.
  - destruct (renders py_repr m gs) as [o|e'|]; try discriminate.
    intros [= ->].
    destruct (IH eq_refl) as (gs1 & ws1 & tok & ws2 & gs2 & v & -> & Hm & Hv).
    exists (g :: gs1), ws1, tok, ws2, gs2, v. auto.
  - intros [= ->]. destruct g as [c|ws1 tok ws2]; simpl in Hg; [discriminate|].
    destruct (m !! tok) as [v|] eqn:Hm; [|discriminate].
    exists [], ws1, tok, ws2, gs, v. auto.
  - discriminate.
Qed.

Lemma src_app gs1 gs2 : src (gs1 ++ gs2) = src gs1 ++ src gs2.
Proof. unfold src. rewrite List.map_app, concat_app. reflexivity. Qed.

Lemma out_literals py_repr m gs :
  Forall (fun g => match g with Lit _ => True | Hole _ _ _ => False end) gs ->
  out py_repr m gs = src gs.
Proof.
  induction 1 as [|g gs Hg _ IH]; [reflexivity|].
  unfold out, src in *. simpl. rewrite IH. destruct g; [reflexivity|contradiction].
Qed.

Lemma renders_literals py_repr m gs :
  Forall (fun g => match g with Lit _ => True | Hole _ _ _ => False end) gs ->
  renders py_repr m gs = Ok (src gs).
Proof.
  induction 1 as [|g gs Hg _ IH]; [reflexivity|].
  simpl. rewrite IH. destruct g; [reflexivity|contradiction].
Qed.

Lemma render_template_identity py_repr (s : list N) m :
  ~ has_placeholder s -> render_template py_repr s m = Ok s.
Proof.
  intros Hno.
  destruct (render_template_spec py_repr s m) as (gs & Hok & Hsrc & _ & Hrun).
  rewrite Hrun, <- Hsrc. apply renders_literals.
  apply Forall_forall. intros g Hin. destruct g as [c|ws1 tok ws2]; [exact I|].
  apply Hno. apply list_elem_of_split in Hin as (gs1 & gs2 & ->).
  rewrite Forall_app, Forall_cons in Hok. destruct Hok as (_ & Hp & _).
  exists (src gs1), ws1, tok, ws2, (src gs2). split; [exact Hp|].
  rewrite <- Hsrc, src_app. reflexivity.
Qed.

Lemma has_placeholder_find s : has_placeholder s -> find_placeholder s = true.
Proof.
  intros (pre & ws1 & tok & ws2 & post & Hp & ->).
  assert (Hunfold : forall s, find_placeholder s =
            match match_placeholder s with
            | Some _ => true
            | None => match s with [] => false | _ :: s' => find_placeholder s' end
            end) by (intros [|? ?]; reflexivity).
  induction pre as [|c pre IH].
  - rewrite app_nil_l, Hunfold, (match_placeholder_complete _ _ _ post Hp).
    reflexivity.
  - rewrite Hunfold. destruct (match_placeholder _); [reflexivity|]. exact IH.
Qed.

Lemma has_str_plain py_repr :
  (forall s, has_str py_repr (PStr s))
  /\ has_str py_repr PNone
  /\ (forall b, has_str py_repr (PBool b))
  /\ (forall z, too_many_digits z = false -> has_str py_repr (PInt z)).
Proof.
  unfold has_str. repeat split.
  intros z Hz. simpl. rewrite Hz. reflexivity.
Qed.

(** ** Dates and windows *)

Lemma lex_compare_refl a : lex_compare a a = Eq.
Proof. induction a as [|x a IH]; simpl; [|rewrite N.compare_refl]; auto. Qed.

Lemma lex_compare_gt_lt a : forall b, lex_compare a b = Gt -> lex_compare b a = Lt.
Proof.
  induction a as [|x a IH]; intros [|y b]; simpl; try discriminate; auto.
  destruct (N.compare_spec x y) as [->|Hxy|Hxy]; try discriminate.
  - rewrite N.compare_refl. apply IH.
  - intros _. apply N.compare_lt_iff in Hxy. rewrite Hxy. reflexivity.
Qed.

Lemma dt_compare_eq a b :
  utcoffset a = utcoffset b -> dt_compare a b = Eq -> a = b.
Proof.
  destruct a, b. unfold dt_compare, time_of_year. simpl. intros ->.
  repeat match goal with
         | |- context [?x ?= ?y] =>
             destruct (N.compare_spec x y); try discriminate; subst
         end.
  reflexivity.
Qed.

Lemma lex_compare_trans a :
  forall b c, lex_compare a b = Lt -> lex_compare b c = Lt ->
              lex_compare a c = Lt.
Proof.
  induction a as [|x a IH]; intros [|y b] [|z c]; simpl; try discriminate;
    auto.
  destruct (N.compare_spec x y) as [->|Hxy|Hxy]; try discriminate.
  - destruct (N.compare_spec y z) as [->|Hyz|Hyz]; try discriminate;
      [apply IH|auto].
  - intros _ Hyz.
    assert (Hxz : x < z).
    { destruct (N.compare_spec y z) as [->|Hlt|Hgt]; try discriminate; lia. }
    apply N.compare_lt_iff in Hxz. rewrite Hxz. reflexivity.
Qed.

Lemma dt_ltb_trans a b c :
  dt_ltb a b = true -> dt_ltb b c = true -> dt_ltb a c = true.
Proof.
  unfold dt_ltb, dt_compare. intros Hab Hbc.
  destruct (lex_compare (year a :: _) (year b :: _)) eqn:E1; try discriminate.
  destruct (lex_compare (year b :: _) (year c :: _)) eqn:E2; try discriminate.
  rewrite (lex_compare_trans _ _ _ E1 E2). reflexivity.
Qed.

Lemma dt_ltb_irrefl a : dt_ltb a a = false.
Proof. unfold dt_ltb, dt_compare. rewrite lex_compare_refl. reflexivity. Qed.

Lemma dt_ltb_year a b : dt_ltb a b = true -> year a <= year b.
Proof.
  unfold dt_ltb, dt_compare. simpl.
  destruct (N.compare_spec (year a) (year b)); try lia; discriminate.
Qed.

Lemma dt_ltb_boundary a y : year a < y -> dt_ltb a (year_boundary y) = true.
Proof.
  intros H. unfold dt_ltb, dt_compare. simpl.
  destruct (N.compare_spec (year a) y); try lia; reflexivity.
Qed.

Lemma boundary_le_now now y :
  dt_ltb now (year_boundary y) = false -> y <= year now.
Proof.
  intros H. destruct (N.lt_ge_cases (year now) y) as [Hlt|Hge]; [|exact Hge].
  rewrite (dt_ltb_boundary _ _ Hlt) in H. discriminate.
Qed.

(** Two UTC datetimes compare by their fields. *)
Lemma dt_lt_utc a b :
  utcoffset a = UTC -> utcoffset b = UTC -> dt_lt a b = Ok (dt_ltb a b).
Proof. unfold dt_lt. intros -> ->. reflexivity. Qed.

Lemma before_utc a b :
  utcoffset a = UTC -> utcoffset b = UTC -> before a b = dt_ltb a b.
Proof.
  intros Ha Hb. unfold before. rewrite (dt_lt_utc _ _ Ha Hb).
  destruct (dt_ltb a b); reflexivity.
Qed.

(** An aware datetime compares with a UTC one. *)
Lemma dt_lt_aware a b :
  utcoffset a <> None -> utcoffset b = UTC -> dt_lt a b = Ok (before a b).
Proof.
  intros Ha Hb. unfold before, dt_lt. rewrite Hb.
  destruct (utcoffset a) as [oa|]; [|congruence].
  unfold UTC. destruct (oa =? 0)%Z; [destruct (dt_ltb a b); reflexivity|].
  destruct (_ <? _)%Z; reflexivity.
Qed.

Lemma dt_lt_returns a b : dt_lt a b <> OutOfFuel.
Proof.
  unfold dt_lt. destruct (utcoffset a), (utcoffset b); try discriminate.
  destruct (_ =? _)%Z; discriminate.
Qed.

Lemma before_true a b : before a b = true <-> dt_lt a b = Ok true.
Proof.
  unfold before. destruct (dt_lt a b) as [[|]| |]; split; congruence.
Qed.

Lemma utcoffset_year_boundary y : utcoffset (year_boundary y) = UTC.
Proof. reflexivity. Qed.

Lemma utcoffset_window_end now period_start :
  utcoffset now = UTC -> utcoffset (window_end now period_start) = UTC.
Proof.
  intros H. unfold window_end. destruct (dt_ltb now _); [exact H|reflexivity].
Qed.

(** A UTC datetime is before the first day of the next year. *)
Lemma before_boundary period_start :
  utcoffset period_start = UTC ->
  before period_start (year_boundary (year period_start + 1)) = true.
Proof.
  intros H. rewrite before_utc by (assumption || reflexivity).
  apply dt_ltb_boundary. lia.
Qed.

(** [isoformat] of a UTC datetime is its text; [isoformat] raises
    nothing but [OverflowError]. *)
Lemma isoformat_of_utc W dt :
  utcoffset dt = UTC -> isoformat W dt = Ok (isoformat_utc dt).
Proof. intros H. unfold isoformat, astimezone_utc. rewrite H. reflexivity. Qed.

Lemma shift_to_utc_outcome dt offset :
  (exists utc, shift_to_utc dt offset = Ok utc /\ utcoffset utc = UTC)
  \/ shift_to_utc dt offset = Raise OverflowError.
Proof.
  unfold shift_to_utc. destruct (_ && _)%Z; [left|right; reflexivity].
  destruct (ord2ymd _) as [[y m] d]. eexists. split; reflexivity.
Qed.

Lemma isoformat_outcome W dt :
  (exists t, isoformat W dt = Ok t) \/ isoformat W dt = Raise OverflowError.
Proof.
  unfold isoformat, astimezone_utc.
  destruct (utcoffset dt) as [o|].
  - destruct (o =? 0)%Z; [left; eexists; reflexivity|].
    destruct (shift_to_utc_outcome dt o) as [(utc & -> & _)| ->];
      [left; eexists; reflexivity|right; reflexivity].
  - destruct (shift_to_utc_outcome dt (localzone W dt)) as [(utc & -> & _)| ->];
      [left; eexists; reflexivity|right; reflexivity].
Qed.

Lemma isoformat_returns W dt : isoformat W dt <> OutOfFuel.
Proof. destruct (isoformat_outcome W dt) as [[t ->]| ->]; discriminate. Qed.

(** A window ends after its start when its start is before the next
    year boundary. *)
Lemma window_advances now period_start :
  before period_start now = true ->
  before period_start (year_boundary (year period_start + 1)) = true ->
  before period_start (window_end now period_start) = true.
Proof.
  intros H Hb. unfold window_end. destruct (dt_ltb now _); assumption.
Qed.

(** After a window, the loop has one iteration less to make. *)
Lemma iterations_left_step now period_start n :
  utcoffset now = UTC ->
  before period_start now = true ->
  (iterations_left period_start now <= S n)%nat ->
  (iterations_left (window_end now period_start) now <= n)%nat.
Proof.
  intros Hnow Hlt. unfold iterations_left at 1. rewrite Hlt.
  unfold window_end.
  destruct (dt_ltb now (year_boundary (year period_start + 1))) eqn:Hb.
  - unfold iterations_left.
    rewrite before_utc, dt_ltb_irrefl by assumption. lia.
  - unfold iterations_left, years_spanned.
    destruct (before (year_boundary _) now); [simpl year|lia].
    apply boundary_le_now in Hb. lia.
Qed.

Lemma iterations_left_pos now period_start :
  before period_start now = true ->
  (0 < iterations_left period_start now)%nat.
Proof. intros Hlt. unfold iterations_left. rewrite Hlt. lia. Qed.

Lemma iterations_left_le a b :
  (iterations_left a b <= Nat.max 1 (years_spanned a b))%nat.
Proof. unfold iterations_left. destruct (before a b); lia. Qed.

(** A window that ends before [now] ends at a year boundary, which is
    before year 9999 when [now] is no later than its first instant. *)
Lemma window_end_year now period_start :
  utcoffset now = UTC ->
  dt_ltb (year_boundary MAXYEAR) now = false ->
  before (window_end now period_start) now = true ->
  year (window_end now period_start) < MAXYEAR.
Proof.
  intros Hnow Hmax.
  rewrite before_utc by (auto using utcoffset_window_end).
  unfold window_end.
  destruct (dt_ltb now (year_boundary (year period_start + 1))) eqn:Hb.
  - rewrite dt_ltb_irrefl. discriminate.
  - intros Hlt. simpl year.
    destruct (N.lt_ge_cases (year period_start + 1) MAXYEAR) as [Hy|Hy];
      [exact Hy|exfalso].
    destruct (N.eq_dec (year period_start + 1) MAXYEAR) as [E|E].
    + rewrite E in Hlt. congruence.
    + assert (Hbb : dt_ltb (year_boundary MAXYEAR)
                      (year_boundary (year period_start + 1)) = true)
        by (apply dt_ltb_boundary; simpl year; lia).
      rewrite (dt_ltb_trans _ _ _ Hbb Hlt) in Hmax. discriminate.
Qed.

(** The windows are consecutive and reach [now]; every window after
    the first ends after its start, and so does the first when it
    starts before the next year boundary. *)
Lemma windows_spec now n :
  utcoffset now = UTC ->
  forall period_start,
    before period_start now = true ->
    (iterations_left period_start now <= n)%nat ->
    let ws := windows n period_start now in
    ws <> [] /\ chain period_start ws now
    /\ Forall (fun w => snd w = window_end now (fst w)) ws
    /\ Forall forward (tl ws)
    /\ (before period_start (year_boundary (year period_start + 1)) = true ->
        Forall forward ws).
Proof.
  intros Hnow. induction n as [|n IH]; intros period_start Hlt Hn.
  - pose proof (iterations_left_pos _ _ Hlt). lia.
  - cbn [windows]. rewrite Hlt.
    pose proof (iterations_left_step _ _ _ Hnow Hlt Hn) as Hn'.
    pose proof (utcoffset_window_end now period_start Hnow) as He.
    assert (Hrest :
              chain (window_end now period_start)
                (windows n (window_end now period_start) now) now
              /\ Forall (fun w => snd w = window_end now (fst w))
                   (windows n (window_end now period_start) now)
              /\ Forall forward (windows n (window_end now period_start) now)).
    { destruct (before (window_end now period_start) now) eqn:Hnext.
      - destruct (IH _ Hnext Hn') as (_ & Hc & Hf & _ & Hfw).
        split; [exact Hc|]. split; [exact Hf|].
        apply Hfw, before_boundary, He.
      - assert (Hw : windows n (window_end now period_start) now = []).
        { destruct n; simpl; rewrite Hnext; reflexivity. }
        rewrite Hw. split; [|split; constructor]. simpl.
        rewrite before_utc in Hnext by assumption.
        unfold window_end in *.
        destruct (dt_ltb now (year_boundary (year period_start + 1))) eqn:Hb;
          [reflexivity|].
        apply dt_compare_eq; [rewrite Hnow; reflexivity|].
        unfold dt_ltb in Hnext, Hb.
        destruct (dt_compare (year_boundary (year period_start + 1)) now) eqn:Hc;
          [reflexivity|discriminate|].
        unfold dt_compare in Hb, Hc. apply lex_compare_gt_lt in Hc.
        rewrite Hc in Hb. discriminate. }
    destruct Hrest as (Hc & Hf & Hfw).
    split; [discriminate|].
    split; [split; [reflexivity|exact Hc]|].
    split; [constructor; [reflexivity|exact Hf]|].
    split; [exact Hfw|].
    intros Hb. constructor; [|exact Hfw].
    unfold forward. simpl. apply window_advances; assumption.
Qed.

(** ** The commit loop *)

Lemma datetime_new_boundary y :
  y < MAXYEAR -> datetime_new (y + 1) 1 1 = Ok (year_boundary (y + 1)).
Proof.
  intros Hy. unfold datetime_new, MINYEAR, MAXYEAR in *.
  replace (1 <=? y + 1) with true by (symmetry; apply N.leb_le; lia).
  replace (y + 1 <=? 9999) with true by (symmetry; apply N.leb_le; lia).
  reflexivity.
Qed.

Lemma datetime_new_ok y dt :
  datetime_new y 1 1 = Ok dt -> dt = year_boundary y.
Proof.
  unfold datetime_new. destruct (_ && _); [|discriminate].
  intros [= <-]. reflexivity.
Qed.

Lemma datetime_new_returns y m d : datetime_new y m d <> OutOfFuel.
Proof. unfold datetime_new. destruct (_ && _); discriminate. Qed.

(** One iteration moves [period_start] to the end of its window. *)
Lemma commit_step_next W token login now period_start total s st s' :
  utcoffset now = UTC ->
  commit_step W token login now period_start total s = (Ok st, s') ->
  fst st = window_end now period_start.
Proof.
  intros Hnow. unfold commit_step, bind, lift, ret.
  destruct (datetime_new (year period_start + 1) 1 1) as [b| |] eqn:Hb;
    try discriminate.
  apply datetime_new_ok in Hb. subst b.
  rewrite (dt_lt_utc _ _ Hnow (utcoffset_year_boundary _)).
  fold (window_end now period_start).
  destruct (isoformat W period_start) as [from| |]; try discriminate.
  destruct (isoformat W (window_end now period_start)) as [to| |];
    try discriminate.
  destruct (execute _ _ _ _ s) as [[data| |] s1]; try discriminate.
  destruct (getitem data _) as [user| |]; try discriminate.
  destruct (getitem user _) as [coll| |]; try discriminate.
  destruct (getitem coll _) as [n| |]; try discriminate.
  destruct (add_int total n) as [t| |]; try discriminate.
  intros [= <- <-]. reflexivity.
Qed.

(** Before year 9999 an iteration is: request the window's count, add
    it. *)
Lemma commit_step_window W token login now period_start total s :
  utcoffset now = UTC ->
  year period_start < MAXYEAR ->
  commit_step W token login now period_start total s
  = (let* n := window_count W token login
                 (period_start, window_end now period_start) in
     let* total' := lift (add_int total n) in
     ret (window_end now period_start, total')) s.
Proof.
  intros Hnow Hy. unfold commit_step, window_count, bind, lift, ret.
  rewrite (datetime_new_boundary _ Hy).
  rewrite (dt_lt_utc _ _ Hnow (utcoffset_year_boundary _)).
  fold (window_end now period_start).
  cbn [fst snd].
  destruct (isoformat W period_start) as [from| |]; try reflexivity.
  destruct (isoformat W (window_end now period_start)) as [to| |];
    try reflexivity.
  destruct (execute _ _ _ _ s) as [[data| |] s1]; try reflexivity;
    destruct (getitem data _) as [user| |]; try reflexivity;
    destruct (getitem user _) as [coll| |]; try reflexivity;
    destruct (getitem coll _) as [n| |]; reflexivity.
Qed.

(** The loop requests the counts of the windows, in order. *)
Lemma commit_loop_windows W token login now fuel :
  utcoffset now = UTC ->
  dt_ltb (year_boundary MAXYEAR) now = false ->
  forall period_start total s,
    utcoffset period_start <> None ->
    (before period_start now = true -> year period_start < MAXYEAR) ->
    (iterations_left period_start now <= fuel)%nat ->
    commit_loop W token login now fuel period_start total s
    = sum_windows W token login (windows fuel period_start now) total s.
Proof.
  intros Hnow Hmax.
  induction fuel as [|fuel IH]; intros period_start total s Ha Hy Hn.
  - simpl. rewrite (dt_lt_aware _ _ Ha Hnow).
    destruct (before period_start now) eqn:Hlt; [|reflexivity].
    pose proof (iterations_left_pos _ _ Hlt). lia.
  - simpl. rewrite (dt_lt_aware _ _ Ha Hnow).
    destruct (before period_start now) eqn:Hlt; [|reflexivity].
    pose proof (iterations_left_step _ _ _ Hnow Hlt Hn) as Hn'.
    unfold bind at 1. rewrite (commit_step_window _ _ _ _ _ _ _ Hnow (Hy eq_refl)).
    simpl. unfold bind, lift, ret.
    destruct (window_count _ _ _ _ s) as [[n| |] s1]; try reflexivity.
    destruct (add_int total n) as [t| |]; try reflexivity.
    simpl. apply IH.
    + rewrite (utcoffset_window_end _ _ Hnow). discriminate.
    + apply window_end_year; assumption.
    + exact Hn'.
Qed.

(** Once [fuel] covers the iterations left, more changes nothing. *)
Lemma commit_loop_fuel W token login now fuel1 :
  utcoffset now = UTC ->
  forall fuel2 period_start total s,
    (iterations_left period_start now <= fuel1)%nat ->
    (iterations_left period_start now <= fuel2)%nat ->
    commit_loop W token login now fuel1 period_start total s
    = commit_loop W token login now fuel2 period_start total s.
Proof.
  intros Hnow.
  induction fuel1 as [|fuel1 IH]; intros fuel2 period_start total s H1 H2.
  - destruct fuel2; simpl;
      destruct (dt_lt period_start now) as [[|]| |] eqn:Hlt; try reflexivity.
    apply before_true in Hlt.
    pose proof (iterations_left_pos _ _ Hlt). lia.
  - simpl. destruct (dt_lt period_start now) as [[|]| |] eqn:Hlt.
    + pose proof (proj2 (before_true _ _) Hlt) as Hb.
      destruct fuel2 as [|fuel2].
      { pose proof (iterations_left_pos _ _ Hb). lia. }
      simpl. rewrite Hlt. unfold bind.
      destruct (commit_step _ _ _ _ _ _ s) as [[st| |] s1] eqn:Hs;
        try reflexivity.
      apply (commit_step_next _ _ _ _ _ _ _ _ _ Hnow) in Hs. rewrite Hs.
      apply IH; apply iterations_left_step; assumption.
    + destruct fuel2; simpl; rewrite Hlt; reflexivity.
    + destruct fuel2; simpl; rewrite Hlt; reflexivity.
    + destruct fuel2; simpl; rewrite Hlt; reflexivity.
Qed.

Lemma getitem_returns v k : getitem v k <> OutOfFuel.
Proof.
  destruct v; simpl; try discriminate. destruct (assoc k d); discriminate.
Qed.

Lemma add_int_returns total v : add_int total v <> OutOfFuel.
Proof. destruct v; discriminate. Qed.

Lemma contains_returns k v : contains k v <> OutOfFuel.
Proof. destruct v; discriminate. Qed.

Lemma execute_returns W token query variables s :
  fst (execute W token query variables s) <> OutOfFuel.
Proof.
  unfold execute. destruct (urlopen _ _ _) as [d| |e]; try discriminate.
  pose proof (contains_returns (txt "errors") d) as Hc.
  pose proof (getitem_returns d (txt "errors")) as He.
  pose proof (getitem_returns d (txt "data")) as Hd.
  destruct (contains _ d) as [[|]| |]; try discriminate; try congruence.
  - destruct (getitem d (txt "errors")); try discriminate; congruence.
  - simpl. exact Hd.
Qed.

Lemma commit_step_returns W token login now period_start total s :
  fst (commit_step W token login now period_start total s) <> OutOfFuel.
Proof.
  unfold commit_step, bind, lift, ret.
  pose proof (datetime_new_returns (year period_start + 1) 1 1) as H0.
  destruct (datetime_new _ 1 1) as [b| |]; try discriminate; try congruence.
  pose proof (dt_lt_returns now b) as Hl.
  destruct (dt_lt now b) as [later| |]; try discriminate; try congruence.
  pose proof (isoformat_returns W period_start) as Hf.
  destruct (isoformat W period_start) as [from| |]; try discriminate;
    try congruence.
  pose proof (isoformat_returns W (if later then now else b)) as Ht.
  destruct (isoformat W (if later then now else b)) as [to| |];
    try discriminate; try congruence.
  pose proof (execute_returns W token contributions_query
                (window_variables login from to) s) as He.
  destruct (execute _ _ _ _ s) as [[data| |] s1]; try discriminate;
    [|exfalso; apply He; reflexivity].
  pose proof (getitem_returns data (txt "user")) as H1.
  destruct (getitem data _) as [user| |]; try discriminate; try congruence.
  pose proof (getitem_returns user (txt "contributionsCollection")) as H2.
  destruct (getitem user _) as [coll| |]; try discriminate; try congruence.
  pose proof (getitem_returns coll (txt "totalCommitContributions")) as H3.
  destruct (getitem coll _) as [n| |]; try discriminate; try congruence.
  pose proof (add_int_returns total n) as H4.
  destruct (add_int total n) as [t| |]; try discriminate; congruence.
Qed.

(** With fuel for the iterations left, the loop runs to its end. *)
Lemma commit_loop_finishes W token login now fuel :
  utcoffset now = UTC ->
  forall period_start total s,
    (iterations_left period_start now <= fuel)%nat ->
    fst (commit_loop W token login now fuel period_start total s) <> OutOfFuel.
Proof.
  intros Hnow.
  induction fuel as [|fuel IH]; intros period_start total s Hn.
  - simpl. pose proof (dt_lt_returns period_start now) as Hr.
    destruct (dt_lt period_start now) as [[|]| |] eqn:Hlt; try discriminate;
      try congruence.
    apply before_true in Hlt.
    pose proof (iterations_left_pos _ _ Hlt). lia.
  - simpl. pose proof (dt_lt_returns period_start now) as Hr0.
    destruct (dt_lt period_start now) as [[|]| |] eqn:Hlt; try discriminate;
      try congruence.
    apply before_true in Hlt.
    unfold bind.
    pose proof (commit_step_returns W token login now period_start total s)
      as Hr.
    destruct (commit_step _ _ _ _ _ _ s) as [[st| |] s1] eqn:Hs.
    + pose proof (commit_step_next _ _ _ _ _ _ _ _ _ Hnow Hs) as Hst.
      rewrite Hst. apply IH. apply iterations_left_step; assumption.
    + discriminate.
    + exfalso. apply Hr. reflexivity.
Qed.

(** ** Requests and files *)

Lemma state_eta s : State (trace s) (files s) = s.
Proof. destruct s; reflexivity. Qed.

Lemma api_only_lift {A} (r : outcome A) : api_only (lift r).
Proof.
  intros s. exists []. simpl. rewrite app_nil_r. symmetry. apply state_eta.
Qed.

Lemma api_only_ret {A} (a : A) : api_only (ret a).
Proof. apply (api_only_lift (Ok a)). Qed.

Lemma api_only_bind {A B} (m : M A) (k : A -> M B) :
  api_only m -> (forall a, api_only (k a)) -> api_only (bind m k).
Proof.
  intros Hm Hk s. unfold bind. destruct (Hm s) as [r1 H1].
  destruct (m s) as [[a|e|] s1]; simpl in H1; subst s1; try (exists r1; reflexivity).
  destruct (Hk a (State (trace s ++ List.map ENet r1) (files s))) as [r2 H2].
  exists (r1 ++ r2). rewrite H2. simpl.
  rewrite List.map_app, app_assoc. reflexivity.
Qed.

Lemma execute_state W token query variables s :
  snd (execute W token query variables s)
  = State (trace s ++ [ENet (Request token query variables)]) (files s).
Proof.
  unfold execute. destruct (urlopen _ _ _) as [d| |e]; try reflexivity.
  destruct (contains _ d) as [[|]| |]; try reflexivity.
  destruct (getitem d _); reflexivity.
Qed.

Lemma api_only_execute W token query variables :
  api_only (execute W token query variables).
Proof.
  intros s. exists [Request token query variables]. apply execute_state.
Qed.

Create HintDb api discriminated.
#[local] Hint Resolve api_only_lift api_only_ret api_only_execute : api.

Ltac api_steps :=
  repeat first
    [ apply api_only_bind; [|intros ?]
    | apply api_only_execute
    | apply api_only_lift
    | apply api_only_ret
    | match goal with
      | |- api_only (if ?b then _ else _) => destruct b
      | |- api_only (match ?x with _ => _ end) => destruct x
      end ].

Lemma api_only_fetch_user_created_at W token login :
  api_only (fetch_user_created_at W token login).
Proof. unfold fetch_user_created_at, raise. api_steps. Qed.

Lemma api_only_commit_step W token login now period_start total :
  api_only (commit_step W token login now period_start total).
Proof. unfold commit_step. api_steps. Qed.

Lemma api_only_commit_loop W token login now fuel :
  forall period_start total,
    api_only (commit_loop W token login now fuel period_start total).
Proof.
  induction fuel as [|fuel IH]; intros period_start total; simpl;
    destruct (dt_lt period_start now) as [[|]| |]; unfold raise;
    auto with api.
  apply api_only_bind; [apply api_only_commit_step|]. intros st. apply IH.
Qed.

Lemma api_only_datetime_now W : api_only (datetime_now W).
Proof.
  intros s. exists []. simpl. rewrite app_nil_r. symmetry. apply state_eta.
Qed.

Lemma api_only_fetch_commit_total W token login fuel :
  api_only (fetch_commit_total W token login fuel).
Proof.
  unfold fetch_commit_total.
  apply api_only_bind; [apply api_only_fetch_user_created_at|]. intros c.
  apply api_only_bind; [apply api_only_datetime_now|]. intros n.
  apply api_only_commit_loop.
Qed.

Lemma api_only_stars_loop W token login fuel :
  forall total cursor, api_only (stars_loop W token login fuel total cursor).
Proof.
  induction fuel as [|fuel IH]; intros total cursor; simpl; auto with api.
  do 8 (apply api_only_bind; [auto with api|intros ?]).
  destruct (negb _); auto with api.
  do 2 (apply api_only_bind; [auto with api|intros ?]).
  apply IH.
Qed.

Lemma api_only_fetch_total_stars W token login fuel :
  api_only (fetch_total_stars W token login fuel).
Proof. apply api_only_stars_loop. Qed.

(** ** Counts of the windows *)

Lemma window_count_state W token login w s req :
  window_request W token login w = Some req ->
  snd (window_count W token login w s)
  = State (trace s ++ [ENet req]) (files s).
Proof.
  unfold window_count, window_request, bind, lift.
  destruct (isoformat W (fst w)) as [from| |]; try discriminate.
  destruct (isoformat W (snd w)) as [to| |]; try discriminate.
  intros [= <-].
  pose proof (execute_state W token contributions_query
                (window_variables login from to) s) as He.
  destruct (execute _ _ _ _ s) as [[data| |] s1]; simpl in He; subst s1;
    try reflexivity.
  destruct (getitem data _) as [user| |]; try reflexivity.
  destruct (getitem user _) as [coll| |]; reflexivity.
Qed.

(** A window without a UTC form is not requested: [isoformat] raises. *)
Lemma window_count_no_request W token login w s :
  window_request W token login w = None ->
  window_count W token login w s = (Raise OverflowError, s).
Proof.
  unfold window_count, window_request, bind, lift.
  destruct (isoformat_outcome W (fst w)) as [[from ->]| ->]; [|reflexivity].
  destruct (isoformat_outcome W (snd w)) as [[to ->]| ->];
    [discriminate|reflexivity].
Qed.

Lemma add_int_shift total n t :
  add_int total n = Ok t -> exists c, add_int 0 n = Ok c /\ t = (total + c)%Z.
Proof.
  destruct n; simpl; try discriminate; intros [= <-]; eauto.
Qed.

(** When the sum of the windows returns, every window was requested
    once, in order, and the result is the sum of their counts. *)
Lemma sum_windows_ok W token login ws :
  forall total s t s',
    sum_windows W token login ws total s = (Ok t, s') ->
    exists cs reqs,
      answered W token login s ws cs s'
      /\ t = (total + sumZ cs)%Z
      /\ requested W token login ws reqs
      /\ trace s' = trace s ++ List.map ENet reqs
      /\ files s' = files s.
Proof.
  induction ws as [|w ws IH]; intros total s t s'; simpl.
  - intros [= <- <-]. exists [], []. split; [constructor|].
    split; [simpl; lia|]. split; [constructor|].
    split; [rewrite app_nil_r|]; reflexivity.
  - unfold bind at 1.
    destruct (window_request W token login w) as [req|] eqn:Hreq;
      [|rewrite (window_count_no_request _ _ _ _ _ Hreq); discriminate].
    pose proof (window_count_state W token login w s req Hreq) as Hst.
    destruct (window_count _ _ _ _ s) as [[n| |] s1] eqn:Hw; try discriminate.
    simpl in Hst. unfold bind at 1, lift.
    destruct (add_int total n) as [t1| |] eqn:Ha; try discriminate.
    intros Hrest.
    destruct (IH _ _ _ _ Hrest) as (cs & reqs & Hans & -> & Hreqs & Htr & Hfs).
    destruct (add_int_shift _ _ _ Ha) as (c & Hc & ->).
    exists (c :: cs), (req :: reqs). split; [|split; [|split; [|split]]].
    + econstructor; [exact Hreq|exact Hw| |exact Hc|exact Hans].
      rewrite Hst. reflexivity.
    + simpl. lia.
    + constructor; assumption.
    + rewrite Htr, Hst. simpl. rewrite <- app_assoc. reflexivity.
    + rewrite Hfs, Hst. reflexivity.
Qed.

(** * The claims *)

(** ** The template renderer *)

(** C3. The output of [render_template] is the template with every
    substring that matches the placeholder pattern replaced by the string
    form of the value mapped to its token when the token is a key, and
    kept verbatim otherwise: the template is a sequence of literal
    characters and placeholders that contains every occurrence of a
    placeholder, the call is that sequence rendered piece by piece, what
    it returns is the output of the pieces, and it returns it whenever
    the mapped values have a string form. The three examples of the
    specification hold. *)
Theorem render_template_substitutes (py_repr : pyval -> list N)
    (template_text : list N) (replacements : gmap (list N) pyval) :
  (exists gs,
      src gs = template_text
      /\ Forall seg_ok gs
      /\ covers gs template_text
      /\ render_template py_repr template_text replacements
         = renders py_repr replacements gs
      /\ (forall rendered,
             render_template py_repr template_text replacements = Ok rendered ->
             rendered = out py_repr replacements gs)
      /\ ((forall key v, replacements !! key = Some v -> has_str py_repr v) ->
          render_template py_repr template_text replacements
          = Ok (out py_repr replacements gs)))
  /\ render_template py_repr (txt "{{ STARS }}") {[ txt "STARS" := PInt 42 ]}
     = Ok (txt "42")
  /\ render_template py_repr (txt "{{STARS}}") {[ txt "STARS" := PInt 1 ]}
     = Ok (txt "1")
  /\ render_template py_repr (txt "{{ FOO }}") ∅ = Ok (txt "{{ FOO }}").
Proof.
  split; [|repeat split; vm_compute; reflexivity].
  destruct (render_template_spec py_repr template_text replacements)
    as (gs & Hok & Hsrc & Hcov & Hrun).
  exists gs. split; [exact Hsrc|]. split; [exact Hok|]. split; [exact Hcov|].
  split; [exact Hrun|]. split.
  - intros rendered Hr. apply renders_ok. rewrite <- Hrun. exact Hr.
  - intros Hstr. rewrite Hrun. apply renders_out.
    intros ws1 tok ws2 v _ Hv. apply (Hstr tok v Hv).
Qed.

(** C8 as stated fails: [str] of a mapped value can raise, and then
    [render_template] raises; an [int] of 4301 digits is above the
    limit of the conversion, and the [__str__] of an object can raise
    anything. *)
Lemma render_template_raises :
  render_template (fun _ => []) (txt "{{ A }}")
    {[ txt "A" := PInt (10 ^ 4300) ]}
  = Raise ValueError
  /\ render_template (fun _ => []) (txt "{{ A }}")
       {[ txt "A" := PObject (inr (OtherError (txt "ZeroDivisionError")))
                       (inl (txt "<object>")) ]}
     = Raise (OtherError (txt "ZeroDivisionError"))
  /\ ~ (forall template_text replacements,
          exists rendered,
            render_template (fun _ => []) template_text replacements
            = Ok rendered).
Proof.
  assert (H : render_template (fun _ => []) (txt "{{ A }}")
                {[ txt "A" := PInt (10 ^ 4300) ]}
              = Raise ValueError) by (vm_compute; reflexivity).
  split; [exact H|]. split; [vm_compute; reflexivity|].
  intros Hall.
  destruct (Hall (txt "{{ A }}") {[ txt "A" := PInt (10 ^ 4300) ]})
    as [rendered Hr].
  rewrite H in Hr. discriminate.
Qed.

(** C8, amended. [render_template] is pure: for every template and
    every mapping whose values have a string form it returns, and
    equal templates and mappings give equal outputs. In general the scan
    always ends, a call raises only what [str] of the value of one of
    the template's placeholders raises, and strings, [None], booleans
    and integers of at most 4300 digits have a string form. *)
Theorem render_template_pure (py_repr : pyval -> list N)
    (t1 t2 : list N) (m1 m2 : gmap (list N) pyval) :
  t1 = t2 -> m1 = m2 ->
  ((forall key v, m1 !! key = Some v -> has_str py_repr v) ->
   exists rendered,
     render_template py_repr t1 m1 = Ok rendered
     /\ render_template py_repr t2 m2 = Ok rendered)
  /\ render_template py_repr t1 m1 = render_template py_repr t2 m2
  /\ render_template py_repr t1 m1 <> OutOfFuel
  /\ (forall e,
         render_template py_repr t1 m1 = Raise e ->
         exists pre ws1 tok ws2 post v,
           placeholder ws1 tok ws2
           /\ t1 = pre ++ group0 ws1 tok ws2 ++ post
           /\ m1 !! tok = Some v
           /\ str_of py_repr v = Raise e)
  /\ (forall s, has_str py_repr (PStr s))
  /\ has_str py_repr PNone
  /\ (forall b, has_str py_repr (PBool b))
  /\ (forall z, too_many_digits z = false -> has_str py_repr (PInt z)).
Proof.
  intros <- <-.
  destruct (render_template_spec py_repr t1 m1) as (gs & Hok & Hsrc & _ & Hrun).
  split; [|split; [|split; [|split]]].
  - intros Hstr. exists (out py_repr m1 gs).
    assert (H : render_template py_repr t1 m1 = Ok (out py_repr m1 gs)).
    { rewrite Hrun. apply renders_out.
      intros ws1 tok ws2 v _ Hv. apply (Hstr tok v Hv). }
    split; exact H.
  - reflexivity.
  - rewrite Hrun. apply renders_returns.
  - intros e He. rewrite Hrun in He.
    destruct (renders_raise _ _ _ _ He)
      as (gs1 & ws1 & tok & ws2 & gs2 & v & -> & Hm & Hv).
    exists (src gs1), ws1, tok, ws2, (src gs2), v.
    rewrite Forall_app, Forall_cons in Hok. destruct Hok as (_ & Hp & _).
    split; [exact Hp|]. split; [|split; assumption].
    rewrite <- Hsrc, src_app. reflexivity.
  - apply has_str_plain.
Qed.

Lemma render_template_pure_witness :
  exists rendered,
    render_template (fun _ => []) (txt "a {{ X }} b {{Y}}") {[ txt "X" := PStr (txt "x") ]}
    = Ok rendered
    /\ render_template (fun _ => []) (txt "a {{ X }} b {{Y}}") {[ txt "X" := PStr (txt "x") ]}
       = Ok rendered.
Proof.
  apply (render_template_pure (fun _ => []) _ _ _ _ eq_refl eq_refl).
  intros key v Hv. apply lookup_singleton_Some in Hv as [_ <-]. reflexivity.
Defined.

(** C9. Rendering is the identity on a text that contains no substring
    with placeholder syntax. *)
Theorem render_template_no_placeholder (py_repr : pyval -> list N)
    (s : list N) (m : gmap (list N) pyval) :
  ~ has_placeholder s -> render_template py_repr s m = Ok s.
Proof. apply render_template_identity. Qed.

Lemma render_template_no_placeholder_witness :
  ~ has_placeholder (txt "# Hi {{ name }}, {STARS} }}{{")
  /\ render_template (fun _ => []) (txt "# Hi {{ name }}, {STARS} }}{{")
       {[ txt "STARS" := PInt 42 ]}
     = Ok (txt "# Hi {{ name }}, {STARS} }}{{").
Proof.
  assert (H : ~ has_placeholder (txt "# Hi {{ name }}, {STARS} }}{{")).
  { intros H. apply has_placeholder_find in H. vm_compute in H. discriminate. }
  split; [exact H|].
  apply (render_template_no_placeholder (fun _ => []) _ _ H).
Defined.

(** C10 as stated fails in its last part: with [A] mapped to
    ["{{ B }}"] and [B] mapped to ["{{ B }}"] too, the value of [A] has
    placeholder syntax with [B] a key, it appears verbatim in the
    output, and rendering the output again changes nothing. *)
Lemma render_template_idempotent_example :
  let m : gmap (list N) pyval :=
    {[ txt "A" := PStr (txt "{{ B }}"); txt "B" := PStr (txt "{{ B }}") ]} in
  m !! txt "A" = Some (PStr (txt "{{ B }}"))
  /\ has_placeholder (txt "{{ B }}")
  /\ is_Some (m !! txt "B")
  /\ render_template (fun _ => []) (txt "v={{ A }}") m = Ok (txt "v={{ B }}")
  /\ render_template (fun _ => []) (txt "v={{ B }}") m = Ok (txt "v={{ B }}").
Proof.
  intros m. split; [vm_compute; reflexivity|]. split.
  - exists [], [32], (txt "B"), [32], []. split; [|reflexivity].
    repeat split; try (repeat constructor); discriminate.
  - split; [exists (PStr (txt "{{ B }}")); vm_compute; reflexivity|].
    split; vm_compute; reflexivity.
Qed.

(** C10, amended. Substitution is single-pass: wherever a placeholder
    whose token is a key stands in a template, the string form of its
    value goes to the output verbatim, between the rendering of what
    precedes and the rendering of what follows, also when it has
    placeholder syntax itself. When it is a placeholder of a key, and
    nothing else in the template is a placeholder, rendering the output
    again replaces it by the string form of that key's value: rendering
    is idempotent there exactly when that string form is the
    placeholder itself, and otherwise not. *)
Theorem render_template_single_pass (py_repr : pyval -> list N)
    (m : gmap (list N) pyval) (pre ws1 tok ws2 post : list N) (v : pyval) :
  placeholder ws1 tok ws2 ->
  m !! tok = Some v ->
  has_str py_repr v ->
  render_template py_repr (pre ++ group0 ws1 tok ws2 ++ post) m
  = app_outcome (render_template py_repr pre m)
      (app_outcome (Ok (py_str py_repr v)) (render_template py_repr post m))
  /\ forall ws1' tok' ws2' v',
       placeholder ws1' tok' ws2' ->
       py_str py_repr v = group0 ws1' tok' ws2' ->
       m !! tok' = Some v' ->
       has_str py_repr v' ->
       ~ has_placeholder pre ->
       ~ has_placeholder post ->
       exists rendered again,
         render_template py_repr (pre ++ group0 ws1 tok ws2 ++ post) m
         = Ok rendered
         /\ rendered = pre ++ py_str py_repr v ++ post
         /\ render_template py_repr rendered m = Ok again
         /\ again = pre ++ py_str py_repr v' ++ post
         /\ (again = rendered <-> py_str py_repr v' = py_str py_repr v).
Proof.
  intros Hp Hm Hv.
  assert (Hocc : forall (a b : list N) x1 k x2 w,
             placeholder x1 k x2 -> m !! k = Some w -> has_str py_repr w ->
             render_template py_repr (a ++ group0 x1 k x2 ++ b) m
             = app_outcome (render_template py_repr a m)
                 (app_outcome (Ok (py_str py_repr w))
                    (render_template py_repr b m))).
  { intros a b x1 k x2 w Hq Hk Hw.
    rewrite (render_template_occurrence _ _ _ _ _ _ Hq (length a) a (le_n _)).
    cbn [seg_render]. rewrite Hk, Hw. reflexivity. }
  split; [apply Hocc; assumption|].
  intros ws1' tok' ws2' v' Hp' Hvp Hm' Hv' Hpre Hpost.
  exists (pre ++ py_str py_repr v ++ post), (pre ++ py_str py_repr v' ++ post).
  split.
  { rewrite (Hocc _ _ _ _ _ _ Hp Hm Hv).
    rewrite !render_template_identity by assumption. reflexivity. }
  split; [reflexivity|]. split.
  { rewrite Hvp, (Hocc _ _ _ _ _ _ Hp' Hm' Hv').
    rewrite !render_template_identity by assumption. reflexivity. }
  split; [reflexivity|]. split.
  - intros H. apply app_inv_head in H. apply app_inv_tail in H. exact H.
  - intros ->. reflexivity.
Qed.

Lemma render_template_single_pass_witness :
  let m : gmap (list N) pyval :=
    {[ txt "A" := PStr (txt "{{ B }}"); txt "B" := PStr (txt "x") ]} in
  render_template (fun _ => []) (txt "v=" ++ txt "{{ A }}" ++ txt ".") m
  = Ok (txt "v={{ B }}.")
  /\ exists rendered again,
       render_template (fun _ => []) (txt "v=" ++ txt "{{ A }}" ++ txt ".") m
       = Ok rendered
       /\ rendered = txt "v=" ++ txt "{{ B }}" ++ txt "."
       /\ render_template (fun _ => []) rendered m = Ok again
       /\ again = txt "v=" ++ txt "x" ++ txt "."
       /\ (again = rendered <-> txt "x" = txt "{{ B }}").
Proof.
  intros m.
  assert (Hsp : Forall (fun c => is_space c = true) [32])
    by (repeat constructor).
  assert (HA : placeholder [32] (txt "A") [32])
    by (repeat split; try assumption; [discriminate|repeat constructor]).
  assert (HB : placeholder [32] (txt "B") [32])
    by (repeat split; try assumption; [discriminate|repeat constructor]).
  assert (HmA : m !! txt "A" = Some (PStr (txt "{{ B }}")))
    by (vm_compute; reflexivity).
  assert (HmB : m !! txt "B" = Some (PStr (txt "x")))
    by (vm_compute; reflexivity).
  assert (Hpre : ~ has_placeholder (txt "v=")).
  { intros H. apply has_placeholder_find in H. vm_compute in H. discriminate. }
  assert (Hpost : ~ has_placeholder (txt ".")).
  { intros H. apply has_placeholder_find in H. vm_compute in H. discriminate. }
  destruct (render_template_single_pass (fun _ => []) m (txt "v=") [32]
              (txt "A") [32] (txt ".") (PStr (txt "{{ B }}")) HA HmA eq_refl)
    as [H1 H2].
  split.
  - refine (eq_trans H1 _). vm_compute. reflexivity.
  - exact (H2 [32] (txt "B") [32] (PStr (txt "x")) HB eq_refl HmB eq_refl
             Hpre Hpost).
Defined.

(** ** The API client *)

(** C6. [execute] raises the request-failed error, whose message holds
    the status code and the response body, when the HTTP layer reports a
    non-success status; it raises the API error, whose message holds the
    string form of the payload, when the decoded response has an
    [errors] member; otherwise it returns the [data] member. Each call
    sends one request. *)
Theorem execute_outcomes (W : World) (token query : list N)
    (variables : list (list N * pyval)) (s : state) :
  let req := Request token query variables in
  let s' := State (trace s ++ [ENet req]) (files s) in
  (forall code detail,
      urlopen W (trace s) req = HTTPError code detail ->
      execute W token query variables s
      = (Raise (RuntimeError (txt "GraphQL request failed (" ++ str_int code
                              ++ txt "): " ++ detail)), s'))
  /\ (forall d errs,
         urlopen W (trace s) req = Reply (PDict d) ->
         assoc (txt "errors") d = Some errs ->
         execute W token query variables s
         = (Raise (RuntimeError (txt "GraphQL API returned errors: "
                                 ++ py_str (repr W) errs)), s'))
  /\ (forall d data,
         urlopen W (trace s) req = Reply (PDict d) ->
         assoc (txt "errors") d = None ->
         assoc (txt "data") d = Some data ->
         execute W token query variables s = (Ok data, s')).
Proof.
  intros req s'. unfold execute. fold req. fold s'. repeat split.
  - intros code detail ->. reflexivity.
  - intros d errs -> He. simpl. rewrite He.
    rewrite bool_decide_eq_true_2 by eauto. reflexivity.
  - intros d data -> He Hd. simpl. rewrite He, Hd.
    rewrite bool_decide_eq_false_2 by (intros [? ?]; discriminate).
    reflexivity.
Qed.

Lemma execute_outcomes_witness :
  let q := created_at_query in
  let vars := [(txt "login", PStr (txt "octocat"))] in
  let req := Request (txt "t0ken") q vars in
  execute flaky_world (txt "t0ken") q vars (State [] ∅)
  = (Raise (RuntimeError (txt "GraphQL request failed (502): Bad Gateway")),
     State [ENet req] ∅)
  /\ execute flaky_world (txt "t0ken") q vars (State [ENet req] ∅)
     = (Raise (RuntimeError (txt "GraphQL API returned errors: rate limited")),
        State [ENet req; ENet req] ∅)
  /\ execute flaky_world (txt "t0ken") q vars (State [ENet req; ENet req] ∅)
     = (Ok (PDict [(txt "user", PNone)]),
        State [ENet req; ENet req; ENet req] ∅).
Proof.
  intros q vars req. split; [|split].
  - apply (proj1 (execute_outcomes flaky_world (txt "t0ken") q vars
                    (State [] ∅)) 502%Z (txt "Bad Gateway")).
    reflexivity.
  - apply (proj1 (proj2 (execute_outcomes flaky_world (txt "t0ken") q vars
                           (State [ENet req] ∅)))
             [(txt "errors", PStr (txt "rate limited")); (txt "data", PNone)]
             (PStr (txt "rate limited"))); reflexivity.
  - apply (proj2 (proj2 (execute_outcomes flaky_world (txt "t0ken") q vars
                           (State [ENet req; ENet req] ∅)))
             [(txt "data", PDict [(txt "user", PNone)])]
             (PDict [(txt "user", PNone)])); reflexivity.
Defined.

(** ** Errors of the aggregator and of the entry point *)

(** C7 as stated fails: the not-found error is no kind of its own.
    With a transport that fails, then reports errors, then knows no
    such user, [fetch_commit_total] raises three exceptions of one and
    the same class, [RuntimeError], which differ in their messages
    only. *)
Lemma not_found_is_runtime_error :
  let req := Request (txt "t0ken") created_at_query
               [(txt "login", PStr (txt "ghost"))] in
  let failed_request :=
    RuntimeError (txt "GraphQL request failed (502): Bad Gateway") in
  let api_error :=
    RuntimeError (txt "GraphQL API returned errors: rate limited") in
  let not_found :=
    RuntimeError (txt "User 'ghost' not found when fetching creation date.") in
  fst (fetch_commit_total flaky_world (txt "t0ken") (txt "ghost") 3
         (State [] ∅))
  = Raise failed_request
  /\ fst (fetch_commit_total flaky_world (txt "t0ken") (txt "ghost") 3
            (State [ENet req] ∅))
     = Raise api_error
  /\ fst (fetch_commit_total flaky_world (txt "t0ken") (txt "ghost") 3
            (State [ENet req; ENet req] ∅))
     = Raise not_found
  /\ exception_class not_found = exception_class failed_request
  /\ exception_class not_found = exception_class api_error
  /\ exception_class not_found = txt "RuntimeError".
Proof. repeat split; vm_compute; reflexivity. Qed.

(** C7, amended. When the creation-date query returns no user,
    fetching the commit total fails after that one request with a
    [RuntimeError] whose message names the login. The exception is of
    the same class as the request-failed and the API errors, and is
    told apart from each of them by its message; it is of another class
    than the configuration errors, which are [SystemExit]. *)
Theorem fetch_commit_total_not_found (W : World) (token login : list N)
    (fuel : nat) (s : state) (data user : pyval) (s1 : state) :
  execute W token created_at_query [(txt "login", PStr login)] s
  = (Ok data, s1) ->
  dict_get data (txt "user") = Ok user ->
  truthy user = false ->
  let not_found := RuntimeError (not_found_message login) in
  fetch_commit_total W token login fuel s = (Raise not_found, s1)
  /\ not_found_message login
     = txt "User '" ++ login ++ txt "' not found when fetching creation date."
  /\ trace s1
     = trace s ++ [ENet (Request token created_at_query
                           [(txt "login", PStr login)])]
  /\ (forall code detail,
         exception_class not_found
         = exception_class (RuntimeError (request_failed_message code detail))
         /\ not_found_message login <> request_failed_message code detail)
  /\ (forall errors,
         exception_class not_found
         = exception_class (RuntimeError (api_errors_message errors))
         /\ not_found_message login <> api_errors_message errors)
  /\ (forall msg,
         exception_class not_found <> exception_class (SystemExit msg)
         /\ not_found <> SystemExit msg).
Proof.
  intros He Hu Ht not_found. split; [|split; [|split; [|split; [|split]]]].
  - unfold fetch_commit_total, fetch_user_created_at, bind, lift, raise.
    rewrite He, Hu, Ht. reflexivity.
  - reflexivity.
  - pose proof (execute_state W token created_at_query
                  [(txt "login", PStr login)] s) as Hs.
    rewrite He in Hs. simpl in Hs. rewrite Hs. reflexivity.
  - intros code detail. split; [reflexivity|]. intros H. discriminate H.
  - intros errors. split; [reflexivity|]. intros H. discriminate H.
  - intros msg. split; intros H; discriminate H.
Qed.

Lemma fetch_commit_total_not_found_witness :
  let req := Request (txt "t0ken") created_at_query
               [(txt "login", PStr (txt "ghost"))] in
  fetch_commit_total flaky_world (txt "t0ken") (txt "ghost") 3
    (State [ENet req; ENet req] ∅)
  = (Raise (RuntimeError
              (txt "User 'ghost' not found when fetching creation date.")),
     State [ENet req; ENet req; ENet req] ∅).
Proof.
  intros req.
  apply (fetch_commit_total_not_found flaky_world (txt "t0ken") (txt "ghost") 3
           (State [ENet req; ENet req] ∅)
           (PDict [(txt "user", PNone)]) PNone
           (State [ENet req; ENet req; ENet req] ∅));
    reflexivity.
Defined.

(** C5. When neither [GITHUB_TOKEN] nor [TOKEN] is set, [main] raises
    [SystemExit] with a message that names the missing token: the exit
    status is 1 and nothing was requested, read, written or printed
    before. The same holds, with the message about the login, when a
    token is there and the login is given neither by [--login] nor by
    [GITHUB_REPOSITORY_OWNER]. *)
Theorem main_missing_configuration (W : World) (args : cli) (fuel : nat)
    (s : state) :
  (environ W !! txt "GITHUB_TOKEN" = None ->
   environ W !! txt "TOKEN" = None ->
   main W args fuel s = (Raise (SystemExit missing_token_message), s)
   /\ exit_status (fst (main W args fuel s)) = Some 1%Z
   /\ exit_message (fst (main W args fuel s)) = Some missing_token_message)
  /\ (falsy (or_else (environ W !! txt "GITHUB_TOKEN")
                     (environ W !! txt "TOKEN")) = false ->
      opt_login args = None ->
      environ W !! txt "GITHUB_REPOSITORY_OWNER" = None ->
      main W args fuel s = (Raise (SystemExit missing_login_message), s)
      /\ exit_status (fst (main W args fuel s)) = Some 1%Z
      /\ exit_message (fst (main W args fuel s)) = Some missing_login_message).
Proof.
  split.
  - intros H1 H2.
    assert (H : main W args fuel s
                = (Raise (SystemExit missing_token_message), s)).
    { unfold main. rewrite H1, H2. reflexivity. }
    rewrite H. auto.
  - intros Ht Ha He.
    assert (H : main W args fuel s
                = (Raise (SystemExit missing_login_message), s)).
    { unfold main. rewrite Ht, Ha, He. reflexivity. }
    rewrite H. auto.
Qed.

Lemma main_missing_configuration_witness :
  main flaky_world (Cli None None (Some (txt "octocat"))) 3 sample_state
  = (Raise (SystemExit missing_token_message), sample_state)
  /\ main token_only_world (Cli None None None) 3 sample_state
     = (Raise (SystemExit missing_login_message), sample_state).
Proof.
  split.
  - apply (proj1 (main_missing_configuration flaky_world
                    (Cli None None (Some (txt "octocat"))) 3 sample_state));
      reflexivity.
  - apply (proj2 (main_missing_configuration token_only_world
                    (Cli None None None) 3 sample_state));
      reflexivity.
Defined.

(** [main] from its first line of output on, step by step. *)
Lemma main_unfold W args fuel s :
  falsy (or_else (environ W !! txt "GITHUB_TOKEN")
                 (environ W !! txt "TOKEN")) = false ->
  falsy (match opt_login args with
         | Some l => Some l
         | None => environ W !! txt "GITHUB_REPOSITORY_OWNER"
         end) = false ->
  let template := default (txt "TEMPLATE.md") (opt_template args) in
  let readme := default (txt "README.md") (opt_readme args) in
  main W args fuel s =
  match fetch_total_stars W (the_token W) (the_login W args) fuel
          (started W args s) with
  | (Ok stars, s1) =>
      match fetch_commit_total W (the_token W) (the_login W args) fuel s1 with
      | (Ok commits, s2) =>
          let tr := trace s2 ++ [EPrint (txt "Total stars: " ++ str_int stars)]
                    ++ [EPrint (txt "Total commits: " ++ str_int commits)]
                    ++ [ERead template] in
          if too_many_digits stars then (Raise ValueError, s2)
          else if too_many_digits commits then
            (Raise ValueError,
             State (trace s2
                    ++ [EPrint (txt "Total stars: " ++ str_int stars)])
                   (files s2))
          else
          match files s2 !! template with
          | Some template_text =>
              match render_template (repr W) template_text
                      {[ txt "STARS" := PInt stars;
                         txt "COMMITS" := PInt commits ]} with
              | Ok rendered =>
                  (Ok tt,
                   State (tr ++ [EWrite readme rendered]
                          ++ [EPrint (txt "Updated " ++ readme ++ txt " from "
                                      ++ template
                                      ++ txt " with latest stats.")])
                         (<[readme := rendered]> (files s2)))
              | Raise e => (Raise e, State tr (files s2))
              | OutOfFuel => (OutOfFuel, State tr (files s2))
              end
          | None => (Raise (FileNotFoundError template), State tr (files s2))
          end
      | (Raise e, s2) => (Raise e, s2)
      | (OutOfFuel, s2) => (OutOfFuel, s2)
      end
  | (Raise e, s1) => (Raise e, s1)
  | (OutOfFuel, s1) => (OutOfFuel, s1)
  end.
Proof.
  intros Ht Hl template readme. unfold main. rewrite Ht, Hl.
  fold template. fold readme. fold (the_token W). 
  change (default [] match opt_login args with
                     | Some l => Some l
                     | None => environ W !! txt "GITHUB_REPOSITORY_OWNER"
                     end) with (the_login W args).
  unfold bind at 1, print at 1, emit. fold (started W args s).
  unfold bind at 1.
  destruct (fetch_total_stars _ _ _ _ _) as [[stars| |] s1]; try reflexivity.
  unfold bind at 1.
  destruct (fetch_commit_total _ _ _ _ _) as [[commits| |] s2]; try reflexivity.
  unfold bind at 1, lift at 1, str_of at 1.
  destruct (too_many_digits stars); [destruct s2; reflexivity|].
  unfold bind at 1, print at 1, emit. unfold bind at 1, lift at 1, str_of at 1.
  destruct (too_many_digits commits); [reflexivity|].
  unfold bind, print, emit, read_text, write_text, lift. cbn [py_str trace files].
  rewrite <- !app_assoc. cbn [app].
  destruct (files s2 !! template) as [template_text|]; [|reflexivity].
  destruct (render_template _ _ _) as [rendered| |]; try reflexivity.
  simpl. rewrite <- !app_assoc. reflexivity.
Qed.

Lemma requests_not_writes reqs :
  existsb is_write (List.map ENet reqs) = false.
Proof. induction reqs; simpl; auto. Qed.

(** C2. A run that does not end normally wrote nothing: no write is in
    its trace and the files are as they were. A failure of either fetch
    is the failure of the run, which stops in the state the fetch left.
    A run that ends normally did, in this order and once each: the star
    requests, the commit requests, the read of the template, the
    rendering, the write of its result. *)
Theorem main_writes_last (W : World) (args : cli) (fuel : nat) (s : state) :
  let template := default (txt "TEMPLATE.md") (opt_template args) in
  let readme := default (txt "README.md") (opt_readme args) in
  let token := the_token W in
  let login := the_login W args in
  (forall r s',
      main W args fuel s = (r, s') -> r <> Ok tt ->
      files s' = files s
      /\ exists evs, trace s' = trace s ++ evs /\ existsb is_write evs = false)
  /\ (falsy (or_else (environ W !! txt "GITHUB_TOKEN")
                     (environ W !! txt "TOKEN")) = false ->
      falsy (match opt_login args with
             | Some l => Some l
             | None => environ W !! txt "GITHUB_REPOSITORY_OWNER"
             end) = false ->
      forall r1 s1,
        fetch_total_stars W token login fuel (started W args s) = (r1, s1) ->
        (failed r1 ->
         same_failure r1 (fst (main W args fuel s))
         /\ snd (main W args fuel s) = s1)
        /\ forall r2 s2,
             ~ failed r1 ->
             fetch_commit_total W token login fuel s1 = (r2, s2) ->
             failed r2 ->
             same_failure r2 (fst (main W args fuel s))
             /\ snd (main W args fuel s) = s2)
  /\ (forall s',
         main W args fuel s = (Ok tt, s') ->
         exists stars commits s1 s2 reqs1 reqs2 template_text rendered,
           fetch_total_stars W token login fuel (started W args s)
           = (Ok stars, s1)
           /\ fetch_commit_total W token login fuel s1 = (Ok commits, s2)
           /\ files s !! template = Some template_text
           /\ render_template (repr W) template_text
                {[ txt "STARS" := PInt stars; txt "COMMITS" := PInt commits ]}
              = Ok rendered
           /\ trace s'
              = trace (started W args s)
                ++ List.map ENet reqs1 ++ List.map ENet reqs2
                ++ [EPrint (txt "Total stars: " ++ str_int stars);
                    EPrint (txt "Total commits: " ++ str_int commits);
                    ERead template;
                    EWrite readme rendered;
                    EPrint (txt "Updated " ++ readme ++ txt " from "
                            ++ template ++ txt " with latest stats.")]
           /\ files s' = <[readme := rendered]> (files s)).
Proof.
  intros template readme token login.
  destruct (falsy (or_else (environ W !! txt "GITHUB_TOKEN")
                           (environ W !! txt "TOKEN"))) eqn:Ht.
  { assert (Hm : main W args fuel s
                 = (Raise (SystemExit missing_token_message), s))
      by (unfold main; rewrite Ht; reflexivity).
    rewrite Hm. split; [|split].
    - intros r s' [= <- <-] _. split; [reflexivity|].
      exists []. rewrite app_nil_r. auto.
    - discriminate.
    - discriminate. }
  destruct (falsy (match opt_login args with
                   | Some l => Some l
                   | None => environ W !! txt "GITHUB_REPOSITORY_OWNER"
                   end)) eqn:Hl.
  { assert (Hm : main W args fuel s
                 = (Raise (SystemExit missing_login_message), s))
      by (unfold main; rewrite Ht, Hl; reflexivity).
    rewrite Hm. split; [|split].
    - intros r s' [= <- <-] _. split; [reflexivity|].
      exists []. rewrite app_nil_r. auto.
    - discriminate.
    - discriminate. }
  rewrite (main_unfold W args fuel s Ht Hl).
  fold template. fold readme. fold token. fold login.
  destruct (api_only_fetch_total_stars W token login fuel (started W args s))
    as [reqs1 H1].
  destruct (fetch_total_stars W token login fuel (started W args s))
    as [r1 s1] eqn:Hstars.
  cbn [snd] in H1.
  destruct (api_only_fetch_commit_total W token login fuel s1) as [reqs2 H2].
  destruct (fetch_commit_total W token login fuel s1) as [r2 s2] eqn:Hcommits.
  cbn [snd] in H2.
  assert (Hf1 : files s1 = files s) by (rewrite H1; reflexivity).
  assert (Hf2 : files s2 = files s) by (rewrite H2, H1; reflexivity).
  assert (Ht1 : trace s1 = trace (started W args s) ++ List.map ENet reqs1)
    by (rewrite H1; reflexivity).
  assert (Ht2 : trace s2 = trace (started W args s) ++ List.map ENet reqs1
                           ++ List.map ENet reqs2)
    by (rewrite H2, H1; simpl; rewrite <- !app_assoc; reflexivity).
  split; [|split].
  - (* a run that fails wrote nothing *)
    intros r s' Hrun Hr.
    assert (Hstarted : forall evs,
               existsb is_write evs = false ->
               exists evs', trace (started W args s) ++ evs = trace s ++ evs'
                            /\ existsb is_write evs' = false).
    { intros evs Hevs. unfold started. simpl. rewrite <- app_assoc.
      eexists. split; [reflexivity|]. simpl. exact Hevs. }
    destruct r1 as [stars|e1|].
    + destruct r2 as [commits|e2|].
      * destruct (too_many_digits stars).
        { injection Hrun as <- <-. split; [exact Hf2|].
          rewrite Ht2. apply Hstarted.
          rewrite !existsb_app, !requests_not_writes. reflexivity. }
        destruct (too_many_digits commits).
        { injection Hrun as <- <-. cbn [files trace]. split; [exact Hf2|].
          rewrite Ht2, <- !app_assoc. apply Hstarted.
          rewrite !existsb_app, !requests_not_writes. reflexivity. }
        destruct (files s2 !! template) as [template_text|].
        -- destruct (render_template _ _ _) as [rendered|e|].
           ++ injection Hrun as <- <-. congruence.
           ++ injection Hrun as <- <-. simpl. split; [exact Hf2|].
              rewrite Ht2, <- !app_assoc. apply Hstarted.
              rewrite !existsb_app, !requests_not_writes. reflexivity.
           ++ injection Hrun as <- <-. simpl. split; [exact Hf2|].
              rewrite Ht2, <- !app_assoc. apply Hstarted.
              rewrite !existsb_app, !requests_not_writes. reflexivity.
        -- injection Hrun as <- <-. simpl. split; [exact Hf2|].
           rewrite Ht2, <- !app_assoc. apply Hstarted.
           rewrite !existsb_app, !requests_not_writes. reflexivity.
      * injection Hrun as <- <-. split; [exact Hf2|].
        rewrite Ht2. apply Hstarted.
        rewrite !existsb_app, !requests_not_writes. reflexivity.
      * injection Hrun as <- <-. split; [exact Hf2|].
        rewrite Ht2. apply Hstarted.
        rewrite !existsb_app, !requests_not_writes. reflexivity.
    + injection Hrun as <- <-. split; [exact Hf1|].
      rewrite Ht1. apply Hstarted. apply requests_not_writes.
    + injection Hrun as <- <-. split; [exact Hf1|].
      rewrite Ht1. apply Hstarted. apply requests_not_writes.
  - (* a failing fetch fails the run *)
    intros _ _ r1' s1' [= <- <-]. split.
    + intros Hfail. destruct r1; [contradiction| |]; simpl; auto.
    + intros r2' s2' Hok Hc Hfail. destruct r1 as [stars| |]; simpl in Hok;
        try (exfalso; apply Hok; exact I).
      rewrite Hcommits in Hc. injection Hc as <- <-.
      destruct r2; [contradiction| |]; simpl; auto.
  - (* a run that succeeds did everything in order *)
    intros s' Hrun.
    destruct r1 as [stars|e1|]; try discriminate.
    destruct r2 as [commits|e2|]; try discriminate.
    destruct (too_many_digits stars); [discriminate|].
    destruct (too_many_digits commits); [discriminate|].
    destruct (files s2 !! template) as [template_text|] eqn:Hfile;
      try discriminate.
    destruct (render_template _ _ _) as [rendered|e|] eqn:Hrender;
      try discriminate.
    injection Hrun as <-.
    exists stars, commits, s1, s2, reqs1, reqs2, template_text, rendered.
    split; [reflexivity|]. split; [exact Hcommits|].
    split; [rewrite <- Hf2; exact Hfile|]. split; [exact Hrender|].
    split.
    + cbn [trace]. rewrite Ht2, <- !app_assoc. reflexivity.
    + cbn [files]. rewrite Hf2. reflexivity.
Qed.

Lemma main_writes_last_witness :
  let args := Cli None None None in
  (exists stars commits s1 s2 reqs1 reqs2 template_text rendered,
      fetch_total_stars world_2022 (the_token world_2022)
        (the_login world_2022 args) 5 (started world_2022 args sample_state)
      = (Ok stars, s1)
      /\ fetch_commit_total world_2022 (the_token world_2022)
           (the_login world_2022 args) 5 s1 = (Ok commits, s2)
      /\ files sample_state !! txt "TEMPLATE.md" = Some template_text
      /\ render_template (repr world_2022) template_text
           {[ txt "STARS" := PInt stars; txt "COMMITS" := PInt commits ]}
         = Ok rendered
      /\ trace (snd (main world_2022 args 5 sample_state))
         = trace (started world_2022 args sample_state)
           ++ List.map ENet reqs1 ++ List.map ENet reqs2
           ++ [EPrint (txt "Total stars: " ++ str_int stars);
               EPrint (txt "Total commits: " ++ str_int commits);
               ERead (txt "TEMPLATE.md");
               EWrite (txt "README.md") rendered;
               EPrint (txt "Updated " ++ txt "README.md" ++ txt " from "
                       ++ txt "TEMPLATE.md" ++ txt " with latest stats.")]
      /\ files (snd (main world_2022 args 5 sample_state))
         = <[txt "README.md" := rendered]> (files sample_state))
  /\ (files (snd (main world_9999 args 5 sample_state)) = files sample_state
      /\ exists evs,
           trace (snd (main world_9999 args 5 sample_state))
           = trace sample_state ++ evs
           /\ existsb is_write evs = false).
Proof.
  intros args. split.
  - apply (proj2 (proj2 (main_writes_last world_2022 args 5 sample_state))
             (snd (main world_2022 args 5 sample_state))).
    vm_compute. reflexivity.
  - apply (proj1 (main_writes_last world_9999 args 5 sample_state)
             (fst (main world_9999 args 5 sample_state))).
    + vm_compute. reflexivity.
    + vm_compute. discriminate.
Defined.

(** ** The commit windows *)

(** Requesting windows adds to the trace. *)
Lemma sum_windows_extends W token login ws :
  forall total s,
    exists evs,
      trace (snd (sum_windows W token login ws total s)) = trace s ++ evs.
Proof.
  induction ws as [|w ws IH]; intros total s; simpl.
  - exists []. rewrite app_nil_r. reflexivity.
  - unfold bind at 1.
    destruct (window_request W token login w) as [req|] eqn:Hreq.
    + pose proof (window_count_state W token login w s req Hreq) as Hst.
      destruct (window_count _ _ _ _ s) as [[n| |] s1]; cbn [snd] in Hst;
        subst s1; try (eexists; reflexivity).
      unfold bind at 1, lift.
      destruct (add_int total n) as [t| |]; try (eexists; reflexivity).
      destruct (IH t (State (trace s ++ [ENet req]) (files s))) as (evs & Hevs).
      rewrite Hevs. cbn [trace]. rewrite <- app_assoc. eexists. reflexivity.
    + rewrite (window_count_no_request _ _ _ _ _ Hreq).
      exists []. rewrite app_nil_r. reflexivity.
Qed.

(** The first window is requested, unless it has no UTC form. *)
Lemma sum_windows_trace W token login w ws total s :
  sum_windows W token login (w :: ws) total s = (Raise OverflowError, s)
  \/ exists evs,
       trace (snd (sum_windows W token login (w :: ws) total s))
       = trace s ++ evs
       /\ evs <> [].
Proof.
  simpl. unfold bind at 1 3.
  destruct (window_request W token login w) as [req|] eqn:Hreq.
  - right.
    pose proof (window_count_state W token login w s req Hreq) as Hst.
    destruct (window_count _ _ _ _ s) as [[n| |] s1]; cbn [snd] in Hst;
      subst s1; try (eexists; split; [reflexivity|discriminate]).
    unfold bind at 1, lift.
    destruct (add_int total n) as [t| |];
      try (eexists; split; [reflexivity|discriminate]).
    destruct (sum_windows_extends W token login ws t
                (State (trace s ++ [ENet req]) (files s))) as (evs & Hevs).
    rewrite Hevs. cbn [trace]. rewrite <- app_assoc.
    eexists. split; [reflexivity|discriminate].
  - left. rewrite (window_count_no_request _ _ _ _ _ Hreq). reflexivity.
Qed.

(** C1, amended. For a creation time before the current time, in a
    year before the last year of [datetime], and a current time no later
    than the first instant of that last year, [fetch_commit_total]
    requests the counts of consecutive windows: the first starts at the
    creation time, each ends at the earlier of the next year boundary
    and the current time, each next one starts where the previous one
    ends, the last ends at the current time. Every window after the
    first ends after its start, and so does the first when the creation
    time is before the first instant in UTC of the year after its own
    year, as every creation time given in UTC is. When the call returns,
    every one of these windows was requested once, in order, and the
    total is the sum of their counts. *)
Theorem fetch_commit_total_windows (W : World) (token login : list N)
    (fuel : nat) (s s1 : state) (created_at now : pydatetime) :
  fetch_user_created_at W token login s = (Ok created_at, s1) ->
  now_utc W (trace s1) = now ->
  dt_lt created_at now = Ok true ->
  year created_at < MAXYEAR ->
  dt_leb now (year_boundary MAXYEAR) = true ->
  (Nat.max 1 (years_spanned created_at now) <= fuel)%nat ->
  exists ws,
    ws <> []
    /\ chain created_at ws now
    /\ Forall (fun w => snd w = window_end now (fst w)) ws
    /\ Forall forward (tl ws)
    /\ (dt_lt created_at (year_boundary (year created_at + 1)) = Ok true ->
        Forall forward ws)
    /\ (utcoffset created_at = UTC -> Forall forward ws)
    /\ fetch_commit_total W token login fuel s
       = sum_windows W token login ws 0 s1
    /\ forall total s',
         fetch_commit_total W token login fuel s = (Ok total, s') ->
         exists cs reqs,
           answered W token login s1 ws cs s'
           /\ total = sumZ cs
           /\ requested W token login ws reqs
           /\ trace s' = trace s1 ++ List.map ENet reqs.
Proof.
  intros Hc Hnow Hlt Hy Hmax Hfuel.
  assert (Hutc : utcoffset now = UTC) by (subst now; reflexivity).
  assert (Hbefore : before created_at now = true) by (apply before_true, Hlt).
  assert (Haware : utcoffset created_at <> None).
  { intros Hnone. unfold dt_lt in Hlt. rewrite Hnone, Hutc in Hlt.
    discriminate. }
  unfold dt_leb in Hmax. apply negb_true_iff in Hmax.
  pose proof (iterations_left_le created_at now) as Hle.
  assert (Hn : (iterations_left created_at now <= fuel)%nat) by lia.
  destruct (windows_spec now fuel Hutc created_at Hbefore Hn)
    as (Hne & Hchain & Hall & Htl & Hfw).
  exists (windows fuel created_at now).
  assert (Hrun : fetch_commit_total W token login fuel s
                 = sum_windows W token login (windows fuel created_at now)
                     0 s1).
  { unfold fetch_commit_total, bind at 1. rewrite Hc.
    unfold bind at 1, datetime_now. rewrite Hnow.
    apply commit_loop_windows; auto. }
  split; [exact Hne|]. split; [exact Hchain|]. split; [exact Hall|].
  split; [exact Htl|]. split; [|split; [|split; [exact Hrun|]]].
  - intros Hb. apply Hfw, before_true, Hb.
  - intros Hc0. apply Hfw, before_boundary, Hc0.
  - intros total s' Hok. rewrite Hrun in Hok.
    destruct (sum_windows_ok _ _ _ _ _ _ _ _ Hok)
      as (cs & reqs & Hans & -> & Hreqs & Htr & _).
    exists cs, reqs. auto.
Qed.

Lemma fetch_commit_total_windows_witness :
  let created_at := Datetime 2020 12 31 10 0 0 0 UTC in
  let now := Datetime 2022 1 2 8 30 0 250000 UTC in
  let s1 := snd (fetch_user_created_at world_2022 (txt "t0ken")
                   (txt "octocat") sample_state) in
  exists ws,
    ws <> []
    /\ chain created_at ws now
    /\ Forall (fun w => snd w = window_end now (fst w)) ws
    /\ Forall forward (tl ws)
    /\ (dt_lt created_at (year_boundary (year created_at + 1)) = Ok true ->
        Forall forward ws)
    /\ (utcoffset created_at = UTC -> Forall forward ws)
    /\ fetch_commit_total world_2022 (txt "t0ken") (txt "octocat") 3
         sample_state
       = sum_windows world_2022 (txt "t0ken") (txt "octocat") ws 0 s1
    /\ forall total s',
         fetch_commit_total world_2022 (txt "t0ken") (txt "octocat") 3
           sample_state = (Ok total, s') ->
         exists cs reqs,
           answered world_2022 (txt "t0ken") (txt "octocat") s1 ws cs s'
           /\ total = sumZ cs
           /\ requested world_2022 (txt "t0ken") (txt "octocat") ws reqs
           /\ trace s' = trace s1 ++ List.map ENet reqs.
Proof.
  intros created_at now s1.
  apply (fetch_commit_total_windows world_2022 (txt "t0ken") (txt "octocat") 3
           sample_state s1 created_at now).
  - vm_compute. reflexivity.
  - reflexivity.
  - reflexivity.
  - reflexivity.
  - reflexivity.
  - vm_compute. lia.
Defined.

(** C1 as stated fails in two ways. In the last year of [datetime] the
    year boundary after a window start does not exist, so the call
    raises [ValueError] before it requests any window. And a creation
    time with an offset west of UTC can lie after the first instant in
    UTC of the year after its own year: for 2020-12-31T23:00:00-05:00,
    seen on 2021-06-01, the first window requested runs from
    2021-01-01T04:00:00Z back to 2021-01-01T00:00:00Z. *)
Lemma fetch_commit_total_not_partition :
  (let created_at := Datetime 9999 3 1 0 0 0 0 UTC in
   let now := Datetime 9999 6 1 0 0 0 0 UTC in
   let s1 := snd (fetch_user_created_at world_9999 (txt "t0ken")
                    (txt "octocat") sample_state) in
   fetch_user_created_at world_9999 (txt "t0ken") (txt "octocat") sample_state
   = (Ok created_at, s1)
   /\ now_utc world_9999 (trace s1) = now
   /\ dt_lt created_at now = Ok true
   /\ fetch_commit_total world_9999 (txt "t0ken") (txt "octocat") 5
        sample_state
      = (Raise ValueError, s1)
   /\ ~ exists ws,
          ws <> []
          /\ fetch_commit_total world_9999 (txt "t0ken") (txt "octocat") 5
               sample_state
             = sum_windows world_9999 (txt "t0ken") (txt "octocat") ws 0 s1)
  /\ (let created_at :=
        Datetime 2020 12 31 23 0 0 0 (Some (-18000000000)%Z) in
      let now := Datetime 2021 6 1 0 0 0 0 UTC in
      let s1 := snd (fetch_user_created_at world_west (txt "t0ken")
                       (txt "octocat") sample_state) in
      fetch_user_created_at world_west (txt "t0ken") (txt "octocat")
        sample_state
      = (Ok created_at, s1)
      /\ now_utc world_west (trace s1) = now
      /\ dt_lt created_at now = Ok true
      /\ fst (fetch_commit_total world_west (txt "t0ken") (txt "octocat") 5
                sample_state)
         = Ok 3%Z
      /\ trace (snd (fetch_commit_total world_west (txt "t0ken")
                       (txt "octocat") 5 sample_state))
         = trace s1
           ++ [ENet (Request (txt "t0ken") contributions_query
                       (window_variables (txt "octocat")
                          (txt "2021-01-01T04:00:00Z")
                          (txt "2021-01-01T00:00:00Z")));
               ENet (Request (txt "t0ken") contributions_query
                       (window_variables (txt "octocat")
                          (txt "2021-01-01T00:00:00Z")
                          (txt "2021-06-01T00:00:00Z")))]
      /\ window_end now created_at = year_boundary 2021
      /\ dt_lt created_at (year_boundary 2021) = Ok false
      /\ dt_lt (year_boundary 2021) created_at = Ok true).
Proof.
  split.
  - intros created_at now s1.
    split; [vm_compute; reflexivity|].
    split; [reflexivity|].
    split; [reflexivity|].
    assert (Hrun : fetch_commit_total world_9999 (txt "t0ken") (txt "octocat")
                     5 sample_state = (Raise ValueError, s1))
      by (vm_compute; reflexivity).
    split; [exact Hrun|].
    intros (ws & Hne & Heq). rewrite Hrun in Heq.
    destruct ws as [|w ws]; [congruence|].
    destruct (sum_windows_trace world_9999 (txt "t0ken") (txt "octocat")
                w ws 0%Z s1) as [Hov|(evs & Htr & Hevs)].
    + rewrite Hov in Heq. discriminate.
    + rewrite <- Heq in Htr. cbn [snd] in Htr.
      apply (f_equal (@length event)) in Htr. rewrite length_app in Htr.
      destruct evs; [congruence|]. simpl in Htr. lia.
  - intros created_at now s1.
    repeat split; vm_compute; reflexivity.
Qed.

(** C4, amended. For every creation time and every current time, the
    latter in UTC as the code takes it, the loop of
    [fetch_commit_total] ends within one iteration per calendar year
    from the creation year, read in the creation time's own offset, to
    the current year, and within one iteration when there is no such
    year: with that much fuel it never runs out, and more fuel changes
    nothing. An iteration leaves a window start in UTC, and it moves the
    window start strictly forward when that start is before the first
    instant in UTC of the year after its own year, as every start in
    UTC is. The loop exits at once when the window start is not before
    the current time. *)
Theorem commit_loop_bound (W : World) (token login : list N)
    (now created_at : pydatetime) (total : Z) (s : state) (fuel : nat) :
  utcoffset now = UTC ->
  (Nat.max 1 (years_spanned created_at now) <= fuel)%nat ->
  fst (commit_loop W token login now fuel created_at total s) <> OutOfFuel
  /\ commit_loop W token login now fuel created_at total s
     = commit_loop W token login now (Nat.max 1 (years_spanned created_at now))
         created_at total s
  /\ (forall period_start t s0 st s0',
         dt_lt period_start now = Ok true ->
         commit_step W token login now period_start t s0 = (Ok st, s0') ->
         utcoffset (fst st) = UTC
         /\ (dt_lt period_start (year_boundary (year period_start + 1))
             = Ok true ->
             dt_lt period_start (fst st) = Ok true)
         /\ (utcoffset period_start = UTC ->
             dt_lt period_start (fst st) = Ok true))
  /\ (forall n period_start t s0,
         dt_lt period_start now = Ok false ->
         commit_loop W token login now n period_start t s0 = (Ok t, s0)).
Proof.
  intros Hutc Hfuel. pose proof (iterations_left_le created_at now) as Hle.
  split; [|split; [|split]].
  - apply commit_loop_finishes; [exact Hutc|lia].
  - apply commit_loop_fuel; [exact Hutc|lia|lia].
  - intros period_start t s0 st s0' Hlt Hstep.
    rewrite (commit_step_next _ _ _ _ _ _ _ _ _ Hutc Hstep).
    apply before_true in Hlt.
    split; [apply utcoffset_window_end, Hutc|]. split.
    + intros Hb. apply before_true, window_advances; [exact Hlt|].
      apply before_true, Hb.
    + intros Hps. apply before_true, window_advances; [exact Hlt|].
      apply before_boundary, Hps.
  - intros n period_start t s0 Hge. destruct n; simpl; rewrite Hge; reflexivity.
Qed.

Lemma commit_loop_bound_witness :
  let created_at := Datetime 2020 12 31 10 0 0 0 UTC in
  let now := Datetime 2022 1 2 8 30 0 250000 UTC in
  fst (commit_loop world_2022 (txt "t0ken") (txt "octocat") now 7 created_at 0
         sample_state) <> OutOfFuel
  /\ commit_loop world_2022 (txt "t0ken") (txt "octocat") now 7 created_at 0
       sample_state
     = commit_loop world_2022 (txt "t0ken") (txt "octocat") now
         (Nat.max 1 (years_spanned created_at now)) created_at 0 sample_state.
Proof.
  intros created_at now.
  assert (Hfuel : (Nat.max 1 (years_spanned created_at now) <= 7)%nat)
    by (vm_compute; lia).
  destruct (commit_loop_bound world_2022 (txt "t0ken") (txt "octocat") now
              created_at 0 sample_state 7 eq_refl Hfuel) as (H1 & H2 & _).
  split; assumption.
Defined.

(** C4 as stated fails in three ways. An account created on 2020-12-31
    is one whole year old on 2022-01-02, and the loop makes three
    iterations. For a creation time with an offset west of UTC,
    2020-12-31T23:00:00-05:00, the first iteration moves the window
    start backwards, to 2021-01-01T00:00:00Z. For one with an offset
    east of UTC, 2021-01-01T02:00:00+05:00, seen at
    2020-12-31T23:00:00Z, the loop makes one iteration although no
    calendar year lies between the creation year and the current
    year. *)
Lemma commit_loop_exceeds_whole_years :
  (let created_at := Datetime 2020 12 31 10 0 0 0 UTC in
   let now := Datetime 2022 1 2 8 30 0 250000 UTC in
   whole_years created_at now = 1%nat
   /\ fst (commit_loop world_2022 (txt "t0ken") (txt "octocat") now
             (whole_years created_at now) created_at 0 sample_state)
      = OutOfFuel
   /\ fst (commit_loop world_2022 (txt "t0ken") (txt "octocat") now 2
             created_at 0 sample_state)
      = OutOfFuel
   /\ fst (commit_loop world_2022 (txt "t0ken") (txt "octocat") now 3
             created_at 0 sample_state)
      = Ok 3%Z
   /\ length (trace (snd (commit_loop world_2022 (txt "t0ken") (txt "octocat")
                            now 3 created_at 0 sample_state))) = 3%nat)
  /\ (let created_at :=
        Datetime 2020 12 31 23 0 0 0 (Some (-18000000000)%Z) in
      let now := Datetime 2021 6 1 0 0 0 0 UTC in
      dt_lt created_at now = Ok true
      /\ fst (commit_step world_west (txt "t0ken") (txt "octocat") now
                created_at 0 sample_state)
         = Ok (year_boundary 2021, 0%Z)
      /\ dt_lt created_at (year_boundary 2021) = Ok false
      /\ dt_lt (year_boundary 2021) created_at = Ok true)
  /\ (let created_at := Datetime 2021 1 1 2 0 0 0 (Some 18000000000%Z) in
      let now := Datetime 2020 12 31 23 0 0 0 UTC in
      dt_lt created_at now = Ok true
      /\ years_spanned created_at now = 0%nat
      /\ fst (commit_loop world_east (txt "t0ken") (txt "octocat") now 0
                created_at 0 sample_state)
         = OutOfFuel
      /\ fst (commit_loop world_east (txt "t0ken") (txt "octocat") now 1
                created_at 0 sample_state)
         = Ok 0%Z
      /\ length (trace (snd (commit_loop world_east (txt "t0ken")
                               (txt "octocat") now 1 created_at 0
                               sample_state))) = 1%nat).
Proof. repeat split; vm_compute; reflexivity. Qed.

(** * Further properties *)

(** ** The template renderer *)

(** X1. Rendering goes from left to right, piece by piece: text
    without an opening brace in front of a template is copied, and a
    placeholder in front of a template is replaced by the string form of
    its value, or kept when its token is no key, whatever follows; when
    [str] of the value raises, so does the rendering. *)
Theorem render_template_left_to_right (py_repr : pyval -> list N)
    (m : gmap (list N) pyval) (rest rendered : list N) :
  render_template py_repr rest m = Ok rendered ->
  (forall pre : list N,
      Forall (fun c => c <> LBRACE) pre ->
      render_template py_repr (pre ++ rest) m = Ok (pre ++ rendered))
  /\ (forall ws1 tok ws2 v,
         placeholder ws1 tok ws2 ->
         m !! tok = Some v ->
         render_template py_repr (group0 ws1 tok ws2 ++ rest) m
         = app_outcome (str_of py_repr v) (Ok rendered)
         /\ (has_str py_repr v ->
             render_template py_repr (group0 ws1 tok ws2 ++ rest) m
             = Ok (py_str py_repr v ++ rendered)))
  /\ (forall ws1 tok ws2,
         placeholder ws1 tok ws2 ->
         m !! tok = None ->
         render_template py_repr (group0 ws1 tok ws2 ++ rest) m
         = Ok (group0 ws1 tok ws2 ++ rendered)).
Proof.
  intros Hrest. split; [|split].
  - intros pre Hpre. induction Hpre as [|c pre Hc _ IH]; [exact Hrest|].
    simpl. rewrite (render_template_cons_literal _ _ _ _ Hc), IH. reflexivity.
  - intros ws1 tok ws2 v Hp Hm.
    rewrite (render_template_placeholder_prefix _ _ _ _ _ _ Hp), Hrest.
    cbn [seg_render]. rewrite Hm. split; [reflexivity|].
    intros ->. reflexivity.
  - intros ws1 tok ws2 Hp Hm.
    rewrite (render_template_placeholder_prefix _ _ _ _ _ _ Hp), Hrest.
    simpl. rewrite Hm. reflexivity.
Qed.

Lemma render_template_left_to_right_witness :
  render_template (fun _ => []) (txt "Stars: " ++ txt "{{ STARS }}!")
    {[ txt "STARS" := PInt 42 ]}
  = Ok (txt "Stars: " ++ txt "42!").
Proof.
  assert (Hrest : render_template (fun _ => []) (txt "{{ STARS }}!")
                    {[ txt "STARS" := PInt 42 ]} = Ok (txt "42!"))
    by (vm_compute; reflexivity).
  apply (proj1 (render_template_left_to_right _ _ _ _ Hrest)).
  repeat constructor; discriminate.
Defined.

Lemma renders_empty py_repr gs : renders py_repr ∅ gs = Ok (src gs).
Proof.
  induction gs as [|g gs IH]; [reflexivity|].
  cbn [renders]. rewrite IH. destruct g; cbn [seg_render]; [reflexivity|].
  rewrite lookup_empty. reflexivity.
Qed.

(** X2. With an empty mapping every template renders to itself,
    placeholders included. *)
Theorem render_template_empty_mapping (py_repr : pyval -> list N)
    (template_text : list N) :
  render_template py_repr template_text ∅ = Ok template_text.
Proof.
  destruct (render_template_spec py_repr template_text ∅)
    as (gs & _ & Hsrc & _ & Hrun).
  rewrite Hrun, renders_empty, Hsrc. reflexivity.
Qed.

Lemma placeholder_is_token ws1 tok ws2 :
  placeholder ws1 tok ws2 -> is_token tok = true.
Proof.
  intros (_ & Hne & Ht & _). destruct tok as [|c tok]; [congruence|].
  unfold is_token. apply forallb_forall. intros x Hx.
  rewrite List.Forall_forall in Ht. apply Ht, Hx.
Qed.

(** Mappings that agree on the tokens render alike. *)
Lemma sub_scan_agree py_repr m1 m2 :
  (forall tok, is_token tok = true -> m1 !! tok = m2 !! tok) ->
  forall fuel (s : list N),
    sub_scan py_repr m1 fuel s = sub_scan py_repr m2 fuel s.
Proof.
  intros Hagree. induction fuel as [|fuel IH]; intros s; [reflexivity|].
  simpl. destruct (match_placeholder s) as [[[[ws1 tok] ws2] rest]|] eqn:E.
  - destruct (match_placeholder_sound _ _ _ _ _ E) as [_ Hp].
    rewrite !(substitute_spec _ _ _ _ _ Hp). simpl.
    rewrite (Hagree tok (placeholder_is_token _ _ _ Hp)), IH. reflexivity.
  - destruct s as [|c s]; [reflexivity|]. rewrite IH. reflexivity.
Qed.

(** X3. A key that is not a non-empty run of uppercase letters, digits
    and underscores is never used: adding it to the mapping, or changing
    its value, changes no rendering. *)
Theorem render_template_ignores_other_keys (py_repr : pyval -> list N)
    (template_text : list N) (m : gmap (list N) pyval) (k : list N)
    (v : pyval) :
  is_token k = false ->
  render_template py_repr template_text (<[k := v]> m)
  = render_template py_repr template_text m.
Proof.
  intros Hk. apply sub_scan_agree. intros tok Htok.
  apply lookup_insert_ne. congruence.
Qed.

Lemma render_template_ignores_other_keys_witness :
  render_template (fun _ => []) (txt "{{ stars }} {{ STARS }}")
    (<[txt "stars" := PInt 7]> {[ txt "STARS" := PInt 42 ]})
  = render_template (fun _ => []) (txt "{{ stars }} {{ STARS }}")
      {[ txt "STARS" := PInt 42 ]}.
Proof.
  apply (render_template_ignores_other_keys (fun _ => [])).
  reflexivity.
Defined.

(** ** Timestamps *)

Lemma length_pad w : forall n, length (pad w n) = w.
Proof.
  induction w as [|w IH]; intros n; simpl; [reflexivity|].
  rewrite length_app, IH. simpl. lia.
Qed.

Lemma pad_inj w :
  forall n m, n < 10 ^ N.of_nat w -> m < 10 ^ N.of_nat w ->
              pad w n = pad w m -> n = m.
Proof.
  induction w as [|w IH]; intros n m Hn Hm.
  - simpl in Hn, Hm. lia.
  - rewrite Nat2N.inj_succ, N.pow_succ_r' in Hn, Hm. simpl.
    intros H. apply app_inj_tail in H as [H1 H2].
    assert (Hd : n / 10 = m / 10).
    { apply IH; [| |exact H1]; apply N.Div0.div_lt_upper_bound; lia. }
    assert (Hr : n mod 10 = m mod 10) by lia.
    rewrite (N.div_mod n 10), (N.div_mod m 10) by lia.
    rewrite Hd, Hr. reflexivity.
Qed.

Lemma days_in_month_le y m : days_in_month y m <= 31.
Proof.
  unfold days_in_month.
  destruct (m =? 2); [destruct (is_leap y); lia|].
  destruct (_ || _); lia.
Qed.

Lemma valid_datetime_bounds dt :
  valid_datetime dt = true ->
  year dt < 10 ^ 4 /\ month dt < 10 ^ 2 /\ day dt < 10 ^ 2
  /\ hour dt < 10 ^ 2 /\ minute dt < 10 ^ 2 /\ second dt < 10 ^ 2.
Proof.
  unfold valid_datetime, MINYEAR, MAXYEAR.
  rewrite !andb_true_iff, !N.leb_le, !N.ltb_lt.
  pose proof (days_in_month_le (year dt) (month dt)).
  change (10 ^ 4) with 10000. change (10 ^ 2) with 100. lia.
Qed.

Lemma Ok_inj {A} (x y : A) : Ok x = Ok y -> x = y.
Proof. congruence. Qed.

(** X4. [isoformat] tells seconds apart and nothing finer: two
    datetimes get the same string exactly when their conversions to
    UTC agree on every field down to the second, whatever their own
    offsets and fields are. *)
Theorem isoformat_same_second (W : World) (a b ua ub : pydatetime) :
  astimezone_utc W a = Ok ua ->
  astimezone_utc W b = Ok ub ->
  valid_datetime ua = true ->
  valid_datetime ub = true ->
  isoformat W a = Ok (isoformat_utc ua)
  /\ isoformat W b = Ok (isoformat_utc ub)
  /\ (isoformat W a = isoformat W b <-> same_second ua ub).
Proof.
  intros Hua Hub Ha Hb. unfold isoformat. rewrite Hua, Hub.
  split; [reflexivity|]. split; [reflexivity|]. split.
  - apply valid_datetime_bounds in Ha as (Ha1 & Ha2 & Ha3 & Ha4 & Ha5 & Ha6).
    apply valid_datetime_bounds in Hb as (Hb1 & Hb2 & Hb3 & Hb4 & Hb5 & Hb6).
    unfold isoformat_utc. intros H. apply Ok_inj in H.
    apply app_inj_1 in H as [Hy H]; [|rewrite !length_pad; reflexivity].
    apply app_inj_1 in H as [_ H]; [|reflexivity].
    apply app_inj_1 in H as [Hmo H]; [|rewrite !length_pad; reflexivity].
    apply app_inj_1 in H as [_ H]; [|reflexivity].
    apply app_inj_1 in H as [Hd H]; [|rewrite !length_pad; reflexivity].
    apply app_inj_1 in H as [_ H]; [|reflexivity].
    apply app_inj_1 in H as [Hh H]; [|rewrite !length_pad; reflexivity].
    apply app_inj_1 in H as [_ H]; [|reflexivity].
    apply app_inj_1 in H as [Hmi H]; [|rewrite !length_pad; reflexivity].
    apply app_inj_1 in H as [_ H]; [|reflexivity].
    apply app_inj_1 in H as [Hs _]; [|rewrite !length_pad; reflexivity].
    repeat split.
    + apply (pad_inj 4); assumption.
    + apply (pad_inj 2); assumption.
    + apply (pad_inj 2); assumption.
    + apply (pad_inj 2); assumption.
    + apply (pad_inj 2); assumption.
    + apply (pad_inj 2); assumption.
  - intros (Hy & Hmo & Hd & Hh & Hmi & Hs). unfold isoformat_utc.
    rewrite Hy, Hmo, Hd, Hh, Hmi, Hs. reflexivity.
Qed.

Lemma isoformat_same_second_witness :
  let a := Datetime 2020 12 31 23 0 0 250000 (Some (-18000000000)%Z) in
  let b := Datetime 2021 1 1 4 0 0 999999 UTC in
  isoformat world_2022 a = Ok (txt "2021-01-01T04:00:00Z")
  /\ isoformat world_2022 b = Ok (txt "2021-01-01T04:00:00Z")
  /\ (isoformat world_2022 a = isoformat world_2022 b
      <-> same_second (Datetime 2021 1 1 4 0 0 250000 UTC) b).
Proof.
  intros a b.
  apply (isoformat_same_second world_2022 a b
           (Datetime 2021 1 1 4 0 0 250000 UTC) b);
    vm_compute; reflexivity.
Defined.

(** ** More on the commit windows *)

Lemma dt_leb_refl a : dt_leb a a = true.
Proof. unfold dt_leb. rewrite dt_ltb_irrefl. reflexivity. Qed.

Lemma dt_leb_ltb_trans a b c :
  dt_leb a b = true -> dt_ltb b c = true -> dt_leb a c = true.
Proof.
  unfold dt_leb. intros Hab Hbc. destruct (dt_ltb c a) eqn:Hca; [|reflexivity].
  rewrite (dt_ltb_trans _ _ _ Hbc Hca) in Hab. discriminate.
Qed.

Lemma dt_ltb_asym a b : dt_ltb a b = true -> dt_ltb b a = false.
Proof.
  intros Hab. destruct (dt_ltb b a) eqn:Hba; [|reflexivity].
  pose proof (dt_ltb_trans _ _ _ Hab Hba) as H.
  rewrite dt_ltb_irrefl in H. discriminate.
Qed.

Lemma window_end_le now period_start :
  dt_leb (window_end now period_start) now = true.
Proof.
  unfold window_end, dt_leb.
  destruct (dt_ltb now (year_boundary (year period_start + 1))) eqn:Hb.
  - rewrite dt_ltb_irrefl. reflexivity.
  - rewrite Hb. reflexivity.
Qed.

(** In UTC a window ends after its start. *)
Lemma window_advances_utc now period_start :
  dt_ltb period_start now = true ->
  dt_ltb period_start (window_end now period_start) = true.
Proof.
  intros H. unfold window_end.
  destruct (dt_ltb now _); [exact H|]. apply dt_ltb_boundary. lia.
Qed.

Lemma windows_within now n :
  utcoffset now = UTC ->
  forall period_start created_at,
    utcoffset period_start = UTC ->
    dt_leb created_at period_start = true ->
    Forall (fun w => dt_leb created_at (fst w) = true
                     /\ dt_ltb (fst w) (snd w) = true
                     /\ dt_leb (snd w) now = true
                     /\ utcoffset (fst w) = UTC
                     /\ utcoffset (snd w) = UTC)
           (windows n period_start now).
Proof.
  intros Hnow.
  induction n as [|n IH]; intros period_start created_at Hutc Hle; simpl;
    rewrite (before_utc _ _ Hutc Hnow);
    destruct (dt_ltb period_start now) eqn:Hlt; constructor.
  - simpl. split; [exact Hle|]. split; [apply window_advances_utc, Hlt|].
    split; [apply window_end_le|]. split; [exact Hutc|].
    apply utcoffset_window_end, Hnow.
  - apply IH; [apply utcoffset_window_end, Hnow|].
    apply (dt_leb_ltb_trans _ period_start); [exact Hle|].
    apply window_advances_utc, Hlt.
Qed.

Lemma length_windows now n :
  utcoffset now = UTC ->
  forall period_start,
    (length (windows n period_start now) <= iterations_left period_start now)%nat.
Proof.
  intros Hnow. induction n as [|n IH]; intros period_start; simpl;
    destruct (before period_start now) eqn:Hlt; simpl; try lia.
  pose proof (IH (window_end now period_start)) as Hn.
  pose proof (iterations_left_pos _ _ Hlt) as Hpos.
  pose proof (iterations_left_step now period_start
                (Nat.pred (iterations_left period_start now)) Hnow Hlt) as Hstep.
  lia.
Qed.

(** From a start in UTC the loop makes at most one iteration per
    calendar year. *)
Lemma iterations_left_utc a b :
  utcoffset a = UTC -> utcoffset b = UTC ->
  (iterations_left a b <= years_spanned a b)%nat.
Proof.
  intros Ha Hb. unfold iterations_left. rewrite (before_utc _ _ Ha Hb).
  destruct (dt_ltb a b) eqn:Hlt; [|lia].
  apply dt_ltb_year in Hlt. unfold years_spanned. lia.
Qed.

(** X5. For a creation time in UTC, as the API gives it, and the
    current time in a year before 9999, the loop of
    [fetch_commit_total] requests only windows inside the account's
    lifetime: every window starts at or after the creation time, ends
    after its start, and ends at or before the current time; there are
    at most as many windows as calendar years from the creation year to
    the current year. *)
Theorem commit_loop_windows_within (W : World) (token login : list N)
    (now created_at : pydatetime) (total : Z) (s : state) (fuel : nat) :
  utcoffset created_at = UTC ->
  utcoffset now = UTC ->
  year now < MAXYEAR ->
  (years_spanned created_at now <= fuel)%nat ->
  exists ws,
    commit_loop W token login now fuel created_at total s
    = sum_windows W token login ws total s
    /\ Forall (fun w => dt_leb created_at (fst w) = true
                        /\ dt_ltb (fst w) (snd w) = true
                        /\ dt_leb (snd w) now = true
                        /\ utcoffset (fst w) = UTC
                        /\ utcoffset (snd w) = UTC) ws
    /\ (length ws <= years_spanned created_at now)%nat.
Proof.
  intros Hc Hnow Hmax Hfuel.
  pose proof (iterations_left_utc created_at now Hc Hnow) as Hle.
  exists (windows fuel created_at now). split; [|split].
  - apply commit_loop_windows.
    + exact Hnow.
    + apply dt_ltb_asym, dt_ltb_boundary, Hmax.
    + rewrite Hc. discriminate.
    + rewrite (before_utc _ _ Hc Hnow). intros Hlt.
      apply dt_ltb_year in Hlt. lia.
    + lia.
  - apply windows_within; [exact Hnow|exact Hc|apply dt_leb_refl].
  - pose proof (length_windows now fuel Hnow created_at). lia.
Qed.

Lemma commit_loop_windows_within_witness :
  let created_at := Datetime 2020 12 31 10 0 0 0 UTC in
  let now := Datetime 2022 1 2 8 30 0 250000 UTC in
  exists ws,
    commit_loop world_2022 (txt "t0ken") (txt "octocat") now 5 created_at 0
      sample_state
    = sum_windows world_2022 (txt "t0ken") (txt "octocat") ws 0 sample_state
    /\ Forall (fun w => dt_leb created_at (fst w) = true
                        /\ dt_ltb (fst w) (snd w) = true
                        /\ dt_leb (snd w) now = true
                        /\ utcoffset (fst w) = UTC
                        /\ utcoffset (snd w) = UTC) ws
    /\ (length ws <= years_spanned created_at now)%nat.
Proof.
  intros created_at now.
  apply (commit_loop_windows_within world_2022 (txt "t0ken") (txt "octocat")
           now created_at 0 sample_state 5).
  - reflexivity.
  - reflexivity.
  - reflexivity.
  - vm_compute. lia.
Defined.

(** X6. When the creation time is not before the current time (a
    clock behind the account's creation), [fetch_commit_total] returns 0
    after the creation-date request alone: no window is requested. *)
Theorem fetch_commit_total_no_window (W : World) (token login : list N)
    (fuel : nat) (s s1 : state) (created_at : pydatetime) :
  fetch_user_created_at W token login s = (Ok created_at, s1) ->
  dt_lt created_at (now_utc W (trace s1)) = Ok false ->
  fetch_commit_total W token login fuel s = (Ok 0%Z, s1)
  /\ trace s1
     = trace s ++ [ENet (Request token created_at_query
                           [(txt "login", PStr login)])].
Proof.
  intros Hc Hge. split.
  - unfold fetch_commit_total, bind, datetime_now. rewrite Hc.
    destruct fuel; simpl; rewrite Hge; reflexivity.
  - revert Hc. unfold fetch_user_created_at, bind at 1.
    pose proof (execute_state W token created_at_query
                  [(txt "login", PStr login)] s) as He.
    destruct (execute _ _ _ _ s) as [[data| |] s2]; cbn [snd] in He;
      try discriminate.
    subst s2. unfold bind, lift, raise, ret.
    destruct (dict_get data _) as [user| |]; try discriminate.
    destruct (negb (truthy user)); try discriminate.
    destruct (getitem user _) as [c| |]; try discriminate.
    destruct c; try discriminate.
    destruct (fromisoformat W _); try discriminate.
    intros [= _ <-]. reflexivity.
Qed.

Lemma fetch_commit_total_no_window_witness :
  let W := sample_world (txt "2030-01-01T00:00:00Z")
             (Datetime 2030 1 1 0 0 0 0 UTC) (Datetime 2022 1 2 8 30 0 250000 UTC) in
  let s1 := snd (fetch_user_created_at W (txt "t0ken") (txt "octocat")
                   sample_state) in
  fetch_commit_total W (txt "t0ken") (txt "octocat") 0 sample_state
  = (Ok 0%Z, s1)
  /\ trace s1
     = trace sample_state
       ++ [ENet (Request (txt "t0ken") created_at_query
                   [(txt "login", PStr (txt "octocat"))])].
Proof.
  intros W s1.
  apply (fetch_commit_total_no_window W (txt "t0ken") (txt "octocat") 0
           sample_state s1 (Datetime 2030 1 1 0 0 0 0 UTC)).
  - vm_compute. reflexivity.
  - reflexivity.
Defined.

(** X7. An account created in year 9999, seen later in that year: the
    first iteration raises [ValueError] for the year boundary of 10000,
    so [fetch_commit_total] fails after the creation-date request alone,
    whatever the API would answer. *)
Theorem fetch_commit_total_last_year (W : World) (token login : list N)
    (fuel : nat) (s s1 : state) (created_at : pydatetime) :
  fetch_user_created_at W token login s = (Ok created_at, s1) ->
  dt_lt created_at (now_utc W (trace s1)) = Ok true ->
  MAXYEAR <= year created_at ->
  fetch_commit_total W token login (S fuel) s = (Raise ValueError, s1).
Proof.
  intros Hc Hlt Hy.
  unfold fetch_commit_total, bind at 1. rewrite Hc.
  unfold bind at 1, datetime_now. cbn [commit_loop]. rewrite Hlt.
  unfold bind at 1, commit_step, bind at 1, lift, datetime_new.
  replace (year created_at + 1 <=? MAXYEAR) with false
    by (symmetry; apply N.leb_gt; lia).
  rewrite andb_false_r. reflexivity.
Qed.

Lemma fetch_commit_total_last_year_witness :
  fetch_commit_total world_9999 (txt "t0ken") (txt "octocat") 3 sample_state
  = (Raise ValueError,
     snd (fetch_user_created_at world_9999 (txt "t0ken") (txt "octocat")
            sample_state)).
Proof.
  apply (fetch_commit_total_last_year world_9999 (txt "t0ken") (txt "octocat")
           2 sample_state _ (Datetime 9999 3 1 0 0 0 0 UTC)).
  - vm_compute. reflexivity.
  - reflexivity.
  - vm_compute. discriminate.
Defined.

(** ** The star total *)

Lemma sum_stars_app a :
  forall b total,
    sum_stars (a ++ b) total
    = match sum_stars a total with
      | Ok t => sum_stars b t
      | Raise e => Raise e
      | OutOfFuel => OutOfFuel
      end.
Proof.
  induction a as [|x a IH]; intros b total; simpl; [reflexivity|].
  destruct (getitem x _) as [n| |]; try reflexivity.
  destruct (add_int total n) as [t| |]; try reflexivity. apply IH.
Qed.

(** One turn of the [while True] loop, by the page it reads. *)
Lemma stars_loop_step W token login fuel total cursor s data s1 items info :
  execute W token stars_query (stars_variables login cursor) s = (Ok data, s1) ->
  star_page data = Some (items, info) ->
  stars_loop W token login (S fuel) total cursor s
  = match sum_stars items total with
    | Ok t =>
        match getitem info (txt "hasNextPage") with
        | Ok more =>
            if negb (truthy more) then (Ok t, s1)
            else match getitem info (txt "endCursor") with
                 | Ok next => stars_loop W token login fuel t next s1
                 | Raise e => (Raise e, s1)
                 | OutOfFuel => (OutOfFuel, s1)
                 end
        | Raise e => (Raise e, s1)
        | OutOfFuel => (OutOfFuel, s1)
        end
    | Raise e => (Raise e, s1)
    | OutOfFuel => (OutOfFuel, s1)
    end.
Proof.
  intros He Hp. cbn [stars_loop]. unfold bind at 1.
  fold (stars_variables login cursor). rewrite He.
  unfold star_page in Hp. unfold bind, lift, ret.
  destruct (getitem data _) as [user| |]; try discriminate.
  destruct (getitem user _) as [repos| |]; try discriminate.
  destruct (getitem repos (txt "nodes")) as [nodes| |]; try discriminate.
  destruct (iterate nodes) as [items'| |]; try discriminate.
  destruct (getitem repos (txt "pageInfo")) as [info'| |]; try discriminate.
  injection Hp as -> ->.
  destruct (sum_stars items total) as [t| |]; try reflexivity.
  destruct (getitem info _) as [more| |]; try reflexivity.
  destruct (negb (truthy more)); reflexivity.
Qed.

(** A turn that returns has read a page. *)
Lemma stars_loop_page W token login fuel total cursor s t s' :
  stars_loop W token login (S fuel) total cursor s = (Ok t, s') ->
  exists data s1 items info,
    execute W token stars_query (stars_variables login cursor) s = (Ok data, s1)
    /\ star_page data = Some (items, info).
Proof.
  cbn [stars_loop]. unfold bind at 1.
  fold (stars_variables login cursor).
  destruct (execute _ _ _ _ s) as [[data| |] s1] eqn:He; try discriminate.
  unfold bind, lift, ret.
  destruct (getitem data _) as [user| |] eqn:H1; try discriminate.
  destruct (getitem user _) as [repos| |] eqn:H2; try discriminate.
  destruct (getitem repos (txt "nodes")) as [nodes| |] eqn:H3;
    try discriminate.
  destruct (iterate nodes) as [items| |] eqn:H4; try discriminate.
  destruct (sum_stars items total) as [t1| |]; try discriminate.
  destruct (getitem repos (txt "pageInfo")) as [info| |] eqn:H5;
    try discriminate.
  intros _. exists data, s1, items, info. split; [reflexivity|].
  unfold star_page. rewrite H1, H2, H3, H4, H5. reflexivity.
Qed.

Lemma stars_loop_sound W token login fuel :
  forall total cursor s t s',
    stars_loop W token login fuel total cursor s = (Ok t, s') ->
    exists pages,
      paged W token login s cursor pages s'
      /\ (length pages <= fuel)%nat
      /\ sum_stars (concat (List.map snd pages)) total = Ok t
      /\ trace s'
         = trace s
           ++ List.map (fun p => ENet (stars_request token login (fst p))) pages
      /\ files s' = files s.
Proof.
  induction fuel as [|fuel IH]; intros total cursor s t s' Hrun;
    [discriminate|].
  destruct (stars_loop_page _ _ _ _ _ _ _ _ _ Hrun)
    as (data & s1 & items & info & He & Hp).
  rewrite (stars_loop_step _ _ _ _ _ _ _ _ _ _ _ He Hp) in Hrun.
  pose proof (execute_state W token stars_query
                (stars_variables login cursor) s) as Hs.
  rewrite He in Hs. cbn [snd] in Hs.
  destruct (sum_stars items total) as [t1| |] eqn:Hsum; try discriminate.
  destruct (getitem info (txt "hasNextPage")) as [more| |] eqn:Hmore;
    try discriminate.
  destruct (truthy more) eqn:Ht; cbn [negb] in Hrun.
  - destruct (getitem info (txt "endCursor")) as [next| |] eqn:Hnext;
      try discriminate.
    destruct (IH _ _ _ _ _ Hrun) as (rest & Hpaged & Hlen & Hrest & Htr & Hfs).
    exists ((cursor, items) :: rest). split; [|split; [|split; [|split]]].
    + eapply paged_more; eassumption.
    + simpl. lia.
    + simpl. rewrite sum_stars_app, Hsum. exact Hrest.
    + rewrite Htr, Hs. simpl. rewrite <- app_assoc. reflexivity.
    + rewrite Hfs, Hs. reflexivity.
  - injection Hrun as <- <-.
    exists [(cursor, items)]. split; [|split; [|split; [|split]]].
    + eapply paged_last; eassumption.
    + simpl. lia.
    + simpl. rewrite app_nil_r. exact Hsum.
    + rewrite Hs. reflexivity.
    + rewrite Hs. reflexivity.
Qed.

Lemma stars_loop_complete W token login s cursor pages s' :
  paged W token login s cursor pages s' ->
  forall fuel total t,
    sum_stars (concat (List.map snd pages)) total = Ok t ->
    (length pages <= fuel)%nat ->
    stars_loop W token login fuel total cursor s = (Ok t, s').
Proof.
  induction 1 as [s cursor data items info more s1 He Hp Hmore Ht
                 |s cursor data items info more next rest s1 s' He Hp Hmore Ht
                    Hnext _ IH];
    intros fuel total t Hsum Hlen.
  - destruct fuel as [|fuel]; [simpl in Hlen; lia|].
    rewrite (stars_loop_step _ _ _ _ _ _ _ _ _ _ _ He Hp).
    simpl in Hsum. rewrite app_nil_r in Hsum.
    rewrite Hsum, Hmore, Ht. reflexivity.
  - destruct fuel as [|fuel]; [simpl in Hlen; lia|].
    rewrite (stars_loop_step _ _ _ _ _ _ _ _ _ _ _ He Hp).
    simpl in Hsum. rewrite sum_stars_app in Hsum.
    destruct (sum_stars items total) as [t1| |]; try discriminate.
    rewrite Hmore, Ht, Hnext. cbn [negb].
    apply IH; [exact Hsum|]. simpl in Hlen. lia.
Qed.

(** X8. When [fetch_total_stars] returns, the API served a last page
    after finitely many pages: the first request has no cursor, each
    next one the cursor the previous page gave, one request per page and
    no other; the result is the star counts of all nodes of all pages,
    added up in order. *)
Theorem fetch_total_stars_pages (W : World) (token login : list N)
    (fuel : nat) (s s' : state) (total_stars : Z) :
  fetch_total_stars W token login fuel s = (Ok total_stars, s') ->
  exists pages,
    paged W token login s PNone pages s'
    /\ (0 < length pages <= fuel)%nat
    /\ sum_stars (concat (List.map snd pages)) 0 = Ok total_stars
    /\ trace s'
       = trace s
         ++ List.map (fun p => ENet (stars_request token login (fst p))) pages
    /\ files s' = files s.
Proof.
  intros Hrun.
  destruct (stars_loop_sound _ _ _ _ _ _ _ _ _ Hrun)
    as (pages & Hp & Hlen & Hsum & Htr & Hfs).
  exists pages. repeat split; try assumption.
  destruct Hp; simpl; lia.
Qed.

Lemma fetch_total_stars_pages_witness :
  exists pages,
    paged world_2022 (txt "t0ken") (txt "octocat") sample_state PNone pages
      (snd (fetch_total_stars world_2022 (txt "t0ken") (txt "octocat") 4
              sample_state))
    /\ (0 < length pages <= 4)%nat
    /\ sum_stars (concat (List.map snd pages)) 0 = Ok 8%Z
    /\ trace (snd (fetch_total_stars world_2022 (txt "t0ken") (txt "octocat") 4
                     sample_state))
       = trace sample_state
         ++ List.map (fun p => ENet (stars_request (txt "t0ken")
                                       (txt "octocat") (fst p))) pages
    /\ files (snd (fetch_total_stars world_2022 (txt "t0ken") (txt "octocat") 4
                     sample_state))
       = files sample_state.
Proof.
  apply (fetch_total_stars_pages world_2022 (txt "t0ken") (txt "octocat") 4).
  vm_compute. reflexivity.
Defined.

(** X9. When the API serves a last page after finitely many pages and
    the star counts of their nodes add up, [fetch_total_stars] returns
    that sum, given an iteration budget of at least the number of
    pages. *)
Theorem fetch_total_stars_returns (W : World) (token login : list N)
    (fuel : nat) (s s' : state) (pages : list (pyval * list pyval))
    (total_stars : Z) :
  paged W token login s PNone pages s' ->
  sum_stars (concat (List.map snd pages)) 0 = Ok total_stars ->
  (length pages <= fuel)%nat ->
  fetch_total_stars W token login fuel s = (Ok total_stars, s').
Proof.
  intros Hp Hsum Hlen. unfold fetch_total_stars.
  eapply stars_loop_complete; eassumption.
Qed.

Lemma fetch_total_stars_returns_witness :
  fetch_total_stars world_2022 (txt "t0ken") (txt "octocat") 1 sample_state
  = (Ok 8%Z,
     State [ENet (stars_request (txt "t0ken") (txt "octocat") PNone)]
           (files sample_state)).
Proof.
  apply (fetch_total_stars_returns world_2022 (txt "t0ken") (txt "octocat") 1
           sample_state _ [(PNone, sample_nodes)]).
  - eapply paged_last.
    + vm_compute. reflexivity.
    + vm_compute. reflexivity.
    + vm_compute. reflexivity.
    + reflexivity.
  - reflexivity.
  - simpl. lia.
Defined.

Lemma add_int_swap total n m t1 t2 :
  add_int total n = Ok t1 -> add_int t1 m = Ok t2 ->
  exists t1', add_int total m = Ok t1' /\ add_int t1' n = Ok t2.
Proof.
  destruct n as [|b|z| | | |]; simpl; try discriminate; intros [= <-];
    destruct m as [|b'|z'| | | |]; simpl; try discriminate; intros [= <-];
    eexists; (split; [reflexivity|]); f_equal;
    repeat match goal with |- context [if ?c then _ else _] => destruct c end;
    lia.
Qed.

Lemma sum_stars_reorder (nodes1 nodes2 : list pyval) :
  nodes1 ≡ₚ nodes2 ->
  forall total t,
    sum_stars nodes1 total = Ok t -> sum_stars nodes2 total = Ok t.
Proof.
  induction 1 as [|x l1 l2 _ IH|x y l|l1 l2 l3 _ IH1 _ IH2];
    intros total t; simpl.
  - auto.
  - destruct (getitem x _) as [n| |]; try discriminate.
    destruct (add_int total n) as [t1| |]; try discriminate. apply IH.
  - destruct (getitem y _) as [n| |]; try discriminate.
    destruct (add_int total n) as [t1| |] eqn:Hn; try discriminate.
    destruct (getitem x _) as [m| |]; try discriminate.
    destruct (add_int t1 m) as [t2| |] eqn:Hm; try discriminate.
    destruct (add_int_swap _ _ _ _ _ Hn Hm) as (t1' & Hm' & Hn').
    rewrite Hm', Hn'. auto.
  - intros H1. apply IH2, IH1, H1.
Qed.

Lemma sum_stars_ints (nodes : list pyval) (counts : list Z) (total : Z) :
  Forall2 (fun node n => getitem node (txt "stargazerCount") = Ok (PInt n))
          nodes counts ->
  sum_stars nodes total = Ok (total + sumZ counts)%Z.
Proof.
  intros H. revert total.
  induction H as [|node n nodes counts Hn _ IH]; intros total; simpl.
  - f_equal. lia.
  - rewrite Hn. simpl. rewrite IH. f_equal. lia.
Qed.

(** X10. When every node carries an integer [stargazerCount], the
    star total does not depend on the order of the nodes: the nodes in
    any other order add up to the same total. *)
Theorem sum_stars_permutation (nodes1 nodes2 : list pyval) (counts : list Z)
    (total : Z) :
  Forall2 (fun node n => getitem node (txt "stargazerCount") = Ok (PInt n))
          nodes1 counts ->
  nodes1 ≡ₚ nodes2 ->
  sum_stars nodes2 total = sum_stars nodes1 total
  /\ sum_stars nodes2 total = Ok (total + sumZ counts)%Z.
Proof.
  intros Hints Hperm.
  pose proof (sum_stars_ints nodes1 counts total Hints) as H1.
  pose proof (sum_stars_reorder _ _ Hperm _ _ H1) as H2.
  rewrite H1, H2. split; reflexivity.
Qed.

Lemma sum_stars_permutation_witness :
  sum_stars (rev sample_nodes) 10 = sum_stars sample_nodes 10
  /\ sum_stars (rev sample_nodes) 10 = Ok (10 + sumZ [3; 5])%Z.
Proof.
  apply (sum_stars_permutation sample_nodes (rev sample_nodes) [3; 5]%Z).
  - repeat constructor.
  - apply Permutation_rev.
Defined.

(** X11. When every node carries an integer [stargazerCount], the
    star total of the nodes is the running total plus the sum of the
    counts. *)
Theorem sum_stars_counts (nodes : list pyval) (counts : list Z) (total : Z) :
  Forall2 (fun node n => getitem node (txt "stargazerCount") = Ok (PInt n))
          nodes counts ->
  sum_stars nodes total = Ok (total + sumZ counts)%Z.
Proof. apply sum_stars_ints. Qed.

Lemma sum_stars_counts_witness :
  sum_stars sample_nodes 0 = Ok (0 + sumZ [3; 5])%Z.
Proof.
  apply sum_stars_counts. repeat constructor.
Defined.

(** X12. The loop of [fetch_total_stars] has no page limit of its own:
    while the API keeps announcing a next page it keeps requesting, one
    request per iteration, and never returns. *)
Theorem fetch_total_stars_endless (W : World) (token login : list N) :
  (forall s cursor, exists data s1,
      execute W token stars_query (stars_variables login cursor) s
      = (Ok data, s1)
      /\ page_with_next data) ->
  forall fuel s,
    fst (fetch_total_stars W token login fuel s) = OutOfFuel
    /\ length (trace (snd (fetch_total_stars W token login fuel s)))
       = (length (trace s) + fuel)%nat.
Proof.
  intros Hmore fuel. unfold fetch_total_stars.
  generalize 0%Z as total. generalize PNone as cursor.
  induction fuel as [|fuel IH]; intros cursor total s.
  - simpl. split; [reflexivity|lia].
  - destruct (Hmore s cursor)
      as (data & s1 & He & items & info & more & next & Hp & Hsum & Hm & Ht
          & Hnext).
    rewrite (stars_loop_step _ _ _ _ _ _ _ _ _ _ _ He Hp).
    destruct (Hsum total) as [t Hs]. rewrite Hs, Hm, Ht, Hnext. cbn [negb].
    destruct (IH next t s1) as [H1 H2]. split; [exact H1|].
    rewrite H2.
    pose proof (execute_state W token stars_query
                  (stars_variables login cursor) s) as Hst.
    rewrite He in Hst. cbn [snd] in Hst. rewrite Hst. cbn [trace].
    rewrite length_app. simpl. lia.
Qed.

Lemma fetch_total_stars_endless_witness :
  fst (fetch_total_stars endless_world (txt "t0ken") (txt "octocat") 50
         sample_state) = OutOfFuel
  /\ length (trace (snd (fetch_total_stars endless_world (txt "t0ken")
                           (txt "octocat") 50 sample_state)))
     = (length (trace sample_state) + 50)%nat.
Proof.
  apply (fetch_total_stars_endless endless_world (txt "t0ken") (txt "octocat")).
  intros s cursor. eexists. eexists. split; [reflexivity|].
  exists sample_nodes. eexists. eexists. eexists.
  split; [reflexivity|]. split.
  - intros total. eexists. reflexivity.
  - split; [reflexivity|]. split; reflexivity.
Defined.

(** X13. A reply without a user to the first stars request makes
    [fetch_total_stars] raise [TypeError]; [main] fetches the stars
    first, so for such an account it ends with that [TypeError] after
    one request, before the creation date is ever asked for. *)
Theorem main_user_missing (W : World) (args : cli) (fuel : nat)
    (s s1 : state) (data : pyval) :
  falsy (or_else (environ W !! txt "GITHUB_TOKEN")
                 (environ W !! txt "TOKEN")) = false ->
  falsy (match opt_login args with
         | Some l => Some l
         | None => environ W !! txt "GITHUB_REPOSITORY_OWNER"
         end) = false ->
  execute W (the_token W) stars_query
    (stars_variables (the_login W args) PNone) (started W args s)
  = (Ok data, s1) ->
  getitem data (txt "user") = Ok PNone ->
  fetch_total_stars W (the_token W) (the_login W args) (S fuel)
    (started W args s) = (Raise TypeError, s1)
  /\ main W args (S fuel) s = (Raise TypeError, s1)
  /\ trace s1
     = trace s
       ++ [EPrint (txt "Fetching stats for " ++ the_login W args ++ [32; 8230]);
           ENet (stars_request (the_token W) (the_login W args) PNone)].
Proof.
  intros Ht Hl He Hu.
  assert (Hstars : fetch_total_stars W (the_token W) (the_login W args) (S fuel)
                     (started W args s) = (Raise TypeError, s1)).
  { unfold fetch_total_stars. cbn [stars_loop]. unfold bind at 1.
    fold (stars_variables (the_login W args) PNone). rewrite He.
    unfold bind at 1, lift. rewrite Hu. reflexivity. }
  split; [exact Hstars|]. split.
  - rewrite (main_unfold W args (S fuel) s Ht Hl), Hstars. reflexivity.
  - pose proof (execute_state W (the_token W) stars_query
                  (stars_variables (the_login W args) PNone)
                  (started W args s)) as Hst.
    rewrite He in Hst. cbn [snd] in Hst. rewrite Hst. unfold started.
    cbn [trace]. rewrite <- app_assoc. reflexivity.
Qed.

Lemma main_user_missing_witness :
  main ghost_world (Cli None None None) 3 sample_state
  = (Raise TypeError,
     snd (execute ghost_world (txt "t0ken") stars_query
            (stars_variables (txt "ghost") PNone)
            (started ghost_world (Cli None None None) sample_state))).
Proof.
  apply (main_user_missing ghost_world (Cli None None None) 2 sample_state _
           (PDict [(txt "user", PNone)])).
  - reflexivity.
  - reflexivity.
  - vm_compute. reflexivity.
  - reflexivity.
Defined.

(** ** More on the API client *)

(** X14. [execute] returns a value exactly when the decoded reply is
    a JSON object without an [errors] member and with a [data] member,
    and then it returns that member, after one request. *)
Theorem execute_returns_data (W : World) (token query : list N)
    (variables : list (list N * pyval)) (s s' : state) (data : pyval) :
  execute W token query variables s = (Ok data, s')
  <-> (exists d,
          urlopen W (trace s) (Request token query variables) = Reply (PDict d)
          /\ assoc (txt "errors") d = None
          /\ assoc (txt "data") d = Some data)
      /\ s' = State (trace s ++ [ENet (Request token query variables)])
                    (files s).
Proof.
  unfold execute. split.
  - destruct (urlopen _ _ _) as [reply| |e]; try discriminate.
    destruct reply as [|b|z|t|l|d|o r]; try discriminate.
    + simpl. destruct (is_infix _ t); discriminate.
    + simpl. destruct (existsb _ l); discriminate.
    + simpl. destruct (assoc (txt "errors") d) as [errs|] eqn:He.
      * rewrite bool_decide_eq_true_2 by eauto. discriminate.
      * rewrite bool_decide_eq_false_2 by (intros [? ?]; discriminate).
        destruct (assoc (txt "data") d) as [v|] eqn:Hd; try discriminate.
        intros [= <- <-]. split; [|reflexivity]. exists d. auto.
  - intros [(d & -> & He & Hd) ->]. simpl. rewrite He, Hd.
    rewrite bool_decide_eq_false_2 by (intros [? ?]; discriminate).
    reflexivity.
Qed.

(** X15. [execute] raises a [RuntimeError], or an exception of a
    subclass of it, in three cases only: the HTTP layer reported a
    status, and the exception is the request-failed one with that
    status and body; or the reply is a JSON object with an [errors]
    member, and the exception is the API-error one with its string
    form; or the transport or the decoding of the body raised it
    itself, as [json.loads] raises [RecursionError] on a deeply nested
    body, and [execute] passes it on, as it does with everything else
    they raise. *)
Theorem execute_runtime_error (W : World) (token query : list N)
    (variables : list (list N * pyval)) (s s' : state) (e : exn) :
  execute W token query variables s = (Raise e, s') ->
  ((forall e0,
       urlopen W (trace s) (Request token query variables) = Failed e0 ->
       e = e0)
   /\ (is_runtime_error e = true ->
       (exists code detail,
           urlopen W (trace s) (Request token query variables)
           = HTTPError code detail
           /\ e = RuntimeError (request_failed_message code detail))
       \/ (exists d errs,
              urlopen W (trace s) (Request token query variables)
              = Reply (PDict d)
              /\ assoc (txt "errors") d = Some errs
              /\ e = RuntimeError (api_errors_message (py_str (repr W) errs)))
       \/ urlopen W (trace s) (Request token query variables) = Failed e)).
Proof.
  unfold execute.
  destruct (urlopen _ _ _) as [reply|code detail|e1].
  - intros H. split; [discriminate|]. revert H.
    destruct reply as [|b|z|t|l|d|o r];
      try (intros [= <- _]; discriminate).
    + simpl. destruct (is_infix _ t); intros [= <- _]; discriminate.
    + simpl. destruct (existsb _ l); intros [= <- _]; discriminate.
    + simpl. destruct (assoc (txt "errors") d) as [errs|] eqn:He.
      * rewrite bool_decide_eq_true_2 by eauto. intros [= <- _] _.
        right. left. exists d, errs. auto.
      * rewrite bool_decide_eq_false_2 by (intros [? ?]; discriminate).
        destruct (assoc (txt "data") d); [discriminate|].
        intros [= <- _]. discriminate.
  - intros [= <- _]. split; [discriminate|]. intros _. left. eauto.
  - intros [= <- _]. split; [intros e0 [= <-]; reflexivity|].
    intros _. right. right. reflexivity.
Qed.

Lemma execute_runtime_error_witness :
  (exists code detail,
      urlopen flaky_world (trace (State [] ∅))
        (Request (txt "t0ken") created_at_query [])
      = HTTPError code detail
      /\ RuntimeError (txt "GraphQL request failed (502): Bad Gateway")
         = RuntimeError (request_failed_message code detail))
  \/ (exists d errs,
         urlopen flaky_world (trace (State [] ∅))
           (Request (txt "t0ken") created_at_query []) = Reply (PDict d)
         /\ assoc (txt "errors") d = Some errs
         /\ RuntimeError (txt "GraphQL request failed (502): Bad Gateway")
            = RuntimeError (api_errors_message (py_str (repr flaky_world) errs)))
  \/ urlopen flaky_world (trace (State [] ∅))
        (Request (txt "t0ken") created_at_query [])
      = Failed (RuntimeError (txt "GraphQL request failed (502): Bad Gateway")).
Proof.
  apply (proj2 (execute_runtime_error flaky_world (txt "t0ken")
                  created_at_query [] (State [] ∅)
                  (State [ENet (Request (txt "t0ken") created_at_query [])] ∅)
                  (RuntimeError (txt "GraphQL request failed (502): Bad Gateway"))
                  eq_refl)).
  reflexivity.
Defined.

(** ** More on the creation date *)

Lemma replace_Z_other (stamp : list N) :
  Forall (fun c => c <> 90) stamp -> replace_Z stamp = stamp.
Proof.
  unfold replace_Z. induction 1 as [|c stamp Hc _ IH]; [reflexivity|].
  simpl. apply N.eqb_neq in Hc. rewrite Hc. simpl. rewrite IH. reflexivity.
Qed.

(** X16. For a user whose [createdAt] is a timestamp that ends in
    ["Z"] and has no other ["Z"], [fetch_user_created_at] returns what
    [fromisoformat] makes of the timestamp with ["+00:00"] in place of
    the ["Z"]. *)
Theorem fetch_user_created_at_utc (W : World) (token login : list N)
    (s s1 : state) (data user : pyval) (stamp : list N) (dt : pydatetime) :
  execute W token created_at_query [(txt "login", PStr login)] s
  = (Ok data, s1) ->
  dict_get data (txt "user") = Ok user ->
  truthy user = true ->
  getitem user (txt "createdAt") = Ok (PStr (stamp ++ txt "Z")) ->
  Forall (fun c => c <> 90) stamp ->
  fromisoformat W (stamp ++ txt "+00:00") = Some dt ->
  fetch_user_created_at W token login s = (Ok dt, s1).
Proof.
  intros He Hu Ht Hc Hz Hp.
  unfold fetch_user_created_at, bind, lift, raise, ret.
  rewrite He, Hu, Ht, Hc. cbn [negb].
  assert (Hr : replace_Z (stamp ++ txt "Z") = stamp ++ txt "+00:00").
  { unfold replace_Z. rewrite flat_map_app.
    fold (replace_Z stamp). rewrite (replace_Z_other stamp Hz). reflexivity. }
  rewrite Hr, Hp. reflexivity.
Qed.

Lemma fetch_user_created_at_utc_witness :
  fetch_user_created_at world_2022 (txt "t0ken") (txt "octocat") sample_state
  = (Ok (Datetime 2020 12 31 10 0 0 0 UTC),
     State [ENet (Request (txt "t0ken") created_at_query
                    [(txt "login", PStr (txt "octocat"))])]
           (files sample_state)).
Proof.
  apply (fetch_user_created_at_utc world_2022 (txt "t0ken") (txt "octocat")
           sample_state _
           (PDict [(txt "user",
                    PDict [(txt "createdAt",
                            PStr (txt "2020-12-31T10:00:00Z"))])])
           (PDict [(txt "createdAt", PStr (txt "2020-12-31T10:00:00Z"))])
           (txt "2020-12-31T10:00:00")).
  - vm_compute. reflexivity.
  - reflexivity.
  - reflexivity.
  - reflexivity.
  - repeat constructor; discriminate.
  - vm_compute. reflexivity.
Defined.

(** X17. What [fetch_user_created_at] does with a user it cannot read
    a date from: without a [createdAt] member it raises [KeyError], with
    one that is no string [AttributeError], with a string that
    [fromisoformat] rejects [ValueError]; the state is the one after the
    request. *)
Theorem fetch_user_created_at_errors (W : World) (token login : list N)
    (s s1 : state) (data : pyval) (d : list (list N * pyval)) :
  execute W token created_at_query [(txt "login", PStr login)] s
  = (Ok data, s1) ->
  dict_get data (txt "user") = Ok (PDict d) ->
  d <> [] ->
  (assoc (txt "createdAt") d = None ->
   fetch_user_created_at W token login s
   = (Raise (KeyError (txt "createdAt")), s1))
  /\ (forall v,
         assoc (txt "createdAt") d = Some v ->
         (forall t, v <> PStr t) ->
         fetch_user_created_at W token login s = (Raise AttributeError, s1))
  /\ (forall t,
         assoc (txt "createdAt") d = Some (PStr t) ->
         fromisoformat W (replace_Z t) = None ->
         fetch_user_created_at W token login s = (Raise ValueError, s1)).
Proof.
  intros He Hu Hd.
  assert (Ht : truthy (PDict d) = true) by (destruct d; [congruence|reflexivity]).
  unfold fetch_user_created_at, bind, lift, raise, ret.
  rewrite He, Hu, Ht. cbn [negb getitem]. split; [|split].
  - intros ->. reflexivity.
  - intros v -> Hv. destruct v; try reflexivity. exfalso. eapply Hv. reflexivity.
  - intros t -> ->. reflexivity.
Qed.

Lemma fetch_user_created_at_errors_witness :
  fetch_user_created_at undated_world (txt "t0ken") (txt "octocat")
    sample_state
  = (Raise AttributeError,
     State [ENet (Request (txt "t0ken") created_at_query
                    [(txt "login", PStr (txt "octocat"))])]
           (files sample_state)).
Proof.
  apply (proj1 (proj2 (fetch_user_created_at_errors undated_world
                         (txt "t0ken") (txt "octocat") sample_state _
                         (PDict [(txt "user",
                                  PDict [(txt "createdAt", PInt 1609408800)])])
                         [(txt "createdAt", PInt 1609408800)]
                         ltac:(vm_compute; reflexivity) eq_refl
                         ltac:(discriminate)))
           (PInt 1609408800)).
  - reflexivity.
  - discriminate.
Defined.

(** ** What is sent, and for whom *)

Lemma sends_lift {A} P (r : outcome A) : sends P (lift r).
Proof.
  intros s. exists []. simpl. rewrite app_nil_r.
  split; [symmetry; apply state_eta|constructor].
Qed.

Lemma sends_bind {A B} P (m : M A) (k : A -> M B) :
  sends P m -> (forall a, sends P (k a)) -> sends P (bind m k).
Proof.
  intros Hm Hk s. unfold bind. destruct (Hm s) as (r1 & H1 & HP1).
  destruct (m s) as [[a|e|] s1]; cbn [snd] in H1; subst s1;
    try (exists r1; split; [reflexivity|exact HP1]).
  destruct (Hk a (State (trace s ++ List.map ENet r1) (files s)))
    as (r2 & H2 & HP2).
  exists (r1 ++ r2). rewrite H2. cbn [trace files].
  rewrite List.map_app, app_assoc. split; [reflexivity|].
  apply Forall_app. split; assumption.
Qed.

Lemma sends_execute P W token query variables :
  P (Request token query variables) ->
  sends P (execute W token query variables).
Proof.
  intros HP s. exists [Request token query variables].
  split; [apply execute_state|]. constructor; [exact HP|constructor].
Qed.

Lemma sends_fetch_user_created_at W token login :
  sends (request_of token login) (fetch_user_created_at W token login).
Proof.
  unfold fetch_user_created_at, raise.
  apply sends_bind; [apply sends_execute; split; reflexivity|]. intros data.
  apply sends_bind; [apply sends_lift|]. intros user.
  destruct (negb (truthy user)); [apply sends_lift|].
  apply sends_bind; [apply sends_lift|]. intros c.
  destruct c; try apply sends_lift.
  destruct (fromisoformat W _); apply sends_lift.
Qed.

Lemma sends_commit_loop W token login now fuel :
  forall period_start total,
    sends (request_of token login)
          (commit_loop W token login now fuel period_start total).
Proof.
  induction fuel as [|fuel IH]; intros period_start total; simpl;
    destruct (dt_lt period_start now) as [[|]| |]; unfold raise;
    try apply sends_lift.
  apply sends_bind; [|intros st; apply IH].
  unfold commit_step.
  apply sends_bind; [apply sends_lift|]. intros boundary.
  apply sends_bind; [apply sends_lift|]. intros later.
  apply sends_bind; [apply sends_lift|]. intros from.
  apply sends_bind; [apply sends_lift|]. intros to.
  apply sends_bind; [apply sends_execute; split; reflexivity|]. intros data.
  do 4 (apply sends_bind; [apply sends_lift|intros ?]).
  apply sends_lift.
Qed.

Lemma sends_fetch_commit_total W token login fuel :
  sends (request_of token login) (fetch_commit_total W token login fuel).
Proof.
  unfold fetch_commit_total.
  apply sends_bind; [apply sends_fetch_user_created_at|]. intros c.
  apply sends_bind; [|intros now; apply sends_commit_loop].
  intros s. exists []. simpl. rewrite app_nil_r.
  split; [symmetry; apply state_eta|constructor].
Qed.

Lemma sends_stars_loop W token login fuel :
  forall total cursor,
    sends (request_of token login) (stars_loop W token login fuel total cursor).
Proof.
  induction fuel as [|fuel IH]; intros total cursor; simpl;
    [apply sends_lift|].
  apply sends_bind; [apply sends_execute; split; reflexivity|]. intros data.
  do 7 (apply sends_bind; [apply sends_lift|intros ?]).
  destruct (negb _); [apply sends_lift|].
  do 2 (apply sends_bind; [apply sends_lift|intros ?]).
  apply IH.
Qed.

(** X18. All that [fetch_total_stars] and [fetch_commit_total] do to
    the world is to send requests: each request carries the client's
    token and asks about the given login, and the files stay as they
    are, whether the call returns or fails. *)
Theorem fetchers_send_requests_only (W : World) (token login : list N)
    (fuel : nat) (s : state) :
  (exists reqs,
      snd (fetch_total_stars W token login fuel s)
      = State (trace s ++ List.map ENet reqs) (files s)
      /\ Forall (request_of token login) reqs)
  /\ (exists reqs,
         snd (fetch_commit_total W token login fuel s)
         = State (trace s ++ List.map ENet reqs) (files s)
         /\ Forall (request_of token login) reqs).
Proof.
  split.
  - apply (sends_stars_loop W token login fuel 0%Z PNone s).
  - apply (sends_fetch_commit_total W token login fuel s).
Qed.

Lemma in_requests req reqs :
  In (ENet req) (List.map ENet reqs) -> In req reqs.
Proof.
  intros H. apply in_map_iff in H as (r & [= ->] & Hr). exact Hr.
Qed.

(** X19. Every request of a run of [main] carries the token of the
    environment ([GITHUB_TOKEN], or [TOKEN] when that one is unset or
    empty) and asks about the login of the command line, or of
    [GITHUB_REPOSITORY_OWNER] when [--login] is not given. *)
Theorem main_requests (W : World) (args : cli) (fuel : nat) (s : state) :
  exists evs,
    trace (snd (main W args fuel s)) = trace s ++ evs
    /\ forall req,
         In (ENet req) evs -> request_of (the_token W) (the_login W args) req.
Proof.
  destruct (falsy (or_else (environ W !! txt "GITHUB_TOKEN")
                           (environ W !! txt "TOKEN"))) eqn:Ht.
  { exists []. unfold main. rewrite Ht. simpl. rewrite app_nil_r.
    split; [reflexivity|]. intros req []. }
  destruct (falsy (match opt_login args with
                   | Some l => Some l
                   | None => environ W !! txt "GITHUB_REPOSITORY_OWNER"
                   end)) eqn:Hl.
  { exists []. unfold main. rewrite Ht, Hl. simpl. rewrite app_nil_r.
    split; [reflexivity|]. intros req []. }
  rewrite (main_unfold W args fuel s Ht Hl).
  destruct (sends_stars_loop W (the_token W) (the_login W args) fuel 0%Z PNone
              (started W args s)) as (reqs1 & H1 & HP1).
  fold (fetch_total_stars W (the_token W) (the_login W args) fuel) in H1.
  destruct (fetch_total_stars _ _ _ _ _) as [r1 s1]. cbn [snd] in H1.
  destruct (sends_fetch_commit_total W (the_token W) (the_login W args) fuel s1)
    as (reqs2 & H2 & HP2).
  destruct (fetch_commit_total _ _ _ _ s1) as [r2 s2]. cbn [snd] in H2.
  rewrite List.Forall_forall in HP1, HP2.
  assert (Ht1 : trace s1
                = trace s ++ [EPrint (txt "Fetching stats for "
                                      ++ the_login W args ++ [32; 8230])]
                  ++ List.map ENet reqs1).
  { rewrite H1. unfold started. cbn [trace]. rewrite <- app_assoc. reflexivity. }
  assert (Ht2 : trace s2
                = trace s ++ [EPrint (txt "Fetching stats for "
                                      ++ the_login W args ++ [32; 8230])]
                  ++ List.map ENet reqs1 ++ List.map ENet reqs2).
  { rewrite H2. cbn [trace]. rewrite Ht1, <- !app_assoc. reflexivity. }
  assert (Hin1 : forall req tail,
             (forall r, ~ In (ENet r) tail) ->
             In (ENet req)
                ([EPrint (txt "Fetching stats for " ++ the_login W args
                          ++ [32; 8230])]
                 ++ List.map ENet reqs1 ++ tail) ->
             request_of (the_token W) (the_login W args) req).
  { intros req tail Htail H. cbn [app In] in H.
    destruct H as [H|H]; [discriminate|].
    apply in_app_or in H as [H|H]; [apply HP1, in_requests, H|].
    exfalso. exact (Htail _ H). }
  assert (Hin2 : forall req tail,
             (forall r, ~ In (ENet r) tail) ->
             In (ENet req)
                ([EPrint (txt "Fetching stats for " ++ the_login W args
                          ++ [32; 8230])]
                 ++ List.map ENet reqs1 ++ List.map ENet reqs2 ++ tail) ->
             request_of (the_token W) (the_login W args) req).
  { intros req tail Htail H. cbn [app In] in H.
    destruct H as [H|H]; [discriminate|].
    apply in_app_or in H as [H|H]; [apply HP1, in_requests, H|].
    apply in_app_or in H as [H|H]; [apply HP2, in_requests, H|].
    exfalso. exact (Htail _ H). }
  destruct r1 as [stars| |].
  - destruct r2 as [commits| |].
    + destruct (too_many_digits stars).
      { cbn [snd]. rewrite Ht2. eexists. split; [reflexivity|].
        intros req Hreq. apply (Hin2 req []); [intros r []|].
        rewrite app_nil_r. exact Hreq. }
      destruct (too_many_digits commits).
      { cbn [snd trace]. rewrite Ht2, <- !app_assoc. eexists.
        split; [reflexivity|]. intros req. apply Hin2. intros r Hr.
        simpl in Hr. intuition discriminate. }
      destruct (files s2 !! _) as [template_text|].
      * destruct (render_template _ _ _) as [rendered| |]; cbn [snd trace];
          rewrite Ht2, <- !app_assoc; eexists; (split; [reflexivity|]);
          intros req; apply Hin2; intros r Hr; simpl in Hr;
          intuition discriminate.
      * cbn [snd trace]. rewrite Ht2, <- !app_assoc. eexists.
        split; [reflexivity|]. intros req. apply Hin2. intros r Hr.
        simpl in Hr. intuition discriminate.
    + cbn [snd]. rewrite Ht2. eexists. split; [reflexivity|].
      intros req Hreq. apply (Hin2 req []); [intros r []|].
      rewrite app_nil_r. exact Hreq.
    + cbn [snd]. rewrite Ht2. eexists. split; [reflexivity|].
      intros req Hreq. apply (Hin2 req []); [intros r []|].
      rewrite app_nil_r. exact Hreq.
  - cbn [snd]. rewrite Ht1. eexists. split; [reflexivity|].
    intros req Hreq. apply (Hin1 req []); [intros r []|].
    rewrite app_nil_r. exact Hreq.
  - cbn [snd]. rewrite Ht1. eexists. split; [reflexivity|].
    intros req Hreq. apply (Hin1 req []); [intros r []|].
    rewrite app_nil_r. exact Hreq.
Qed.

(** ** More on the entry point *)

(** X20. A variable that is set to the empty string counts as unset:
    with [GITHUB_TOKEN] and [TOKEN] each unset or empty, [main] exits
    with the missing-token message; with a token, an empty [--login]
    exits with the missing-login message even when
    [GITHUB_REPOSITORY_OWNER] is set, and so does an unset or empty
    [GITHUB_REPOSITORY_OWNER] when [--login] is not given. Nothing was
    requested, read, written or printed before. *)
Theorem main_empty_configuration (W : World) (args : cli) (fuel : nat)
    (s : state) :
  (default [] (environ W !! txt "GITHUB_TOKEN") = [] ->
   default [] (environ W !! txt "TOKEN") = [] ->
   main W args fuel s = (Raise (SystemExit missing_token_message), s))
  /\ (falsy (or_else (environ W !! txt "GITHUB_TOKEN")
                     (environ W !! txt "TOKEN")) = false ->
      (opt_login args = Some []
       \/ (opt_login args = None
           /\ default [] (environ W !! txt "GITHUB_REPOSITORY_OWNER") = [])) ->
      main W args fuel s = (Raise (SystemExit missing_login_message), s)).
Proof.
  split.
  - intros H1 H2. unfold main.
    destruct (environ W !! txt "GITHUB_TOKEN") as [[|c t]|];
      destruct (environ W !! txt "TOKEN") as [[|c' t']|];
      try discriminate; reflexivity.
  - intros Ht [Ha|[Ha He]]; unfold main; rewrite Ht, Ha; [reflexivity|].
    destruct (environ W !! txt "GITHUB_REPOSITORY_OWNER") as [[|c t]|];
      try discriminate; reflexivity.
Qed.

Lemma main_empty_configuration_witness :
  main world_2022 (Cli None None (Some [])) 3 sample_state
  = (Raise (SystemExit missing_login_message), sample_state)
  /\ main undated_world (Cli None None (Some (txt "octocat"))) 3 sample_state
     = (Raise (SystemExit missing_token_message), sample_state).
Proof.
  split.
  - apply (proj2 (main_empty_configuration world_2022
                    (Cli None None (Some [])) 3 sample_state)).
    + reflexivity.
    + left. reflexivity.
  - apply (proj1 (main_empty_configuration undated_world
                    (Cli None None (Some (txt "octocat"))) 3 sample_state));
      reflexivity.
Defined.

(** X21. The template is read only after both totals were fetched:
    when it does not exist, [main] has sent every request and printed
    both totals before it raises [FileNotFoundError], and it has written
    nothing. (A total of more than 4300 digits cannot be printed: the
    run ends with [ValueError] at that print, before the read.) *)
Theorem main_template_missing (W : World) (args : cli) (fuel : nat)
    (s s1 s2 : state) (stars commits : Z) :
  let template := default (txt "TEMPLATE.md") (opt_template args) in
  falsy (or_else (environ W !! txt "GITHUB_TOKEN")
                 (environ W !! txt "TOKEN")) = false ->
  falsy (match opt_login args with
         | Some l => Some l
         | None => environ W !! txt "GITHUB_REPOSITORY_OWNER"
         end) = false ->
  fetch_total_stars W (the_token W) (the_login W args) fuel (started W args s)
  = (Ok stars, s1) ->
  fetch_commit_total W (the_token W) (the_login W args) fuel s1
  = (Ok commits, s2) ->
  files s !! template = None ->
  main W args fuel s
  = if too_many_digits stars then (Raise ValueError, s2)
    else if too_many_digits commits then
      (Raise ValueError,
       State (trace s2 ++ [EPrint (txt "Total stars: " ++ str_int stars)])
             (files s))
    else
      (Raise (FileNotFoundError template),
       State (trace s2
              ++ [EPrint (txt "Total stars: " ++ str_int stars);
                  EPrint (txt "Total commits: " ++ str_int commits);
                  ERead template])
             (files s)).
Proof.
  intros template Ht Hl Hstars Hcommits Hfile.
  rewrite (main_unfold W args fuel s Ht Hl), Hstars, Hcommits.
  fold template.
  destruct (api_only_fetch_total_stars W (the_token W) (the_login W args) fuel
              (started W args s)) as [reqs1 H1].
  rewrite Hstars in H1. cbn [snd] in H1.
  destruct (api_only_fetch_commit_total W (the_token W) (the_login W args) fuel
              s1) as [reqs2 H2].
  rewrite Hcommits in H2. cbn [snd] in H2.
  assert (Hf2 : files s2 = files s) by (rewrite H2, H1; reflexivity).
  rewrite Hf2, Hfile. reflexivity.
Qed.


Lemma main_template_missing_witness :
  let s := State [] ∅ in
  let args := Cli None None None in
  main world_2022 args 5 s
  = (Raise (FileNotFoundError (txt "TEMPLATE.md")),
     State (trace (snd (fetch_commit_total world_2022 (txt "t0ken")
                          (txt "octocat") 5
                          (snd (fetch_total_stars world_2022 (txt "t0ken")
                                  (txt "octocat") 5
                                  (started world_2022 args s)))))
            ++ [EPrint (txt "Total stars: " ++ str_int 8);
                EPrint (txt "Total commits: " ++ str_int 12);
                ERead (txt "TEMPLATE.md")])
           ∅).
Proof.
  intros s args.
  apply (main_template_missing world_2022 args 5 s
           (snd (fetch_total_stars world_2022 (txt "t0ken") (txt "octocat") 5
                   (started world_2022 args s)))
           (snd (fetch_commit_total world_2022 (txt "t0ken") (txt "octocat") 5
                   (snd (fetch_total_stars world_2022 (txt "t0ken")
                           (txt "octocat") 5 (started world_2022 args s)))))
           8 12 eq_refl eq_refl).
  - vm_compute. reflexivity.
  - vm_compute. reflexivity.
  - reflexivity.
Defined.
